(** * use-phone-skill: coordinate mapping, screen geometry, narrative
      extraction and the auto-view orchestrator

    A shallow embedding of [scripts/phone_view.py] and
    [scripts/phone_control.py].  Python [int] is [Z]; Python [float] is
    IEEE-754 binary64, taken from the Standard Library's [SpecFloat]
    (precision 53, [emax] 1024, round to nearest even); a Python [str] is a
    list of Unicode code points; a call that may raise returns a [result]. *)

From Stdlib Require Import ZArith Lia List Bool String Ascii DecimalString SpecFloat.
Import ListNotations.
Local Open Scope Z_scope.

(** ** Exceptions and results *)

(** The subclasses of [Exception] that occur. *)
Inductive exception : Type :=
| ZeroDivisionError
| OverflowError
| ValueError
| TypeError
| AttributeError (type_name : list Z)
| FileNotFoundError
| OtherException (message : list Z).

(** What a call may raise: an [Exception], which [except Exception]
    catches, or the [SystemExit] of [sys.exit], which it does not. *)
Inductive exn : Type :=
| Exception (e : exception)
| SystemExit (code : Z).

Coercion Exception : exception >-> exn.

Inductive result (A : Type) : Type :=
| Ok (a : A)
| Raise (e : exn).
Arguments Ok {A} a.
Arguments Raise {A} e.

Definition bind {A B} (r : result A) (k : A -> result B) : result B :=
  match r with
  | Ok a => k a
  | Raise e => Raise e
  end.

Notation "x <- r ;; k" := (bind r (fun x => k))
  (at level 61, r at next level, right associativity).
Notation "' pat <- r ;; k" := (bind r (fun x => match x with pat => k end))
  (at level 61, pat pattern, r at next level, right associativity).

(** ** Python floats *)

Module PyFloat.

Definition prec : Z := 53.
Definition emax : Z := 1024.

Definition float := spec_float.

(** [float(n)] for an [int] [n], before the range check. *)
Definition of_Z (n : Z) : float := binary_normalize prec emax n 0 false.

(** The conversion Python applies to the [int] operand of a mixed
    [int]/[float] operation: "int too large to convert to float". *)
Definition of_int (n : Z) : result float :=
  match of_Z n with
  | S754_infinity _ => Raise OverflowError
  | f => Ok f
  end.

(** An [int] as an unrounded binary number. *)
Definition integer (n : Z) : float :=
  match n with
  | Z0 => S754_zero false
  | Zpos p => S754_finite false p 0
  | Zneg p => S754_finite true p 0
  end.

(** [a / b] on two [int]s: the correctly rounded quotient. *)
Definition truediv (a b : Z) : result float :=
  if b =? 0 then Raise ZeroDivisionError
  else if a =? 0 then Ok (S754_zero (b <? 0))
  else match SFdiv prec emax (integer a) (integer b) with
       | S754_infinity _ => Raise OverflowError
       | f => Ok f
       end.

Definition mul (x y : float) : float := SFmul prec emax x y.
Definition sub (x y : float) : float := SFsub prec emax x y.

(** [int(x)]: truncation towards zero. *)
Definition to_int (x : float) : result Z :=
  match x with
  | S754_zero _ => Ok 0
  | S754_finite s m e =>
      let a := match e with
               | Zneg p => Z.shiftr (Zpos m) (Zpos p)
               | _ => Z.shiftl (Zpos m) e
               end in
      Ok (if s then - a else a)
  | S754_infinity _ => Raise OverflowError
  | S754_nan => Raise ValueError
  end.

(** Comparison of a [float] with an [int]: Python compares the two exact
    values; a NaN is unordered. *)
Definition compare_int (x : float) (n : Z) : option comparison :=
  match x with
  | S754_nan => None
  | S754_infinity s => Some (if s then Lt else Gt)
  | S754_zero _ => Some (0 ?= n)
  | S754_finite s m e =>
      let v := if s then Zneg m else Zpos m in
      Some match e with
           | Zneg p => v ?= Z.shiftl n (Zpos p)
           | _ => Z.shiftl v e ?= n
           end
  end.

(** [n < x] and [n > x] for an [int] [n] and a [float] [x]. *)
Definition int_lt (n : Z) (x : float) : bool :=
  match compare_int x n with Some Gt => true | _ => false end.
Definition int_gt (n : Z) (x : float) : bool :=
  match compare_int x n with Some Lt => true | _ => false end.
(** [x > n]. *)
Definition gt_int (x : float) (n : Z) : bool :=
  match compare_int x n with Some Gt => true | _ => false end.

End PyFloat.

(** ** CoordinateMapper: [phone_view.py] *)

Definition clamp (lo hi v : Z) : Z := Z.max lo (Z.min hi v).

(** [int(rel / 1000 * size)] *)
Definition scale_relative (rel size : Z) : result Z :=
  q <- PyFloat.truediv rel 1000 ;;
  w <- PyFloat.of_int size ;;
  PyFloat.to_int (PyFloat.mul q w).

Definition convert_relative_to_absolute
  (rel_x rel_y screen_width screen_height : Z) : result (Z * Z) :=
  let rel_x := Z.max 0 (Z.min 999 rel_x) in
  let rel_y := Z.max 0 (Z.min 999 rel_y) in
  abs_x <- scale_relative rel_x screen_width ;;
  abs_y <- scale_relative rel_y screen_height ;;
  Ok (abs_x, abs_y).

(** [int(pix * 1000 / size)] *)
Definition scale_absolute (pix size : Z) : result Z :=
  q <- PyFloat.truediv (pix * 1000) size ;;
  PyFloat.to_int q.

Definition convert_absolute_to_relative
  (abs_x abs_y screen_width screen_height : Z) : result (Z * Z) :=
  let abs_x := Z.max 0 (Z.min (screen_width - 1) abs_x) in
  let abs_y := Z.max 0 (Z.min (screen_height - 1) abs_y) in
  rel_x <- scale_absolute abs_x screen_width ;;
  rel_y <- scale_absolute abs_y screen_height ;;
  Ok (rel_x, rel_y).

(** ** Python strings *)

Module PyStr.

(** A [str] is its sequence of code points. *)
Definition str := list Z.

(** String literals are written as in the scripts and read through their
    UTF-8 encoding. *)
Fixpoint utf8_decode (bs : list Z) : str :=
  match bs with
  | [] => []
  | b :: t =>
      if b <? 128 then b :: utf8_decode t
      else if b <? 224 then
        match t with
        | b1 :: t1 => ((b - 192) * 64 + (b1 - 128)) :: utf8_decode t1
        | _ => []
        end
      else if b <? 240 then
        match t with
        | b1 :: b2 :: t2 =>
            ((b - 224) * 4096 + (b1 - 128) * 64 + (b2 - 128)) :: utf8_decode t2
        | _ => []
        end
      else
        match t with
        | b1 :: b2 :: b3 :: t3 =>
            ((b - 240) * 262144 + (b1 - 128) * 4096 + (b2 - 128) * 64 + (b3 - 128))
              :: utf8_decode t3
        | _ => []
        end
  end.

Definition u (s : string) : str :=
  utf8_decode (map (fun a => Z.of_N (N_of_ascii a)) (list_ascii_of_string s)).
Arguments u s%_string.

Fixpoint eqb (a b : str) : bool :=
  match a, b with
  | [], [] => true
  | x :: a', y :: b' => (x =? y) && eqb a' b'
  | _, _ => false
  end.

(** [str.isspace] and the class [\s] of a [str] pattern. *)
Definition is_space (c : Z) : bool :=
  ((9 <=? c) && (c <=? 13)) || ((28 <=? c) && (c <=? 32))
  || (c =? 0x85) || (c =? 0xA0) || (c =? 0x1680)
  || ((0x2000 <=? c) && (c <=? 0x200A))
  || (c =? 0x2028) || (c =? 0x2029) || (c =? 0x202F) || (c =? 0x205F)
  || (c =? 0x3000).

(** The zero of every run of decimal digits (category Nd, Unicode 14): the
    class [\d] of a [str] pattern, which [int] accepts as well. *)
Definition decimal_zeros : list Z :=
  [0x30; 0x660; 0x6f0; 0x7c0; 0x966; 0x9e6; 0xa66; 0xae6; 0xb66; 0xbe6;
   0xc66; 0xce6; 0xd66; 0xde6; 0xe50; 0xed0; 0xf20; 0x1040; 0x1090; 0x17e0;
   0x1810; 0x1946; 0x19d0; 0x1a80; 0x1a90; 0x1b50; 0x1bb0; 0x1c40; 0x1c50;
   0xa620; 0xa8d0; 0xa900; 0xa9d0; 0xa9f0; 0xaa50; 0xabf0; 0xff10; 0x104a0;
   0x10d30; 0x11066; 0x110f0; 0x11136; 0x111d0; 0x112f0; 0x11450; 0x114d0;
   0x11650; 0x116c0; 0x11730; 0x118e0; 0x11950; 0x11c50; 0x11d50; 0x11da0;
   0x16a60; 0x16ac0; 0x16b50; 0x1d7ce; 0x1d7d8; 0x1d7e2; 0x1d7ec; 0x1d7f6;
   0x1e140; 0x1e2f0; 0x1e950; 0x1fbf0].

Definition decimal_value (c : Z) : option N :=
  match find (fun z => (z <=? c) && (c <? z + 10)) decimal_zeros with
  | Some z => Some (Z.to_N (c - z))
  | None => None
  end.

(** The longest prefix of decimal digits, as digit values, and the rest. *)
Fixpoint span_digits (s : str) : list N * str :=
  match s with
  | [] => ([], [])
  | c :: s' =>
      match decimal_value c with
      | Some d => let (ds, r) := span_digits s' in (d :: ds, r)
      | None => ([], s)
      end
  end.

Definition int_max_str_digits : nat := 4300.

(** [int(text)] on a non-empty run of decimal digits; the interpreter
    refuses a numeral of more than [sys.int_max_str_digits] digits (the
    default of 4300 is taken). *)
Definition int_of_digits (ds : list N) : result Z :=
  if (int_max_str_digits <? List.length ds)%nat then Raise ValueError
  else Ok (Z.of_N (fold_left (fun acc d => 10 * acc + d)%N ds 0%N)).

Fixpoint strip_prefix (p s : str) : option str :=
  match p, s with
  | [], _ => Some s
  | x :: p', y :: s' => if x =? y then strip_prefix p' s' else None
  | _ :: _, [] => None
  end.

Definition startswith (p s : str) : bool :=
  match strip_prefix p s with Some _ => true | None => false end.

(** [needle in s] *)
Fixpoint contains (needle s : str) : bool :=
  startswith needle s
  || match s with
     | [] => false
     | _ :: s' => contains needle s'
     end.

Fixpoint lstrip (s : str) : str :=
  match s with
  | c :: s' => if is_space c then lstrip s' else s
  | [] => []
  end.

Definition rstrip (s : str) : str := rev (lstrip (rev s)).
Definition strip (s : str) : str := rstrip (lstrip s).

(** [s.split(sep)] for a separator of one code point. *)
Fixpoint split (sep : Z) (s : str) : list str :=
  match s with
  | [] => [[]]
  | c :: s' =>
      if c =? sep then [] :: split sep s'
      else match split sep s' with
           | l :: ls => (c :: l) :: ls
           | [] => [[c]]
           end
  end.

(** [s.replace(old, new)] for [old] of one code point. *)
Definition replace (old : Z) (new : str) (s : str) : str :=
  flat_map (fun c => if c =? old then new else [c]) s.

(** [str.lower], exact on ASCII and on the two other code points whose
    lower case contains an ASCII letter (U+0130 and U+212A); other code
    points are left as they are.  The scripts only compare lowered text
    with caseless keys and needles, for which this agrees with Python. *)
Definition lower (s : str) : str :=
  flat_map (fun c =>
              if (65 <=? c) && (c <=? 90) then [c + 32]
              else if c =? 0x130 then [105; 0x307]
              else if c =? 0x212A then [107]
              else [c]) s.

(** [str(n)] for an [int]. *)
Definition of_int (n : Z) : str :=
  map (fun a => Z.of_N (N_of_ascii a))
      (list_ascii_of_string (NilZero.string_of_int (Z.to_int n))).

(** An [int] as an f-string formats it: the interpreter refuses to write
    out more than [sys.int_max_str_digits] digits. *)
Definition format_int (n : Z) : result str :=
  if 10 ^ Z.of_nat int_max_str_digits <=? Z.abs n then Raise ValueError
  else Ok (of_int n).

(** [bytes.strip] and [bytes.rstrip], read on the decoded text: the white
    space of [bytes] is the six ASCII characters. *)
Definition is_ascii_space (c : Z) : bool :=
  ((9 <=? c) && (c <=? 13)) || (c =? 32).

Fixpoint lstrip_ascii (s : str) : str :=
  match s with
  | c :: s' => if is_ascii_space c then lstrip_ascii s' else s
  | [] => []
  end.

Definition rstrip_ascii (s : str) : str := rev (lstrip_ascii (rev s)).
Definition strip_ascii (s : str) : str := rstrip_ascii (lstrip_ascii s).

(** *** The patterns of [re] the scripts use

    A pattern is a sequence of literals, captured runs [(\d+)] and
    optional white space [\s*].  In every pattern of the scripts the
    element after a run cannot start with a code point of the run's
    class, so the greedy match is the only one. *)
Inductive tok : Type :=
| Lit (s : str)
| Digits
| Spaces.

Fixpoint match_here (ts : list tok) (s : str) : option (list (list N)) :=
  match ts with
  | [] => Some []
  | Lit p :: ts' =>
      match strip_prefix p s with
      | Some r => match_here ts' r
      | None => None
      end
  | Digits :: ts' =>
      match span_digits s with
      | ([], _) => None
      | (ds, r) => option_map (cons ds) (match_here ts' r)
      end
  | Spaces :: ts' => match_here ts' (lstrip s)
  end.

(** [re.search]: the match at the leftmost position that has one. *)
Fixpoint search (ts : list tok) (s : str) : option (list (list N)) :=
  match match_here ts s with
  | Some groups => Some groups
  | None =>
      match s with
      | [] => None
      | _ :: s' => search ts s'
      end
  end.

(** [int(m.group(1)), int(m.group(2))] *)
Definition two_ints (groups : list (list N)) : result (Z * Z) :=
  match groups with
  | [g1; g2] => a <- int_of_digits g1 ;; b <- int_of_digits g2 ;; Ok (a, b)
  | _ => Raise ValueError
  end.

Definition one_int (groups : list (list N)) : result Z :=
  match groups with
  | [g1] => int_of_digits g1
  | _ => Raise ValueError
  end.

End PyStr.

(** ** The world outside the interpreter

    The scripts talk to the device, the file system, the clock and their
    standard streams.  A run is recorded as the trace of these events, in
    order; what the outside answers is an oracle of the trace so far, so
    that the same command may be answered differently at different
    times. *)

Import PyStr.

(** The class [CmdResult] of both scripts.  The attribute [stdout] is a
    [str], but for the result [AdbClient.run] makes of a timeout, where it
    is the [bytes] object captured until then: [stdout_is_bytes] tells
    which, and [stdout] then holds the bytes as [to_dict] reads them,
    decoded as UTF-8 with the errors replaced. *)
Record CmdResult : Type := mkResult {
  ok : bool;
  command : list str;
  stdout : str;
  stderr : str;
  returncode : Z;
  stdout_is_bytes : bool
}.

(** [CmdResult(ok, command, stdout, stderr, returncode)] on two [str]s. *)
Abbreviation mkCmdResult ok command stdout stderr returncode :=
  (mkResult ok command stdout stderr returncode false).

(** What [subprocess.run] does with a command: it completes, with the text
    of both streams; or the time runs out, and the exception carries what
    was captured of both streams until then, as [bytes] whatever the mode
    of the pipes ([out] and [err] are these bytes decoded as UTF-8, with the
    errors replaced; nothing captured is the empty text); or the command
    is not run at all. *)
Inductive proc_outcome : Type :=
| Completed (code : Z) (out err : str)
| TimeoutExpired (out err : str)
| NotRun (e : exception).

Inductive warning : Type :=
| NearEdgeX (x : Z)
| NearStatusBarY (y : Z)
| NearNavigationBarY (y : Z).

(** [auto_view_desc]: [None], the description, or the dictionary put
    under the key [auto_view]. *)
#[warnings="-register-all"]
Inductive json : Type :=
| JNull
| JBool (b : bool)
| JInt (n : Z)
| JFloat (x : PyFloat.float)
| JString (s : str)
| JArray (items : list json)
| JObject (members : list (str * json)).

(** The text of an error: a message of the script, or [str(e)]. *)
Inductive error_text : Type :=
| Message (s : str)
| StrOf (e : exception).

Record auto_view_dict : Type := mkAutoView {
  av_ok : bool;
  av_description : option json;
  av_raw : option json;
  av_error : option error_text;
  av_returncode : option Z;
  av_timeout_error : option bool;
  (** the key is absent, or present with [None] or a number *)
  av_suggested_timeout : option (option Z)
}.

Inductive auto_view : Type :=
| AvNone
| AvText (description : str)
| AvDict (d : auto_view_dict).

(** A line written to a standard stream. *)
Inductive message : Type :=
(* phone_view.py *)
| ScreenshotSize (w h : Z)
| ScreenshotSizeFailed (e : exception)
| AdbScreenInfoFailed (e : exception)
| CoordinateWarning (ws : list warning)
(* phone_control.py *)
| WaitNegative
| WaitTooLong
| RelativeNotAvailable
| AbsoluteCorrected (x y valid_x valid_y : Z)
| ConversionNotAvailable
| RelativeOutOfRange (x y : Z)
| RelativeClamped (x y : Z)
| RelativeConverted (x y valid_x valid_y : Z)
| AbsoluteAutoCorrected (abs_x abs_y valid_x valid_y : Z)
| ConversionFailed (e : exception)
| AutoViewFailed (error_output : str) (suggested : option Z)
| AutoViewTimeout (timeout suggested : Z)
| AutoViewScriptNotFound (path : str)
| AutoViewError (e : exception)
| NoShellCommand
| Text (s : str)
(* [print] of a [bytes] object: the [repr] of the bytes that decode to [s] *)
| Repr (s : str)
| ScreenView (view : auto_view)
| JsonResult (r : CmdResult) (view : auto_view).

Inductive event : Type :=
| EvRun (argv : list str) (timeout : Z)
| EvAutoView (argv : list str) (timeout : Z)
| EvClock (t : PyFloat.float)
| EvSleep (seconds : PyFloat.float)
| EvExists (path : str)
| EvImageOpen (path : str)
| EvStdout (m : message)
| EvStderr (m : message).

Definition trace := list event.

Record environment : Type := mkEnvironment {
  (** [subprocess.run] of an adb command *)
  subprocess_run : trace -> list str -> Z -> proc_outcome;
  (** [subprocess.run] of [phone_view.py] *)
  subprocess_run_view : trace -> list str -> Z -> proc_outcome;
  time_time : trace -> PyFloat.float;
  os_path_exists : trace -> str -> bool;
  (** [Image.open(path).size], in pixels *)
  Image_open_size : trace -> str -> exception + N * N;
  PIL_AVAILABLE : bool;
  COORDINATE_CONVERSION_AVAILABLE : bool;
  (** [json.loads]; [None] for a [JSONDecodeError] *)
  json_loads : str -> option json;
  sys_executable : str;
  phone_view_path : str
}.

(** Computations on the world: a result and the extended trace. *)
Definition io (A : Type) : Type := trace -> result A * trace.

Definition ret {A} (a : A) : io A := fun tr => (Ok a, tr).
Definition raise {A} (e : exn) : io A := fun tr => (Raise e, tr).
Definition lift {A} (r : result A) : io A := fun tr => (r, tr).

Definition iobind {A B} (c : io A) (k : A -> io B) : io B :=
  fun tr =>
    match c tr with
    | (Ok a, tr') => k a tr'
    | (Raise e, tr') => (Raise e, tr')
    end.

Notation "x <~ c ;; k" := (iobind c (fun x => k))
  (at level 61, c at next level, right associativity).
Notation "' pat <~ c ;; k" := (iobind c (fun x => match x with pat => k end))
  (at level 61, pat pattern, c at next level, right associativity).
Notation "c ;;; k" := (iobind c (fun _ => k))
  (at level 61, right associativity).

Definition emit (e : event) : io unit := fun tr => (Ok tt, tr ++ [e]).

(** [try: c  except Exception as e: h e] *)
Definition try_except {A} (c : io A) (h : exception -> io A) : io A :=
  fun tr =>
    match c tr with
    | (Raise (Exception e), tr') => h e tr'
    | r => r
    end.

Definition print_stderr (m : message) : io unit := emit (EvStderr m).
Definition print_stdout (m : message) : io unit := emit (EvStdout m).

(** ** ScreenInfoResolver: [phone_view.py] *)

Record screen_info : Type := mkScreenInfo {
  width : Z;
  height : Z;
  density : Z;
  aspect_ratio : PyFloat.float;
  source : str
}.

Definition newline : Z := 10.

Section PhoneView.

Variable env : environment.

(** What [_run] makes of the outcome of [subprocess.run]. *)
Definition run_result (cmd : list str) (o : proc_outcome) : result CmdResult :=
  match o with
  | Completed code out err => Ok (mkCmdResult (code =? 0) cmd out err code)
  | TimeoutExpired out err =>
      Ok (mkCmdResult false cmd out (err ++ newline :: u "TIMEOUT") 124)
  | NotRun e => Raise e
  end.

Definition _run (cmd : list str) (timeout_s : Z) : io CmdResult :=
  fun tr =>
    (run_result cmd (subprocess_run env tr cmd timeout_s),
     tr ++ [EvRun cmd timeout_s]).

Definition _adb_base (adb device : str) : list str := [adb; u "-s"; device].

(** [Physical size: (\d+)x(\d+)], [init=(\d+)x(\d+)],
    [mUnrestrictedScreen=\((\d+),(\d+)\)] and [Physical density: (\d+)] *)
Definition size_pattern : list tok :=
  [Lit (u "Physical size: "); Digits; Lit (u "x"); Digits].
Definition init_pattern : list tok :=
  [Lit (u "init="); Digits; Lit (u "x"); Digits].
Definition unrestricted_pattern : list tok :=
  [Lit (u "mUnrestrictedScreen=("); Digits; Lit (u ","); Digits; Lit (u ")")].
Definition density_pattern : list tok :=
  [Lit (u "Physical density: "); Digits].

Definition parse_display_info (dumpsys_output : str) : result (Z * Z) :=
  match search init_pattern dumpsys_output with
  | Some groups => two_ints groups
  | None => Ok (1080, 2400)
  end.

Definition wm_size (adb device : str) : list str :=
  _adb_base adb device ++ [u "shell"; u "wm"; u "size"].
Definition dumpsys_window_displays (adb device : str) : list str :=
  _adb_base adb device ++ [u "shell"; u "dumpsys"; u "window"; u "displays"].
Definition dumpsys_window (adb device : str) : list str :=
  _adb_base adb device ++ [u "shell"; u "dumpsys"; u "window"].
Definition wm_density (adb device : str) : list str :=
  _adb_base adb device ++ [u "shell"; u "wm"; u "density"].

Definition get_screen_size_via_adb (adb device : str) : io (Z * Z) :=
  let method2 :=
    cmd_res <~ _run (dumpsys_window_displays adb device) 10 ;;
    '(width, height) <~ lift (parse_display_info (stdout cmd_res)) ;;
    if negb (width =? 1080) || negb (height =? 2400) then ret (width, height)
    else
      cmd_res <~ _run (dumpsys_window adb device) 10 ;;
      match search unrestricted_pattern (stdout cmd_res) with
      | Some groups => lift (two_ints groups)
      | None => ret (1080, 2400)
      end in
  cmd_res <~ _run (wm_size adb device) 10 ;;
  if ok cmd_res then
    match search size_pattern (stdout cmd_res) with
    | Some groups => lift (two_ints groups)
    | None => method2
    end
  else method2.

Definition get_screen_density_via_adb (adb device : str) : io Z :=
  density_res <~ _run (wm_density adb device) 10 ;;
  if ok density_res then
    match search density_pattern (stdout density_res) with
    | Some groups => lift (one_int groups)
    | None => ret 420
    end
  else ret 420.

Definition default_aspect_ratio : PyFloat.float :=
  Eval vm_compute in
    match PyFloat.truediv 1080 2400 with Ok f => f | Raise _ => S754_nan end.

Definition default_screen_info : screen_info :=
  mkScreenInfo 1080 2400 420 default_aspect_ratio (u "default").

(** Method 1 of [get_accurate_screen_info]: the size of the screenshot;
    [None] when the method is skipped or fails and the next one is tried. *)
Definition info_from_screenshot
  (adb device : str) (screenshot_path : option str) : io (option screen_info) :=
  match screenshot_path with
  | Some (c :: path') =>
      let path := c :: path' in
      present <~ (fun tr => (Ok (os_path_exists env tr path), tr ++ [EvExists path])) ;;
      if present && PIL_AVAILABLE env then
        try_except
          ('(actual_width, actual_height) <~
              (fun tr => (match Image_open_size env tr path with
                          | inr (w, h) => Ok (Z.of_N w, Z.of_N h)
                          | inl e => Raise e
                          end, tr ++ [EvImageOpen path])) ;;
           print_stderr (ScreenshotSize actual_width actual_height) ;;;
           density <~ get_screen_density_via_adb adb device ;;
           ratio <~ lift (PyFloat.truediv actual_width actual_height) ;;
           ret (Some (mkScreenInfo actual_width actual_height density ratio
                                   (u "screenshot"))))
          (fun e =>
             print_stderr (ScreenshotSizeFailed e) ;;;
             ret None)
      else ret None
  | _ => ret None
  end.

(** Method 2: the device queries. *)
Definition adb_queries (adb device : str) : io screen_info :=
  '(width, height) <~ get_screen_size_via_adb adb device ;;
  density <~ get_screen_density_via_adb adb device ;;
  ratio <~ lift (PyFloat.truediv width height) ;;
  ret (mkScreenInfo width height density ratio (u "adb")).

(** Methods 2 and 3: the device queries, and the defaults when they
    raise. *)
Definition info_from_adb (adb device : str) : io screen_info :=
  try_except
    (adb_queries adb device)
    (fun e =>
       print_stderr (AdbScreenInfoFailed e) ;;;
       ret default_screen_info).

Definition get_accurate_screen_info
  (adb device : str) (screenshot_path : option str) : io screen_info :=
  r <~ info_from_screenshot adb device screenshot_path ;;
  match r with
  | Some info => ret info
  | None => info_from_adb adb device
  end.

Definition get_screen_info (adb device : str) : io screen_info :=
  get_accurate_screen_info adb device None.

(** The literals [0.05] and [0.1]. *)
Definition float_0_05 : PyFloat.float := S754_finite false 0x1999999999999a (-57).
Definition float_0_1 : PyFloat.float := S754_finite false 0x1999999999999a (-56).

Definition validate_coordinates
  (x y screen_width screen_height : Z) : io (Z * Z * bool) :=
  let original_x := x in
  let original_y := y in
  let valid_x := Z.max 0 (Z.min (screen_width - 1) x) in
  let valid_y := Z.max 0 (Z.min (screen_height - 1) y) in
  w <~ lift (PyFloat.of_int screen_width) ;;
  let safe_margin_x := PyFloat.mul w float_0_05 in
  h <~ lift (PyFloat.of_int screen_height) ;;
  let safe_margin_y_top := PyFloat.mul h float_0_1 in
  let safe_margin_y_bottom := PyFloat.mul h float_0_1 in
  (* each warning is an f-string that formats the coordinate *)
  near_edge <~
    lift (if PyFloat.int_lt x safe_margin_x
             || PyFloat.int_gt x (PyFloat.sub w safe_margin_x)
          then _ <- format_int x ;; Ok [NearEdgeX x] else Ok []) ;;
  near_status_bar <~
    lift (if PyFloat.int_lt y safe_margin_y_top
          then _ <- format_int y ;; Ok [NearStatusBarY y] else Ok []) ;;
  near_navigation_bar <~
    lift (if PyFloat.int_gt y (PyFloat.sub h safe_margin_y_bottom)
          then _ <- format_int y ;; Ok [NearNavigationBarY y] else Ok []) ;;
  let warnings := near_edge ++ near_status_bar ++ near_navigation_bar in
  let was_corrected := negb (original_x =? valid_x) || negb (original_y =? valid_y) in
  match warnings with
  | [] => ret (valid_x, valid_y, was_corrected)
  | _ =>
      print_stderr (CoordinateWarning warnings) ;;;
      ret (valid_x, valid_y, was_corrected)
  end.

End PhoneView.

(** ** NarrativeElementExtractor: [phone_view.py] *)

(** One dictionary of the returned list; an absent key is [None]. *)
Record element : Type := mkElement {
  e_description : str;
  e_type : str;
  e_priority : str;
  e_relative_coordinates : option (Z * Z);
  e_coordinates : option (Z * Z);
  e_command : option str
}.

Definition stars : str := u "**".
Definition rel_coord_marker : str := u "🎯 相对坐标：".
Definition abs_coord_marker : str := u "🎯 坐标：".
Definition command_marker : str := u "💻 命令：".

(** [🎯 相对坐标：\((\d+),\s*(\d+)\)] *)
Definition rel_coord_pattern : list tok :=
  [Lit (u "🎯 相对坐标：("); Digits; Lit (u ","); Spaces; Digits; Lit (u ")")].

(** [🎯 坐标：\((\d+),\s*(\d+)\)] *)
Definition abs_coord_pattern : list tok :=
  [Lit (u "🎯 坐标：("); Digits; Lit (u ","); Spaces; Digits; Lit (u ")")].

(** [re.match(r'^\d+\.', s)] *)
Definition numbered (s : str) : bool :=
  match span_digits s with
  | ([], _) => false
  | (_, r) => startswith (u ".") r
  end.

(** [\*\*(.+?)\*\*]: the shortest non-empty text, free of line breaks,
    between two pairs of stars. *)
Fixpoint until_stars (s : str) : option str :=
  if startswith stars s then Some []
  else match s with
       | [] => None
       | c :: s' =>
           if c =? newline then None
           else option_map (cons c) (until_stars s')
       end.

Definition element_here (s : str) : option str :=
  match strip_prefix stars s with
  | Some (c :: r) =>
      if c =? newline then None else option_map (cons c) (until_stars r)
  | _ => None
  end.

Fixpoint search_element (s : str) : option str :=
  match element_here s with
  | Some g => Some g
  | None =>
      match s with
      | [] => None
      | _ :: s' => search_element s'
      end
  end.

(** [\((高|中|低)优先级\)] *)
Definition priority_here (s : str) : option Z :=
  match strip_prefix (u "(") s with
  | Some (c :: r) =>
      if (c =? 39640) || (c =? 20013) || (c =? 20302) then
        if startswith (u "优先级)") r then Some c else None
      else None
  | _ => None
  end.

Fixpoint search_priority (s : str) : option Z :=
  match priority_here s with
  | Some c => Some c
  | None =>
      match s with
      | [] => None
      | _ :: s' => search_priority s'
      end
  end.

(** [priority_map.get(c, 'medium')] *)
Definition priority_map (c : Z) : str :=
  if c =? 39640 then u "high"
  else if c =? 20013 then u "medium"
  else if c =? 20302 then u "low"
  else u "medium".

(** [💻 命令：([^📝\n]+)] *)
Fixpoint span_command (s : str) : str :=
  match s with
  | c :: s' => if (c =? 128221) || (c =? newline) then [] else c :: span_command s'
  | [] => []
  end.

Definition command_here (s : str) : option str :=
  match strip_prefix command_marker s with
  | Some r => match span_command r with [] => None | g => Some g end
  | None => None
  end.

Fixpoint search_command (s : str) : option str :=
  match command_here s with
  | Some g => Some g
  | None =>
      match s with
      | [] => None
      | _ :: s' => search_command s'
      end
  end.

Definition is_title_line (line : str) : bool :=
  numbered (strip line) && contains stars line.

(** The body of the loop over the lines: the list built so far and the
    dictionary [current_element] ([None] while it is empty). *)
Definition parse_line (screen_info : screen_info)
  (st : list element * option element) (line : str)
  : result (list element * option element) :=
  let '(elements, current_element) := st in
  if is_title_line line then
    let elements :=
      match current_element with
      | Some e => elements ++ [e]
      | None => elements
      end in
    let description :=
      match search_element line with
      | Some g => g
      | None => strip line
      end in
    let priority :=
      match search_priority line with
      | Some c => priority_map c
      | None => u "medium"
      end in
    Ok (elements, Some (mkElement description (u "unknown") priority None None None))
  else
    match current_element with
    | None => Ok st
    | Some e =>
        if contains rel_coord_marker line then
          match search rel_coord_pattern line with
          | Some groups =>
              '(rel_x, rel_y) <- two_ints groups ;;
              '(abs_x, abs_y) <-
                 convert_relative_to_absolute rel_x rel_y
                   (width screen_info) (height screen_info) ;;
              Ok (elements,
                  Some (mkElement (e_description e) (e_type e) (e_priority e)
                                  (Some (rel_x, rel_y)) (Some (abs_x, abs_y))
                                  (e_command e)))
          | None => Ok st
          end
        else if contains abs_coord_marker line
                && match e_coordinates e with None => true | Some _ => false end then
          match search abs_coord_pattern line with
          | Some groups =>
              '(abs_x, abs_y) <- two_ints groups ;;
              '(rel_x, rel_y) <-
                 convert_absolute_to_relative abs_x abs_y
                   (width screen_info) (height screen_info) ;;
              Ok (elements,
                  Some (mkElement (e_description e) (e_type e) (e_priority e)
                                  (Some (rel_x, rel_y)) (Some (abs_x, abs_y))
                                  (e_command e)))
          | None => Ok st
          end
        else if contains command_marker line then
          match search_command line with
          | Some g =>
              Ok (elements,
                  Some (mkElement (e_description e) (e_type e) (e_priority e)
                                  (e_relative_coordinates e) (e_coordinates e)
                                  (Some (strip g))))
          | None => Ok st
          end
        else Ok st
    end.

Fixpoint parse_lines (screen_info : screen_info)
  (st : list element * option element) (lines : list str)
  : result (list element * option element) :=
  match lines with
  | [] => Ok st
  | line :: lines' =>
      st' <- parse_line screen_info st line ;;
      parse_lines screen_info st' lines'
  end.

Definition parse_relative_coordinates_from_text
  (description : str) (screen_info : screen_info) : result (list element) :=
  let lines := split newline description in
  '(elements, current_element) <- parse_lines screen_info ([], None) lines ;;
  match current_element with
  | Some e => Ok (elements ++ [e])
  | None => Ok elements
  end.

(** ** AutoViewOrchestrator: [phone_control.py] *)

Inductive command_line : Type :=
| Connect
| Devices
| Tap (x y : Z) (relative : bool)
| Swipe (x1 y1 x2 y2 : Z) (duration : option Z) (relative : bool)
| Key (key : str)
| TextInput (text : str)
| App (name : str)
| Stop (name : str)
| Shell (shell_args : list str).

(** [args.cmd] *)
Definition cmd (c : command_line) : str :=
  match c with
  | Connect => u "connect"
  | Devices => u "devices"
  | Tap _ _ _ => u "tap"
  | Swipe _ _ _ _ _ _ => u "swipe"
  | Key _ => u "key"
  | TextInput _ => u "text"
  | App _ => u "app"
  | Stop _ => u "stop"
  | Shell _ => u "shell"
  end.

(** [args.relative], where the sub-command has the option. *)
Definition relative (c : command_line) : option bool :=
  match c with
  | Tap _ _ r => Some r
  | Swipe _ _ _ _ _ r => Some r
  | _ => None
  end.

Record arguments : Type := mkArguments {
  a_adb : str;
  a_device : str;
  a_timeout : Z;
  a_json : bool;
  a_auto_view : bool;
  a_wait : PyFloat.float;
  a_command : command_line
}.

Definition KEYCODES : list (str * str) :=
  [(u "back", u "4"); (u "home", u "3"); (u "menu", u "82"); (u "power", u "26");
   (u "volume_up", u "24"); (u "volume_down", u "25"); (u "enter", u "66");
   (u "delete", u "67")].

Definition APP_PACKAGES : list (str * str) :=
  [(u "settings", u "com.android.settings");
   (u "设置", u "com.android.settings");
   (u "browser", u "com.android.browser");
   (u "浏览器", u "com.android.browser");
   (u "chrome", u "com.android.chrome");
   (u "微信", u "com.tencent.mm");
   (u "wechat", u "com.tencent.mm");
   (u "支付宝", u "com.eg.android.AlipayGphone");
   (u "alipay", u "com.eg.android.AlipayGphone");
   (u "x", u "com.twitter.android");
   (u "twitter", u "com.twitter.android")].

(** [d.get(key, default)] *)
Fixpoint dict_get {V} (d : list (str * V)) (key : str) (default : V) : V :=
  match d with
  | [] => default
  | (k, v) :: d' => if PyStr.eqb k key then v else dict_get d' key default
  end.

Definition _encode_adb_text (text : str) : str :=
  replace 39 (u "\'")
    (replace 34 [92; 34]
       (replace 62 (u "\>")
          (replace 60 (u "\<")
             (replace 38 (u "\&")
                (replace 9 (u "%09")
                   (replace newline (u "%0A")
                      (replace 32 (u "%s")
                         (replace 37 (u "%25") text)))))))).

Definition truthy (s : str) : bool :=
  match s with [] => false | _ => true end.

(** [a or b] on strings *)
Definition str_or (a b : str) : str := if truthy a then a else b.

(** [code or 1] *)
Definition or_1 (code : Z) : Z := if code =? 0 then 1 else code.

(** A number that is an [int] or a [float], as [max(10, ...)] returns. *)
Inductive number : Type :=
| Int (n : Z)
| Float (x : PyFloat.float).

(** [int(v)] *)
Definition int (v : number) : result Z :=
  match v with
  | Int n => Ok n
  | Float x => PyFloat.to_int x
  end.

(** [max(n, x)] of an [int] and a [float]: the first unless the second
    is greater. *)
Definition max_int_float (n : Z) (x : PyFloat.float) : number :=
  if PyFloat.gt_int x n then Float x else Int n.

(** [max(10, timeout - elapsed_time)] *)
Definition remaining_timeout (timeout : Z) (elapsed_time : PyFloat.float)
  : result number :=
  t <- PyFloat.of_int timeout ;;
  Ok (max_int_float 10 (PyFloat.sub t elapsed_time)).

Definition json_type_name (j : json) : str :=
  match j with
  | JNull => u "NoneType"
  | JBool _ => u "bool"
  | JInt _ => u "int"
  | JFloat _ => u "float"
  | JString _ => u "str"
  | JArray _ => u "list"
  | JObject _ => u "dict"
  end.

(** [view_data.get("description", "")] on a dictionary; the last of
    several equal keys is the one [json.loads] keeps. *)
Fixpoint members_get (ms : list (str * json)) (key : str) (default : json) : json :=
  match ms with
  | [] => default
  | (k, v) :: ms' => members_get ms' key (if PyStr.eqb k key then v else default)
  end.

Definition auto_view_commands : list str :=
  [u "tap"; u "swipe"; u "key"; u "text"; u "app"].

Section PhoneControl.

Variable env : environment.

(** *** [AdbClient] *)

Record AdbClient : Type := mkAdbClient {
  adb : str;
  device : str;
  timeout_s : Z
}.

Definition run (self : AdbClient) (args : list str) : io CmdResult :=
  fun tr =>
    let tr' := tr ++ [EvRun args (timeout_s self)] in
    match subprocess_run env tr args (timeout_s self) with
    | Completed code out err =>
        (Ok (mkCmdResult (code =? 0) args out err code), tr')
    | TimeoutExpired out err =>
        (* [e.stdout or ''] is the [bytes] captured, if any; so is
           [e.stderr or ''], to which a [str] cannot be added *)
        if truthy err then (Raise TypeError, tr')
        else
          (Ok (mkResult false args out
                 (newline :: u "TIMEOUT"
                    ++ newline :: newline :: u "Command timed out after "
                    ++ of_int (timeout_s self)
                    ++ u " seconds. Consider increasing timeout with --timeout "
                    ++ of_int (timeout_s self * 2) ++ u ".")
                 124 (truthy out)), tr')
    | NotRun e => (Raise e, tr')
    end.

Definition _base (self : AdbClient) : list str :=
  [adb self; u "-s"; device self].

Definition connect (self : AdbClient) : io CmdResult :=
  run self [adb self; u "connect"; device self].

Definition devices (self : AdbClient) : io CmdResult :=
  run self [adb self; u "devices"].

Definition shell (self : AdbClient) (shell_args : list str) : io CmdResult :=
  run self (_base self ++ u "shell" :: shell_args).

Definition tap (self : AdbClient) (x y : Z) : io CmdResult :=
  shell self [u "input"; u "tap"; of_int x; of_int y].

Definition swipe (self : AdbClient) (x1 y1 x2 y2 : Z) (duration_ms : option Z)
  : io CmdResult :=
  shell self
    ([u "input"; u "swipe"; of_int x1; of_int y1; of_int x2; of_int y2]
       ++ match duration_ms with
          | Some d => [of_int d]
          | None => []
          end).

Definition key (self : AdbClient) (key_name_or_code : str) : io CmdResult :=
  let code := dict_get KEYCODES (lower key_name_or_code) key_name_or_code in
  shell self [u "input"; u "keyevent"; code].

Definition text (self : AdbClient) (text : str) : io CmdResult :=
  shell self [u "input"; u "text"; _encode_adb_text text].

Definition unknown_app (name : str) : str :=
  u "Unknown app '" ++ name
    ++ u "'. Provide a package name like com.example.app or add alias mapping.".

Definition app_start (self : AdbClient) (package_or_alias : str) : io CmdResult :=
  let pkg := dict_get APP_PACKAGES (lower package_or_alias)
               (dict_get APP_PACKAGES package_or_alias package_or_alias) in
  if negb (contains (u ".") pkg) then
    ret (mkCmdResult false [u "app_start"; package_or_alias] []
           (unknown_app package_or_alias) 2)
  else
    shell self [u "monkey"; u "-p"; pkg; u "-c";
                u "android.intent.category.LAUNCHER"; u "1"].

Definition app_stop (self : AdbClient) (package_or_alias : str) : io CmdResult :=
  let pkg := dict_get APP_PACKAGES (lower package_or_alias)
               (dict_get APP_PACKAGES package_or_alias package_or_alias) in
  if negb (contains (u ".") pkg) then
    ret (mkCmdResult false [u "app_stop"; package_or_alias] []
           (unknown_app package_or_alias) 2)
  else
    shell self [u "am"; u "force-stop"; pkg].

(** *** Observation *)

Definition auto_view_failure (error : error_text) : auto_view_dict :=
  mkAutoView false None None (Some error) None None None.

(** The command line of the observation. *)
Definition describe_command (adb device : str) (timeout : Z) (as_json : bool)
  : list str :=
  [sys_executable env; phone_view_path env]
    ++ (if as_json then [u "--json"] else [])
    ++ [u "--adb"; adb; u "--device"; device; u "--timeout"; of_int timeout]
    ++ [u "describe"].

Definition _auto_view_screen (adb device : str) (timeout : Z) (as_json : bool)
  : io auto_view :=
  let cmd := describe_command adb device timeout as_json in
  fun tr =>
    let tr' := tr ++ [EvAutoView cmd (timeout + 10)] in
    match subprocess_run_view env tr cmd (timeout + 10) with
    | Completed code out err =>
        if code =? 0 then
          if as_json then
            match json_loads env out with
            | Some (JObject members) =>
                (Ok (AvDict (mkAutoView true
                               (Some (members_get members (u "description") (JString [])))
                               (Some (JObject members)) None None None None)), tr')
            | Some view_data =>
                (Ok (AvDict (auto_view_failure
                               (StrOf (AttributeError (json_type_name view_data))))), tr')
            | None =>
                (Ok (AvDict (mkAutoView true (Some (JString (strip out)))
                               None None None None None)), tr')
            end
          else (Ok (AvText (strip out)), tr')
        else
          let stderr_text := strip err in
          let error_output :=
            str_or stderr_text
              (str_or (strip out) (u "returncode=" ++ of_int code)) in
          let timeout_error :=
            contains (u "timeout") (lower error_output)
            || contains (u "timed out") (lower error_output) in
          if as_json then
            (Ok (AvDict (mkAutoView false None None (Some (Message error_output))
                           (Some code) (Some timeout_error)
                           (Some (if timeout_error then Some (timeout * 2) else None)))),
             tr')
          else
            (Ok AvNone,
             tr' ++ [EvStderr (AutoViewFailed error_output
                                 (if timeout_error then Some (timeout * 2) else None))])
    | TimeoutExpired _ _ =>
        if as_json then
          (Ok (AvDict (mkAutoView false None None
                         (Some (Message (u "Auto-view timeout after " ++ of_int timeout
                                           ++ u " seconds")))
                         None (Some true) (Some (Some (timeout * 2))))), tr')
        else
          (Ok AvNone, tr' ++ [EvStderr (AutoViewTimeout timeout (timeout * 2))])
    | NotRun FileNotFoundError =>
        if as_json then
          (Ok (AvDict (auto_view_failure
                         (Message (u "phone_view.py not found at " ++ phone_view_path env)))),
           tr')
        else (Ok AvNone, tr' ++ [EvStderr (AutoViewScriptNotFound (phone_view_path env))])
    | NotRun e =>
        if as_json then (Ok (AvDict (auto_view_failure (StrOf e))), tr')
        else (Ok AvNone, tr' ++ [EvStderr (AutoViewError e)])
    end.

Definition _print_result (result : CmdResult) (as_json : bool) (auto_view_desc : auto_view)
  : io unit :=
  if as_json then print_stdout (JsonResult result auto_view_desc)
  else
    (if stdout_is_bytes result then
       if truthy (strip_ascii (stdout result))
       then print_stdout (Repr (rstrip_ascii (stdout result))) else ret tt
     else
       if truthy (strip (stdout result))
       then print_stdout (Text (rstrip (stdout result))) else ret tt) ;;;
    (if ok result then ret tt
     else
       (if truthy (strip (stderr result))
        then print_stderr (Text (rstrip (stderr result))) else ret tt) ;;;
       raise (SystemExit (or_1 (returncode result)))) ;;;
    match auto_view_desc with
    | AvNone => ret tt
    | AvText [] => ret tt
    | view =>
        print_stdout (Text (newline :: u "--- Screen View ---")) ;;;
        print_stdout (ScreenView view)
    end.

Variable args : arguments.

Definition convert_coordinates_if_needed (x y : Z) : io (Z * Z) :=
  match relative (a_command args) with
  | Some true =>
      if negb (COORDINATE_CONVERSION_AVAILABLE env) then
        print_stderr ConversionNotAvailable ;;; ret (x, y)
      else
        try_except
          (screen_info <~ get_accurate_screen_info env (a_adb args) (a_device args) None ;;
           let out_of_range := (x <? 0) || (999 <? x) || (y <? 0) || (999 <? y) in
           let x' := if out_of_range then Z.max 0 (Z.min 999 x) else x in
           let y' := if out_of_range then Z.max 0 (Z.min 999 y) else y in
           try_except
             ((if out_of_range
               then print_stderr (RelativeOutOfRange x y) ;;;
                    print_stderr (RelativeClamped x' y')
               else ret tt) ;;;
              '(abs_x, abs_y) <~
                 lift (convert_relative_to_absolute x' y'
                         (width screen_info) (height screen_info)) ;;
              '(valid_x, valid_y, was_corrected) <~
                 validate_coordinates abs_x abs_y
                   (width screen_info) (height screen_info) ;;
              print_stderr (RelativeConverted x' y' valid_x valid_y) ;;;
              (if was_corrected && (negb (valid_x =? abs_x) || negb (valid_y =? abs_y))
               then print_stderr (AbsoluteAutoCorrected abs_x abs_y valid_x valid_y)
               else ret tt) ;;;
              ret (valid_x, valid_y))
             (fun e => print_stderr (ConversionFailed e) ;;; ret (x', y')))
          (fun e => print_stderr (ConversionFailed e) ;;; ret (x, y))
  | _ =>
      if COORDINATE_CONVERSION_AVAILABLE env then
        try_except
          (screen_info <~ get_accurate_screen_info env (a_adb args) (a_device args) None ;;
           '(valid_x, valid_y, was_corrected) <~
              validate_coordinates x y (width screen_info) (height screen_info) ;;
           (if was_corrected
            then print_stderr (AbsoluteCorrected x y valid_x valid_y)
            else ret tt) ;;;
           ret (valid_x, valid_y))
          (fun _ => ret (x, y))
      else ret (x, y)
  end.

Definition execute_with_auto_view (command_func : io CmdResult) : io Z :=
  start_time <~ (fun tr => let t := time_time env tr in (Ok t, tr ++ [EvClock t])) ;;
  result <~ command_func ;;
  auto_view_desc <~
    (if a_auto_view args && ok result then
       if existsb (PyStr.eqb (cmd (a_command args))) auto_view_commands then
         (if PyFloat.gt_int (a_wait args) 0
          then emit (EvSleep (a_wait args)) else ret tt) ;;;
         now <~ (fun tr => let t := time_time env tr in (Ok t, tr ++ [EvClock t])) ;;
         let elapsed_time := PyFloat.sub now start_time in
         remaining <~ lift (remaining_timeout (a_timeout args) elapsed_time) ;;
         timeout <~ lift (int remaining) ;;
         _auto_view_screen (a_adb args) (a_device args) timeout (a_json args)
       else ret AvNone
     else ret AvNone) ;;
  _print_result result (a_json args) auto_view_desc ;;;
  ret (if ok result then 0 else or_1 (returncode result)).

Definition main : io Z :=
  if PyFloat.int_gt 0 (a_wait args) then print_stderr WaitNegative ;;; ret 1
  else if PyFloat.gt_int (a_wait args) 60 then print_stderr WaitTooLong ;;; ret 1
  else if match relative (a_command args) with
          | Some true => negb (COORDINATE_CONVERSION_AVAILABLE env)
          | _ => false
          end
  then print_stderr RelativeNotAvailable ;;; ret 1
  else
    let adb := mkAdbClient (a_adb args) (a_device args) (a_timeout args) in
    match a_command args with
    | Connect =>
        r <~ connect adb ;; _print_result r (a_json args) AvNone ;;; ret 0
    | Devices =>
        r <~ devices adb ;; _print_result r (a_json args) AvNone ;;; ret 0
    | Tap x y _ =>
        '(abs_x, abs_y) <~ convert_coordinates_if_needed x y ;;
        execute_with_auto_view (tap adb abs_x abs_y)
    | Swipe x1 y1 x2 y2 duration _ =>
        '(abs_x1, abs_y1) <~ convert_coordinates_if_needed x1 y1 ;;
        '(abs_x2, abs_y2) <~ convert_coordinates_if_needed x2 y2 ;;
        execute_with_auto_view (swipe adb abs_x1 abs_y1 abs_x2 abs_y2 duration)
    | Key k => execute_with_auto_view (key adb k)
    | TextInput t => execute_with_auto_view (text adb t)
    | App name => execute_with_auto_view (app_start adb name)
    | Stop name =>
        r <~ app_stop adb name ;; _print_result r (a_json args) AvNone ;;; ret 0
    | Shell shell_args =>
        match shell_args with
        | [] => print_stderr NoShellCommand ;;; ret 2
        | _ => r <~ shell adb shell_args ;; _print_result r (a_json args) AvNone ;;; ret 0
        end
    end.

End PhoneControl.

(** The exit status of [raise SystemExit(main())]: the value returned, the
    code of a [sys.exit], or 1 after a traceback. *)
Definition exit_status (r : result Z) : Z :=
  match r with
  | Ok code => code
  | Raise (SystemExit code) => code
  | Raise _ => 1
  end.

(** * What the specification claims

    The notions the claims are stated with, and the runs they are tried
    on. *)

(** ** Coordinates *)

(** Relative to absolute and back. *)
Definition round_trip (rel_x rel_y W H : Z) : result (Z * Z) :=
  '(abs_x, abs_y) <- convert_relative_to_absolute rel_x rel_y W H ;;
  convert_absolute_to_relative abs_x abs_y W H.

(** The round trip returns a pair within one unit of the original. *)
Definition within_one_unit (rel_x rel_y W H : Z) : Prop :=
  exists x y, round_trip rel_x rel_y W H = Ok (x, y)
              /\ Z.abs (x - rel_x) <= 1 /\ Z.abs (y - rel_y) <= 1.

(** [relativeToAbsolute] as the specification words it: clamp, then
    [floor(relX/1000 * width)] and [floor(relY/1000 * height)]. *)
Definition relativeToAbsolute_floor (relX relY W H : Z) : Z * Z :=
  (Z.max 0 (Z.min 999 relX) * W / 1000, Z.max 0 (Z.min 999 relY) * H / 1000).

(** An [int] the interpreter writes out: one of at most 4300 digits. *)
Definition writable (n : Z) : Prop :=
  Z.abs n < 10 ^ Z.of_nat int_max_str_digits.

(** What the claim on [validate] says of one input. *)
Definition validate_claim (x y W H : Z) (tr : trace) : Prop :=
  exists vx vy c tr1 tr2,
    validate_coordinates x y W H tr = (Ok (vx, vy, c), tr1)
    /\ validate_coordinates vx vy W H tr1 = (Ok (vx, vy, false), tr2).

(** ** Rounding *)

(** The shift that brings a mantissa back to 53 bits. *)
Definition excess (M : positive) : Z := Z.max 0 (Zpos (digits2_pos M) - 53).

(** What the quotient [rel / 1000] is known to satisfy: a 53-bit mantissa
    within half a unit in the last place of the exact quotient. *)
Definition thousandth_ok (rel : Z) : bool :=
  match PyFloat.truediv rel 1000 with
  | Ok (S754_finite false m e) =>
      (-62 <=? e) && (e <=? -53)
      && (2 ^ 52 <=? Zpos m) && (Zpos m <? 2 ^ 53)
      && (Z.abs (Zpos m * 1000 - rel * 2 ^ (- e)) <=? 500)
  | _ => false
  end.

(** ** Screen geometry *)

(** A computation that returns a value with [P] or raises an
    [Exception]. *)
Definition returns_or_raises {A} (P : A -> Prop) (c : io A) : Prop :=
  forall tr,
    match c tr with
    | (Ok a, _) => P a
    | (Raise (Exception _), _) => True
    | (Raise (SystemExit _), _) => False
    end.

(** A computation that returns a value with [P], whatever the world. *)
Definition always_returns {A} (P : A -> Prop) (c : io A) : Prop :=
  forall tr, exists a tr', c tr = (Ok a, tr') /\ P a.

(** The same of a result. *)
Definition catchable {A} (P : A -> Prop) (r : result A) : Prop :=
  match r with
  | Ok a => P a
  | Raise (Exception _) => True
  | Raise (SystemExit _) => False
  end.

(** The invariant of the data model: three positive numbers. *)
Definition usable (info : screen_info) : Prop :=
  0 < width info /\ 0 < height info /\ 0 < density info.

(** What the resolver ensures. *)
Definition measured (info : screen_info) : Prop :=
  0 <= width info /\ 0 < height info /\ 0 <= density info.

(** A device on which every command fails, with nothing printed. *)
Definition unreachable_device : environment :=
  mkEnvironment
    (fun _ _ _ => Completed 1 [] []) (fun _ _ _ => Completed 1 [] [])
    (fun _ => S754_zero false) (fun _ _ => false)
    (fun _ _ => inl FileNotFoundError) false false (fun _ => None) [] [].

(** A machine on which adb is not installed: no command can be
    started. *)
Definition adb_missing : environment :=
  mkEnvironment
    (fun _ _ _ => NotRun FileNotFoundError) (fun _ _ _ => Completed 1 [] [])
    (fun _ => S754_zero false) (fun _ _ => false)
    (fun _ _ => inl FileNotFoundError) false false (fun _ => None) [] [].

(** A device that answers every query with the same two lines. *)
Definition reporting_device (report : str) : environment :=
  mkEnvironment
    (fun _ _ _ => Completed 0 report []) (fun _ _ _ => Completed 1 [] [])
    (fun _ => S754_zero false) (fun _ _ => false)
    (fun _ _ => inl FileNotFoundError) false false (fun _ => None) [] [].

(** ** Narrative elements *)

(** Both coordinate keys are present, or neither. *)
Definition paired (e : element) : Prop :=
  match e_relative_coordinates e, e_coordinates e with
  | Some _, Some _ => True
  | None, None => True
  | _, _ => False
  end.

(** A line of an element block that carries relative coordinates [rel],
    with the pixel [pix] they convert to. *)
Definition relative_line (info : screen_info) (line : str) (rel pix : Z * Z) : Prop :=
  is_title_line line = false
  /\ contains rel_coord_marker line = true
  /\ exists groups,
      search rel_coord_pattern line = Some groups
      /\ two_ints groups = Ok rel
      /\ convert_relative_to_absolute (fst rel) (snd rel) (width info) (height info)
         = Ok pix.

(** A line of an element block that carries legacy absolute coordinates
    [pix], with the relative coordinates [rel] they convert to. *)
Definition legacy_line (info : screen_info) (line : str) (pix rel : Z * Z) : Prop :=
  is_title_line line = false
  /\ contains rel_coord_marker line = false
  /\ contains abs_coord_marker line = true
  /\ exists groups,
      search abs_coord_pattern line = Some groups
      /\ two_ints groups = Ok pix
      /\ convert_absolute_to_relative (fst pix) (snd pix) (width info) (height info)
         = Ok rel.

(** A line that starts no element and carries no relative coordinates. *)
Definition no_relative (line : str) : Prop :=
  is_title_line line = false
  /\ (contains rel_coord_marker line = false
      \/ search rel_coord_pattern line = None).

(** The description and the priority a title line gives its element. *)
Definition element_title (line : str) : str * str :=
  (match search_element line with
   | Some g => g
   | None => strip line
   end,
   match search_priority line with
   | Some c => priority_map c
   | None => u "medium"
   end).

(** The elements a state of the loop holds: those finished, then the
    current one. *)
Definition pending (st : list element * option element) : list element :=
  fst st ++ match snd st with Some e => [e] | None => [] end.

(** What an element keeps of its title line. *)
Definition title (e : element) : str * str := (e_description e, e_priority e).

(** A line of an element block that attaches no coordinates: it starts
    no element and neither pattern is read from it. *)
Definition attaches_nothing (line : str) : Prop :=
  is_title_line line = false
  /\ (contains rel_coord_marker line = false
      \/ search rel_coord_pattern line = None)
  /\ (contains rel_coord_marker line = true
      \/ contains abs_coord_marker line = false
      \/ search abs_coord_pattern line = None).

(** The lines of a narrative are those of [before], the title line of an
    element, the lines of its block, and [rest], which is empty or starts
    with the title line of the next element. *)
Definition element_block (description : str) (before : list str) (title_line : str)
  (block rest : list str) : Prop :=
  split newline description = before ++ title_line :: block ++ rest
  /\ is_title_line title_line = true
  /\ Forall (fun l => is_title_line l = false) block
  /\ match rest with
     | [] => True
     | l :: _ => is_title_line l = true
     end.

(** The place of that element in the list returned: one element is
    returned for each title line. *)
Definition element_index (before : list str) : nat :=
  List.length (filter is_title_line before).

(** A screen and a narrative to try the extractor on. *)
Definition full_hd : screen_info :=
  mkScreenInfo 1080 2400 420 default_aspect_ratio (u "adb").

Definition legacy_example : str := u "   🎯 坐标：(300, 200)".
Definition relative_example : str := u "   🎯 相对坐标：(500, 150) // 屏幕中上区域".
Definition titled (name : str) : element :=
  mkElement name (u "unknown") (u "medium") None None None.

(** An element whose title line carries the relative coordinates. *)
Definition one_line_example : str :=
  u "1. **搜索框** 🎯 相对坐标：(500, 150)" ++ newline :: legacy_example.

Definition narrative_example : str :=
  u "1. 🔥 **搜索框** (高优先级)" ++ newline :: legacy_example
    ++ newline :: relative_example
    ++ newline :: u "   💻 命令：python3 scripts/phone_control.py tap --relative 500 150"
    ++ newline :: u "2. ⭐ **Trending标签** (中优先级)".

(** ** Orchestration *)

(** The observations of a run: the calls of [phone_view.py], with their
    arguments and the time allowed to the process. *)
Fixpoint observations (tr : trace) : list (list str * Z) :=
  match tr with
  | [] => []
  | EvAutoView argv timeout :: tr' => (argv, timeout) :: observations tr'
  | _ :: tr' => observations tr'
  end.

(** A computation that observes nothing. *)
Definition quiet {A} (c : io A) : Prop :=
  forall tr r tr', c tr = (r, tr') -> observations tr' = observations tr.

(** The budget of the observation as the specification words it:
    [max(minimumFloor, configuredTimeout - elapsedSinceActionStart)], in
    whole seconds, with a floor of 10 seconds. *)
Definition minimumFloor : Z := 10.

Definition observation_budget
  (configuredTimeout : Z) (elapsedSinceActionStart : PyFloat.float) : result Z :=
  t <- PyFloat.of_int configuredTimeout ;;
  let remaining := PyFloat.sub t elapsedSinceActionStart in
  if PyFloat.gt_int remaining minimumFloor then PyFloat.to_int remaining
  else Ok minimumFloor.

(** The budget the orchestrator does not compute: the wait subtracted a
    second time. *)
Definition twice_subtracted_budget
  (configuredTimeout : Z) (elapsedSinceActionStart wait : PyFloat.float) : result Z :=
  t <- PyFloat.of_int configuredTimeout ;;
  let remaining := PyFloat.sub (PyFloat.sub t elapsedSinceActionStart) wait in
  if PyFloat.gt_int remaining minimumFloor then PyFloat.to_int remaining
  else Ok minimumFloor.

(** An elapsed time of [n] ticks of 2^-22 seconds, the step of the clock
    [time.time()] from 2004 to 2038: the [float] holds [n / 2^22]. *)
Definition ticks (elapsed : PyFloat.float) (n : Z) : Prop :=
  match elapsed with
  | S754_zero _ => n = 0
  | S754_finite s m e =>
      -1074 <= e
      /\ let v := if s then Zneg m else Zpos m in
         if e + 22 <? 0 then v = n * 2 ^ (- (e + 22)) else n = v * 2 ^ (e + 22)
  | _ => False
  end.

(** The same budget in exact arithmetic, for a timeout of [T] seconds and
    [n] ticks elapsed: the whole seconds of [max(10, T - n / 2^22)]. *)
Definition exact_budget (T n : Z) : Z :=
  Z.max minimumFloor ((T * 2 ^ 22 - n) / 2 ^ 22).

(** The device action [main] hands to [execute_with_auto_view]. *)
Definition is_device_action (env : environment) (args : arguments)
  (action : io CmdResult) : Prop :=
  let client := mkAdbClient (a_adb args) (a_device args) (a_timeout args) in
  match a_command args with
  | Tap _ _ _ => exists x y, action = tap env client x y
  | Swipe _ _ _ _ duration _ =>
      exists x1 y1 x2 y2, action = swipe env client x1 y1 x2 y2 duration
  | Key k => action = key env client k
  | TextInput t => action = text env client t
  | App name => action = app_start env client name
  | _ => False
  end.

(** The retry timeouts a run suggests, on either stream. *)
Fixpoint surfaced_suggestions (tr : trace) : list Z :=
  match tr with
  | [] => []
  | EvStdout (JsonResult _ (AvDict d)) :: tr' =>
      match av_suggested_timeout d with
      | Some (Some n) => n :: surfaced_suggestions tr'
      | _ => surfaced_suggestions tr'
      end
  | EvStderr (AutoViewFailed _ (Some n)) :: tr' => n :: surfaced_suggestions tr'
  | EvStderr (AutoViewTimeout _ n) :: tr' => n :: surfaced_suggestions tr'
  | _ :: tr' => surfaced_suggestions tr'
  end.

(** The [float]s 1.5, 100.0, 103.0 and 3.0. *)
Definition float_1_5 : PyFloat.float := S754_finite false 0x18000000000000 (-52).
Definition float_100 : PyFloat.float := S754_finite false 0x19000000000000 (-46).
Definition float_103 : PyFloat.float := S754_finite false 0x19c00000000000 (-46).
Definition float_3 : PyFloat.float := S754_finite false 0x18000000000000 (-51).

(** A device that obeys while the vision model does not answer in time:
    the clock shows 100 s when the action starts and 103 s when the
    observation does. *)
Definition slow_model : environment :=
  mkEnvironment
    (fun _ _ _ => Completed 0 [] []) (fun _ _ _ => TimeoutExpired [] [])
    (fun tr => match tr with [] => float_100 | _ => float_103 end)
    (fun _ _ => false) (fun _ _ => inl FileNotFoundError) false false
    (fun _ => None) (u "python3") (u "scripts/phone_view.py").

(** [phone_control.py --timeout 30 key home], with the default wait. *)
Definition press_home (as_json : bool) : arguments :=
  mkArguments (u "adb") (u "127.0.0.1:5555") 30 as_json true float_1_5
    (Key (u "home")).

(** * Further code

    Functions of the scripts that the claims above do not reach, and the
    notions their properties are stated with. *)

(** ** [chinese_input.py] *)

(** [encode_text_for_adb]: the spaces are replaced before the percent
    signs. *)
Definition encode_text_for_adb (text : str) : str :=
  let encoded := replace 32 (u "%s") text in
  replace 39 (u "\'")
    (replace 34 [92; 34]
       (replace 62 (u "\>")
          (replace 60 (u "\<")
             (replace 38 (u "\&")
                (replace 9 (u "%09")
                   (replace newline (u "%0A")
                      (replace 37 (u "%25") encoded))))))).

(** What [_encode_adb_text] writes for one code point. *)
Definition encode_char (c : Z) : str :=
  if c =? 37 then u "%25"
  else if c =? 32 then u "%s"
  else if c =? newline then u "%0A"
  else if c =? 9 then u "%09"
  else if c =? 38 then u "\&"
  else if c =? 60 then u "\<"
  else if c =? 62 then u "\>"
  else if c =? 34 then [92; 34]
  else if c =? 39 then u "\'"
  else [c].

(** In [s], after the code point [prev], every ampersand, angle bracket
    and quote, single or double, comes right after a backslash. *)
Fixpoint guarded (prev : Z) (s : str) : Prop :=
  match s with
  | [] => True
  | c :: s' => (In c [38; 60; 62; 34; 39] -> prev = 92) /\ guarded c s'
  end.

(** ** [parse_coordinates_from_text], the older extractor of
    [phone_view.py] *)

(** [🎯 坐标：\((\d+),\s*(\d+)\)] *)
Definition coord_pattern : list tok :=
  [Lit (u "🎯 坐标：("); Digits; Lit (u ","); Spaces; Digits; Lit (u ")")].

(** The body of its loop over the lines. *)
Definition parse_coordinates_line
  (st : list element * option element) (line : str)
  : result (list element * option element) :=
  let '(elements, current_element) := st in
  if is_title_line line then
    let elements :=
      match current_element with
      | Some e => elements ++ [e]
      | None => elements
      end in
    let description :=
      match search_element line with
      | Some g => g
      | None => strip line
      end in
    let priority :=
      match search_priority line with
      | Some c => priority_map c
      | None => u "medium"
      end in
    Ok (elements, Some (mkElement description (u "unknown") priority None None None))
  else
    match current_element with
    | None => Ok st
    | Some e =>
        if contains abs_coord_marker line then
          match search coord_pattern line with
          | Some groups =>
              '(x, y) <- two_ints groups ;;
              Ok (elements,
                  Some (mkElement (e_description e) (e_type e) (e_priority e)
                                  (e_relative_coordinates e) (Some (x, y))
                                  (e_command e)))
          | None => Ok st
          end
        else if contains command_marker line then
          match search_command line with
          | Some g =>
              Ok (elements,
                  Some (mkElement (e_description e) (e_type e) (e_priority e)
                                  (e_relative_coordinates e) (e_coordinates e)
                                  (Some (strip g))))
          | None => Ok st
          end
        else Ok st
    end.

Fixpoint parse_coordinates_lines
  (st : list element * option element) (lines : list str)
  : result (list element * option element) :=
  match lines with
  | [] => Ok st
  | line :: lines' =>
      st' <- parse_coordinates_line st line ;;
      parse_coordinates_lines st' lines'
  end.

Definition parse_coordinates_from_text (description : str) : result (list element) :=
  let lines := split newline description in
  '(elements, current_element) <- parse_coordinates_lines ([], None) lines ;;
  match current_element with
  | Some e => Ok (elements ++ [e])
  | None => Ok elements
  end.

(** ** [capture_screenshot] of [phone_view.py]

    Beside the device, the function uses the file system: the temporary
    file of [tempfile.mkstemp] and the file it writes.  Both are oracles
    of the trace, as the device is; the trace records the commands and
    the reading of the clock, not the files. *)
Record screenshot_world : Type := mkScreenshotWorld {
  sw_env : environment;
  (** [tempfile.mkstemp(prefix="phone_screen_", suffix=".png")] *)
  tempfile_mkstemp : trace -> exception + str;
  (** [open(path, "wb")] and [f.write(data)]: the exception, if any *)
  write_file : trace -> str -> list Z -> option exception
}.

Definition exec_out (adb device : str) : list str :=
  _adb_base adb device ++ [u "exec-out"; u "screencap"; u "-p"].
Definition screencap (adb device remote : str) : list str :=
  _adb_base adb device ++ [u "shell"; u "screencap"; u "-p"; remote].
Definition pull (adb device remote output_path : str) : list str :=
  _adb_base adb device ++ [u "pull"; remote; output_path].
Definition rm (adb device remote : str) : list str :=
  _adb_base adb device ++ [u "shell"; u "rm"; u "-f"; remote].

(** [RuntimeError(message)], an [Exception] with its text. *)
Definition RuntimeError (message : str) : exception := OtherException message.

Definition adb_not_found (adb : str) : exception :=
  RuntimeError (u "adb not found at '" ++ adb ++ u "'").

(** The fallback of [capture_screenshot]: write the picture on the device,
    pull it, remove it. *)
Definition capture_by_pull (env : environment) (adb device : str) (timeout_s : Z)
  (output_path : str) : io str :=
  now <~ (fun tr => let t := time_time env tr in (Ok t, tr ++ [EvClock t])) ;;
  stamp <~ lift (PyFloat.to_int now) ;;
  let remote := u "/sdcard/phone_screen_" ++ of_int stamp ++ u ".png" in
  r1 <~ _run env (screencap adb device remote) timeout_s ;;
  if negb (ok r1) then
    raise (RuntimeError (u "Failed to capture screenshot: "
                           ++ str_or (strip (stderr r1)) (strip (stdout r1))))
  else
    r2 <~ _run env (pull adb device remote output_path) timeout_s ;;
    _run env (rm adb device remote) timeout_s ;;;
    if negb (ok r2) then
      raise (RuntimeError (u "Failed to pull screenshot: "
                             ++ str_or (strip (stderr r2)) (strip (stdout r2))))
    else ret output_path.

Definition capture_screenshot (w : screenshot_world) (adb device : str)
  (timeout_s : Z) (output_path : option str) : io str :=
  output_path <~
    match output_path with
    | Some p => ret p
    | None =>
        fun tr =>
          (match tempfile_mkstemp w tr with
           | inr p => Ok p
           | inl e => Raise (Exception e)
           end, tr)
    end ;;
  fun tr =>
    let tr1 := tr ++ [EvRun (exec_out adb device) timeout_s] in
    match subprocess_run (sw_env w) tr (exec_out adb device) timeout_s with
    | Completed rc out _ =>
        if (rc =? 0) && truthy out then
          match write_file w tr1 output_path out with
          | None => (Ok output_path, tr1)
          | Some FileNotFoundError => (Raise (Exception (adb_not_found adb)), tr1)
          | Some e => (Raise (Exception e), tr1)
          end
        else capture_by_pull (sw_env w) adb device timeout_s output_path tr1
    | TimeoutExpired _ _ =>
        capture_by_pull (sw_env w) adb device timeout_s output_path tr1
    | NotRun FileNotFoundError => (Raise (Exception (adb_not_found adb)), tr1)
    | NotRun e => (Raise (Exception e), tr1)
    end.

(** The adb commands of a trace, in order. *)
Fixpoint commands_run (tr : trace) : list (list str) :=
  match tr with
  | [] => []
  | EvRun cmd _ :: tr' => cmd :: commands_run tr'
  | _ :: tr' => commands_run tr'
  end.

(** A device on which [exec-out] gives nothing and [pull] fails. *)
Definition stubborn_device : screenshot_world :=
  mkScreenshotWorld
    (mkEnvironment
       (fun _ cmd _ =>
          if contains (u "exec-out") (List.concat cmd) || contains (u "pull") (List.concat cmd)
          then Completed 1 [] (u "error: closed")
          else Completed 0 [] [])
       (fun _ _ _ => Completed 1 [] [])
       (fun _ => float_100) (fun _ _ => false) (fun _ _ => inl FileNotFoundError)
       false false (fun _ => None) [] [])
    (fun _ => inr (u "/tmp/phone_screen_x.png"))
    (fun _ _ _ => None).

(** ** Notions of the further properties *)

(** The two coordinate keys of an element are linked by the mapper: one
    was computed from the other. *)
Definition linked (info : screen_info) (e : element) : Prop :=
  match e_relative_coordinates e, e_coordinates e with
  | Some rel, Some pix =>
      convert_relative_to_absolute (fst rel) (snd rel) (width info) (height info)
      = Ok pix
      \/ convert_absolute_to_relative (fst pix) (snd pix) (width info) (height info)
         = Ok rel
  | None, None => True
  | _, _ => False
  end.
(** A line of an element block from which the older extractor reads the
    coordinates [xy], and a line from which it reads none. *)
Definition coordinate_line (line : str) (xy : Z * Z) : Prop :=
  is_title_line line = false
  /\ contains abs_coord_marker line = true
  /\ exists groups,
      search coord_pattern line = Some groups /\ two_ints groups = Ok xy.

Definition no_coordinate (line : str) : Prop :=
  is_title_line line = false
  /\ (contains abs_coord_marker line = false \/ search coord_pattern line = None).

(** A narrative whose first element names its coordinates twice. *)
Definition rewritten_example : str :=
  u "1. 🔥 **搜索框** (高优先级)" ++ newline :: legacy_example
    ++ newline :: u "   📝 说明：点击搜索框"
    ++ newline :: u "   🎯 坐标：(310, 220)"
    ++ newline :: u "   💻 命令：python3 scripts/phone_control.py tap 310 220"
    ++ newline :: u "2. ⭐ **Trending标签** (中优先级)".

(** A preamble that names coordinates before any element is announced. *)
Definition preamble_example : str :=
  u "【屏幕描述部分】 搜索页 🎯 相对坐标：(1, 2)".
(** A device of which a screenshot of 1080 x 2340 pixels is at hand. *)
Definition photographed_device : environment :=
  mkEnvironment
    (fun _ _ _ => Completed 0 (u "Physical density: 440") [])
    (fun _ _ _ => Completed 1 [] [])
    (fun _ => S754_zero false) (fun _ _ => true)
    (fun _ _ => inr (1080, 2340)%N) true true (fun _ => None) [] [].

(** A device whose screenshots cannot be read. *)
Definition blurred_device : environment :=
  mkEnvironment
    (fun _ _ _ => Completed 0 (u "Physical density: 440") [])
    (fun _ _ _ => Completed 1 [] [])
    (fun _ => S754_zero false) (fun _ _ => true)
    (fun _ _ => inl ValueError) true true (fun _ => None) [] [].
(** The quotient [1080 / 2340]. *)
Definition ratio_1080_2340 : PyFloat.float :=
  Eval vm_compute in
    match PyFloat.truediv 1080 2340 with Ok f => f | Raise _ => S754_nan end.

(** What a device of 1080 x 2400 pixels may answer to both [dumpsys]
    queries. *)
Definition dumpsys_report : str :=
  u "init=1080x2400 420dpi cur=1080x2400 mUnrestrictedScreen=(0,0) 1080x2400".
(** A computation that extends the trace with no event of the kind
    [P]. *)
Definition silent (P : event -> bool) {A} (c : io A) : Prop :=
  forall tr r tr', c tr = (r, tr') -> exists new, tr' = tr ++ new /\ filter P new = [].

(** The lines with which [_auto_view_screen] reports a failed
    observation on the standard error stream. *)
Definition observation_report (m : message) : bool :=
  match m with
  | AutoViewFailed _ _ | AutoViewTimeout _ _ | AutoViewScriptNotFound _
  | AutoViewError _ => true
  | _ => false
  end.

(** Kinds of events: a wait or an observation; an adb command run with a
    timeout that is neither [--timeout] nor the 10 seconds of a query for
    the geometry; and what a reader of the JSON output must not meet, a
    line on the standard output that is not the JSON object or a report of
    the observation on the standard error. *)
Definition is_wait_or_observation (e : event) : bool :=
  match e with EvSleep _ | EvAutoView _ _ => true | _ => false end.

(** The four queries for the geometry of the screen. *)
Definition geometry_queries (adb device : str) : list (list str) :=
  [wm_size adb device; dumpsys_window_displays adb device;
   dumpsys_window adb device; wm_density adb device].

Fixpoint cmd_eqb (a b : list str) : bool :=
  match a, b with
  | [], [] => true
  | x :: a', y :: b' => PyStr.eqb x y && cmd_eqb a' b'
  | _, _ => false
  end.

Definition runs_with_other_timeout (args : arguments) (e : event) : bool :=
  match e with
  | EvRun cmd t =>
      negb ((t =? a_timeout args)
            || ((t =? 10)
                && existsb (cmd_eqb cmd)
                     (geometry_queries (a_adb args) (a_device args))))
  | _ => false
  end.

(** An observation that failed: the process did not end with status 0. *)
Definition observation_failed (o : proc_outcome) : Prop :=
  match o with
  | Completed code _ _ => code <> 0
  | _ => True
  end.

Definition is_observation (e : event) : bool :=
  match e with EvAutoView _ _ => true | _ => false end.

Definition spoils_json (e : event) : bool :=
  match e with
  | EvStdout (JsonResult _ _) => false
  | EvStdout _ => true
  | EvStderr m => observation_report m
  | _ => false
  end.

(** The device command of the four sub-commands that [main] runs without
    [execute_with_auto_view]. *)
Definition is_plain_action (env : environment) (args : arguments)
  (action : io CmdResult) : Prop :=
  let client := mkAdbClient (a_adb args) (a_device args) (a_timeout args) in
  match a_command args with
  | Connect => action = connect env client
  | Devices => action = devices env client
  | Stop name => action = app_stop env client name
  | Shell (a :: shell_args) => action = shell env client (a :: shell_args)
  | _ => False
  end.

(** The checks of [main] before it dispatches on the sub-command. *)
Definition accepted (env : environment) (args : arguments) : Prop :=
  PyFloat.int_gt 0 (a_wait args) = false
  /\ PyFloat.gt_int (a_wait args) 60 = false
  /\ (relative (a_command args) = Some true ->
      COORDINATE_CONVERSION_AVAILABLE env = true).

(** A line printed on either standard stream. *)
Definition is_print (e : event) : Prop :=
  match e with
  | EvStdout _ | EvStderr _ => True
  | _ => False
  end.

(** A device that is offline: adb says so on its standard error and
    hangs until the time allowed has run out. *)
Definition offline_device : environment :=
  mkEnvironment
    (fun _ _ _ => TimeoutExpired [] (u "error: device offline"))
    (fun _ _ _ => Completed 1 [] [])
    (fun _ => S754_zero false) (fun _ _ => false)
    (fun _ _ => inl FileNotFoundError) false false (fun _ => None) [] [].

(** [phone_control.py --json devices] and [phone_control.py devices] *)
Definition list_devices (as_json : bool) : arguments :=
  mkArguments (u "adb") (u "127.0.0.1:5555") 30 as_json true float_1_5 Devices.

(** [phone_control.py --no-auto-view tap 1200 -7] *)
Definition tap_blind : arguments :=
  mkArguments (u "adb") (u "127.0.0.1:5555") 30 false false float_1_5
    (Tap 1200 (-7) false).

(** [phone_control.py tap --relative 500 205] *)
Definition tap_relative : arguments :=
  mkArguments (u "adb") (u "127.0.0.1:5555") 30 false true float_1_5
    (Tap 500 205 true).

(** * Proofs *)

(** ** The model against the interpreter

    Values read off a Python 3.11 prompt. *)

Example float_0_05_is_5_over_100 : PyFloat.truediv 5 100 = Ok float_0_05.
Proof. vm_compute. reflexivity. Qed.

Example float_0_1_is_1_over_10 : PyFloat.truediv 1 10 = Ok float_0_1.
Proof. vm_compute. reflexivity. Qed.

Example int_of_0_29_times_100 : scale_relative 290 100 = Ok 28.
Proof. vm_compute. reflexivity. Qed.

Example int_of_large_quotient :
  PyFloat.truediv (10 ^ 30) 3 = Ok (S754_finite false 0x10d43b7bc05df1 46).
Proof. vm_compute. reflexivity. Qed.

Example int_too_large_for_float :
  PyFloat.of_int (2 ^ 1024 - 2 ^ 970) = Raise OverflowError
  /\ PyFloat.of_int (2 ^ 1024 - 2 ^ 970 - 1)
     = Ok (S754_finite false 0x1fffffffffffff 971).
Proof. split; vm_compute; reflexivity. Qed.

Example bottom_right_corner :
  convert_relative_to_absolute 999 999 1080 2400 = Ok (1078, 2397).
Proof. vm_compute. reflexivity. Qed.

Example round_trip_on_large_sizes :
  round_trip 999 205 (2 ^ 100 + 12345678901234567890123) (3 ^ 70)
  = Ok (999, 204).
Proof. vm_compute. reflexivity. Qed.

Example marker_code_points :
  rel_coord_marker = [127919; 32; 30456; 23545; 22352; 26631; 65306].
Proof. vm_compute. reflexivity. Qed.

Example arabic_indic_digits :
  search size_pattern (u "Physical size: ٣٤x12") = Some [[3; 4]; [1; 2]]%N.
Proof. vm_compute. reflexivity. Qed.

Example narrative_example_elements :
  parse_relative_coordinates_from_text narrative_example full_hd
  = Ok [mkElement (u "搜索框") (u "unknown") (u "high") (Some (500, 150))
          (Some (540, 360))
          (Some (u "python3 scripts/phone_control.py tap --relative 500 150"));
        mkElement (u "Trending标签") (u "unknown") (u "medium") None None None].
Proof. vm_compute. reflexivity. Qed.

(** ** Binary64 rounding

    [binary_round_aux] keeps the 53 leading bits of a mantissa and rounds
    to one of the two neighbours. *)

Section Rounding.

Import PyFloat.

Lemma digits2_pos_log2 (p : positive) :
  Zpos (digits2_pos p) = Z.log2 (Zpos p) + 1.
Proof.
  induction p as [p IH | p IH | ]; cbn [digits2_pos]; rewrite ?Pos2Z.inj_succ, ?IH.
  - change (Zpos p~1) with (2 * Zpos p + 1). rewrite Z.log2_succ_double by lia. lia.
  - change (Zpos p~0) with (2 * Zpos p). rewrite Z.log2_double by lia. lia.
  - reflexivity.
Qed.

Lemma digits2_pos_bounds (p : positive) :
  2 ^ (Zpos (digits2_pos p) - 1) <= Zpos p < 2 ^ Zpos (digits2_pos p).
Proof.
  rewrite digits2_pos_log2.
  replace (Z.log2 (Zpos p) + 1 - 1) with (Z.log2 (Zpos p)) by lia.
  apply (Z.log2_spec (Zpos p)). lia.
Qed.

Lemma digits2_pos_unique (p : positive) (d : Z) :
  2 ^ (d - 1) <= Zpos p < 2 ^ d -> Zpos (digits2_pos p) = d.
Proof.
  intros [Hlo Hhi].
  assert (1 <= d).
  { destruct (Z_lt_le_dec d 1) as [Hd|Hd]; [|exact Hd].
    exfalso. destruct (Z.eq_dec d 0) as [->|Hn].
    - simpl in Hhi. lia.
    - rewrite Z.pow_neg_r in Hhi by lia. lia. }
  rewrite digits2_pos_log2.
  rewrite (Z.log2_unique (Zpos p) (d - 1)); try lia.
  replace (Z.succ (d - 1)) with d by lia. lia.
Qed.

Lemma shr_1_m (mrs : shr_record) :
  0 <= shr_m mrs -> shr_m (shr_1 mrs) = shr_m mrs / 2.
Proof.
  destruct mrs as [m r s]. cbn [shr_m]. intros Hm.
  destruct m as [|p|p]; [reflexivity| |lia].
  destruct p as [p|p|]; cbn [shr_1 shr_m].
  - change (Zpos p~1) with (2 * Zpos p + 1).
    apply Z.div_unique with 1; lia.
  - change (Zpos p~0) with (2 * Zpos p).
    apply Z.div_unique with 0; lia.
  - reflexivity.
Qed.

Lemma iter_pos_shr_m (p : positive) :
  forall mrs, 0 <= shr_m mrs ->
    shr_m (iter_pos shr_1 p mrs) = shr_m mrs / 2 ^ Zpos p.
Proof.
  induction p as [p IH | p IH | ]; intros mrs Hm; cbn [iter_pos];
    try assert (Hp : 0 < 2 ^ Zpos p) by (apply Z.pow_pos_nonneg; lia).
  - assert (H1 : 0 <= shr_m (shr_1 mrs)).
    { rewrite shr_1_m by exact Hm. apply Z.div_pos; lia. }
    assert (H2 : 0 <= shr_m (iter_pos shr_1 p (shr_1 mrs))).
    { rewrite IH by exact H1. apply Z.div_pos; [exact H1|]. apply Z.pow_pos_nonneg; lia. }
    rewrite IH by exact H2. rewrite IH by exact H1. rewrite shr_1_m by exact Hm.
    rewrite !Z.div_div by lia.
    f_equal. replace (Zpos p~1) with (1 + Zpos p + Zpos p) by lia.
    rewrite !Z.pow_add_r by lia. change (2 ^ 1) with 2. ring.
  - assert (H2 : 0 <= shr_m (iter_pos shr_1 p mrs)).
    { rewrite IH by exact Hm. apply Z.div_pos; [exact Hm|]. apply Z.pow_pos_nonneg; lia. }
    rewrite IH by exact H2. rewrite IH by exact Hm.
    rewrite Z.div_div by lia.
    f_equal. rewrite Pos2Z.inj_xO. rewrite <- Z.pow_add_r by lia. f_equal. lia.
  - rewrite shr_1_m by exact Hm. reflexivity.
Qed.

Lemma loc_of_shr_record_of_loc (m : Z) (l : location) :
  loc_of_shr_record (shr_record_of_loc m l) = l.
Proof. destruct l as [|[]]; reflexivity. Qed.

Lemma shr_m_record_of_loc (m : Z) (l : location) :
  shr_m (shr_record_of_loc m l) = m.
Proof. destruct l as [|[]]; reflexivity. Qed.

Lemma round_nearest_even_bounds (m : Z) (l : location) :
  m <= round_nearest_even m l <= m + 1.
Proof.
  destruct l as [|[]]; cbn [round_nearest_even]; try lia.
  destruct (Z.even m); lia.
Qed.

Lemma shr_fexp_spec (M : positive) (E : Z) (l : location) :
  -1074 <= E ->
  exists mrs,
    shr_fexp prec emax (Zpos M) E l = (mrs, E + excess M)
    /\ shr_m mrs = Zpos M / 2 ^ excess M
    /\ (Zpos (digits2_pos M) <= 53 -> mrs = shr_record_of_loc (Zpos M) l).
Proof.
  intros HE. unfold shr_fexp, excess, fexp, emin, prec, emax. cbn [Zdigits2].
  set (d := Zpos (digits2_pos M)).
  destruct (Z_le_gt_dec d 53) as [Hd|Hd].
  - exists (shr_record_of_loc (Zpos M) l).
    replace (Z.max 0 (d - 53)) with 0 by lia.
    rewrite Z.add_0_r, Z.div_1_r, shr_m_record_of_loc.
    split; [|split; [reflexivity|intros _; reflexivity]].
    assert (Hs : Z.max (d + E - 53) (3 - 1024 - 53) - E <= 0) by lia.
    destruct (Z.max (d + E - 53) (3 - 1024 - 53) - E) as [|p|p]; try reflexivity; lia.
  - replace (Z.max (d + E - 53) (3 - 1024 - 53) - E) with (d - 53) by lia.
    replace (Z.max 0 (d - 53)) with (d - 53) by lia.
    destruct (d - 53) as [|p|p] eqn:Hn; try lia.
    exists (iter_pos shr_1 p (shr_record_of_loc (Zpos M) l)).
    split; [reflexivity|]. split; [|lia].
    rewrite iter_pos_shr_m; rewrite shr_m_record_of_loc; [reflexivity|lia].
Qed.

Lemma pow2_split (a b : Z) : 0 <= a -> 0 <= b -> 2 ^ (a + b) = 2 ^ a * 2 ^ b.
Proof. intros. apply Z.pow_add_r; assumption. Qed.

Lemma binary_round_aux_faithful (M : positive) (E : Z) (l : location) :
  -1074 <= E -> E + excess M + 1 <= 971 ->
  exists m e,
    binary_round_aux prec emax false (Zpos M) E l = S754_finite false m e
    /\ E <= e <= E + excess M + 1
    /\ Zpos M / 2 ^ (e - E) <= Zpos m <= Zpos M / 2 ^ (e - E) + 1
    /\ Zpos m < 2 ^ 53
    /\ (E < e -> 2 ^ 52 <= Zpos m)
    /\ (l = loc_Exact -> Zpos (digits2_pos M) <= 53 -> m = M /\ e = E).
Proof.
  intros HE Hov.
  destruct (shr_fexp_spec M E l HE) as (mrs & Hshr & Hm1 & Hex1).
  unfold binary_round_aux. rewrite Hshr.
  set (n := excess M) in *.
  set (m1 := shr_m mrs) in *.
  set (m2 := round_nearest_even m1 (loc_of_shr_record mrs)).
  pose proof (round_nearest_even_bounds m1 (loc_of_shr_record mrs)) as Hrne.
  fold m2 in Hrne.
  pose proof (digits2_pos_bounds M) as HdM.
  set (d := Zpos (digits2_pos M)) in *.
  assert (Hn : 0 <= n) by (unfold n, excess; lia).
  assert (Hpn : 0 < 2 ^ n) by (apply Z.pow_pos_nonneg; lia).
  assert (Hm1lo : 1 <= m1 /\ (0 < n -> 2 ^ 52 <= m1) /\ m1 < 2 ^ 53).
  { rewrite Hm1. unfold n, excess. fold d.
    destruct (Z_le_gt_dec d 53) as [Hd|Hd].
    - replace (Z.max 0 (d - 53)) with 0 by lia. rewrite Z.div_1_r.
      split; [lia|]. split; [lia|].
      apply Z.lt_le_trans with (2 ^ d); [lia|]. apply Z.pow_le_mono_r; lia.
    - replace (Z.max 0 (d - 53)) with (d - 53) by lia.
      assert (Hp : 0 < 2 ^ (d - 53)) by (apply Z.pow_pos_nonneg; lia).
      assert (H52 : 2 ^ (d - 1) = 2 ^ 52 * 2 ^ (d - 53)).
      { rewrite <- pow2_split by lia. f_equal. lia. }
      assert (H53 : 2 ^ d = 2 ^ 53 * 2 ^ (d - 53)).
      { rewrite <- pow2_split by lia. f_equal. lia. }
      assert (2 ^ 52 <= Zpos M / 2 ^ (d - 53)).
      { apply Z.div_le_lower_bound; [lia|]. rewrite Z.mul_comm. lia. }
      split; [change (2 ^ 52) with 4503599627370496 in *; lia|].
      split; [intros _; assumption|].
      apply Z.div_lt_upper_bound; [lia|]. rewrite Z.mul_comm. lia. }
  destruct Hm1lo as (Hm1pos & Hm1norm & Hm1hi).
  destruct m2 as [|m2p|m2p] eqn:Hm2; try lia.
  assert (HE2 : -1074 <= E + n) by lia.
  destruct (shr_fexp_spec m2p (E + n) loc_Exact HE2) as (mrs2 & Hshr2 & Hm3 & Hex2).
  rewrite Hshr2.
  pose proof (digits2_pos_bounds m2p) as Hd2.
  set (d2 := Zpos (digits2_pos m2p)) in *.
  destruct (Z_le_gt_dec d2 53) as [Hd|Hd].
  - (* no renormalisation *)
    assert (Hx : excess m2p = 0) by (unfold excess; fold d2; lia).
    rewrite Hx in *. rewrite Z.div_1_r in Hm3. rewrite Hm3.
    assert (Hle : (E + n + 0 <=? 971) = true) by (apply Z.leb_le; lia).
    unfold prec, emax. cbn [Z.sub]. change (1024 - 53) with 971. rewrite Hle.
    exists m2p, (E + n + 0).
    split; [reflexivity|].
    replace (E + n + 0 - E) with n by lia.
    split; [lia|]. rewrite <- Hm1. fold m1.
    split; [lia|].
    split.
    { apply Z.lt_le_trans with (2 ^ d2); [lia|]. apply Z.pow_le_mono_r; lia. }
    split.
    { intros Hlt. assert (0 < n) by lia. specialize (Hm1norm H). lia. }
    intros -> HdM53. fold d in HdM53.
    specialize (Hex1 HdM53). 
    assert (n = 0) by (unfold n, excess; fold d; lia).
    split; [|lia].
    assert (Zpos m2p = Zpos M); [|congruence].
    rewrite <- Hm2. unfold m2, m1. rewrite Hex1. reflexivity.
  - (* the rounding carried into bit 54 *)
    assert (Hm2eq : Zpos m2p = 2 ^ 53).
    { assert (2 ^ 53 <= 2 ^ (d2 - 1)) by (apply Z.pow_le_mono_r; lia). lia. }
    assert (Hd2eq : d2 = 54).
    { unfold d2. apply digits2_pos_unique. rewrite Hm2eq. split; [reflexivity|reflexivity]. }
    assert (Hx : excess m2p = 1) by (unfold excess; fold d2; lia).
    rewrite Hx in *. rewrite Hm2eq in Hm3. change (2 ^ 53 / 2 ^ 1) with (Zpos (4503599627370496)) in Hm3.
    rewrite Hm3.
    assert (Hle : (E + n + 1 <=? 971) = true) by (apply Z.leb_le; lia).
    unfold prec, emax. change (1024 - 53) with 971. rewrite Hle.
    exists 4503599627370496%positive, (E + n + 1).
    split; [reflexivity|].
    replace (E + n + 1 - E) with (n + 1) by lia.
    split; [lia|].
    assert (Hm1eq : m1 = 2 ^ 53 - 1) by lia.
    assert (Hdiv : Zpos M / 2 ^ (n + 1) = 2 ^ 52 - 1).
    { rewrite pow2_split by lia. rewrite <- Z.div_div by lia.
      rewrite <- Hm1. fold m1. rewrite Hm1eq. reflexivity. }
    rewrite Hdiv.
    split; [change (2 ^ 52) with 4503599627370496; lia|].
    split; [reflexivity|].
    split; [intros _; change (2 ^ 52) with 4503599627370496; lia|].
    intros -> HdM53. fold d in HdM53. exfalso.
    specialize (Hex1 HdM53).
    assert (n = 0) by (unfold n, excess; fold d; lia).
    assert (Zpos m2p = Zpos M).
    { rewrite <- Hm2. unfold m2, m1. rewrite Hex1. reflexivity. }
    assert (Zpos M < 2 ^ 53).
    { apply Z.lt_le_trans with (2 ^ d); [lia|]. apply Z.pow_le_mono_r; lia. }
    lia.
Qed.

Lemma to_int_finite_pos (m : positive) (e : Z) :
  to_int (S754_finite false m e)
  = Ok (if e <? 0 then Zpos m / 2 ^ (- e) else Zpos m * 2 ^ e).
Proof.
  unfold to_int. f_equal.
  destruct e as [|p|p].
  - cbn. rewrite Pos.mul_1_r. reflexivity.
  - replace (Zpos p <? 0) with false by (symmetry; apply Z.ltb_ge; lia).
    apply Z.shiftl_mul_pow2. lia.
  - replace (Zneg p <? 0) with true by (symmetry; apply Z.ltb_lt; lia).
    apply Z.shiftr_div_pow2. lia.
Qed.

Lemma iter_xO_pow2 (m d : positive) :
  Zpos (Pos.iter xO m d) = Zpos m * 2 ^ Zpos d.
Proof.
  induction d as [|d IH] using Pos.peano_ind.
  - cbn [Pos.iter]. rewrite Pos2Z.inj_xO. change (2 ^ 1) with 2. lia.
  - rewrite Pos.iter_succ, Pos2Z.inj_xO, IH, Pos2Z.inj_succ, Z.pow_succ_r by lia. lia.
Qed.

Lemma of_Z_exact (W : Z) :
  0 < W < 2 ^ 53 ->
  exists m e,
    of_Z W = S754_finite false m e
    /\ -52 <= e <= 0
    /\ Zpos m = W * 2 ^ (- e)
    /\ 2 ^ 52 <= Zpos m < 2 ^ 53.
Proof.
  intros [Hpos Hlt]. destruct W as [|p|p]; try lia.
  unfold of_Z, binary_normalize, binary_round.
  pose proof (digits2_pos_bounds p) as Hd.
  set (d := Zpos (digits2_pos p)) in *.
  assert (Hd1 : 1 <= d) by (unfold d; lia).
  assert (Hd53 : d <= 53).
  { destruct (Z_le_gt_dec d 53) as [H|H]; [exact H|exfalso].
    assert (2 ^ 53 <= 2 ^ (d - 1)) by (apply Z.pow_le_mono_r; lia). lia. }
  unfold fexp, emin, prec, emax, shl_align.
  replace (Z.max (d + 0 - 53) (3 - 1024 - 53) - 0) with (d - 53) by lia.
  replace (Z.max (d + 0 - 53) (3 - 1024 - 53)) with (d - 53) by lia.
  destruct (d - 53) as [|q|q] eqn:Hq; try lia.
  - (* already 53 bits *)
    assert (Hex : excess p = 0) by (unfold excess; fold d; lia).
    destruct (binary_round_aux_faithful p 0 loc_Exact) as (m & e & Hr & He & _ & _ & _ & Hx);
      try (rewrite ?Hex; lia).
    destruct (Hx eq_refl) as [-> ->]; [fold d; lia|].
    exists p, 0. unfold prec, emax in Hr. rewrite Hr.
    split; [reflexivity|]. split; [lia|]. split; [change (2 ^ (- 0)) with 1; lia|].
    replace d with 53 in Hd by lia. change (53 - 1) with 52 in Hd. lia.
  - (* shifted left to 53 bits *)
    pose proof (iter_xO_pow2 p q) as Hsh.
    set (mz := Pos.iter xO p q) in *.
    assert (Hpq : 0 < 2 ^ Zpos q) by (apply Z.pow_pos_nonneg; lia).
    assert (H52 : 2 ^ 52 = 2 ^ (d - 1) * 2 ^ Zpos q).
    { rewrite <- pow2_split by lia. f_equal. lia. }
    assert (H53 : 2 ^ 53 = 2 ^ d * 2 ^ Zpos q).
    { rewrite <- pow2_split by lia. f_equal. lia. }
    assert (Hmz : 2 ^ 52 <= Zpos mz < 2 ^ 53) by (rewrite Hsh; nia).
    assert (Hdz : Zpos (digits2_pos mz) = 53) by (apply digits2_pos_unique; exact Hmz).
    assert (Hex : excess mz = 0) by (unfold excess; lia).
    destruct (binary_round_aux_faithful mz (Zneg q) loc_Exact) as (m & e & Hr & He & _ & _ & _ & Hx);
      try (rewrite ?Hex; lia).
    destruct (Hx eq_refl) as [-> ->]; [lia|].
    exists mz, (Zneg q). unfold prec, emax in Hr. rewrite Hr.
    split; [reflexivity|]. split; [lia|]. split; [|exact Hmz].
    rewrite Hsh. reflexivity.
Qed.

Lemma thousandth_table :
  forallb thousandth_ok (map Z.of_nat (seq 1 999)) = true.
Proof. vm_compute. reflexivity. Qed.

Lemma thousandth_spec (rel : Z) :
  1 <= rel <= 999 ->
  exists m e,
    truediv rel 1000 = Ok (S754_finite false m e)
    /\ -62 <= e <= -53
    /\ 2 ^ 52 <= Zpos m < 2 ^ 53
    /\ Z.abs (Zpos m * 1000 - rel * 2 ^ (- e)) <= 500.
Proof.
  intros Hrel.
  pose proof thousandth_table as Ht. rewrite forallb_forall in Ht.
  specialize (Ht rel).
  assert (Hin : In rel (map Z.of_nat (seq 1 999))).
  { apply in_map_iff. exists (Z.to_nat rel). split; [lia|]. apply in_seq. lia. }
  specialize (Ht Hin). unfold thousandth_ok in Ht.
  destruct (truediv rel 1000) as [[s|s| |[|] m e]|x]; try discriminate.
  exists m, e. split; [reflexivity|].
  rewrite !andb_true_iff in Ht. destruct Ht as ((((H1 & H2) & H3) & H4) & H5).
  apply Z.leb_le in H1, H2, H3, H5. apply Z.ltb_lt in H4. lia.
Qed.

Lemma digits2_pos_le (p : positive) (k : Z) :
  0 <= k -> Zpos p < 2 ^ k -> Zpos (digits2_pos p) <= k.
Proof.
  intros Hk Hp. pose proof (digits2_pos_bounds p) as [Hlo _].
  destruct (Z_le_gt_dec (Zpos (digits2_pos p)) k) as [H|H]; [exact H|exfalso].
  assert (2 ^ k <= 2 ^ (Zpos (digits2_pos p) - 1)) by (apply Z.pow_le_mono_r; lia).
  lia.
Qed.

Lemma pow2_gt_exp (a b : Z) : 0 <= b -> 2 ^ a < 2 ^ b -> a < b.
Proof.
  intros Hb H. destruct (Z_lt_le_dec a b) as [Hab|Hab]; [exact Hab|exfalso].
  assert (2 ^ b <= 2 ^ a) by (apply Z.pow_le_mono_r; lia). lia.
Qed.

(** Arithmetic of the last two steps of [scale_relative]: a product [M] of
    a quotient mantissa and a size mantissa, cut to 53 bits ([m], dropping
    [PK]) and then truncated to an integer ([a], dropping [Pk]). *)
Lemma scale_relative_arith (rel W mq Pq mW M Q PK m Pk a : Z) :
  0 <= rel -> 0 < W -> 0 < PK -> 4096 <= Pk -> 0 <= a ->
  Z.abs (mq * 1000 - rel * Pq) <= 500 ->
  0 < mW -> 500 * mW < 1000 * PK ->
  M = mq * mW ->
  rel * W * (PK * Pk) = rel * Pq * mW ->
  PK * Q <= M < PK * Q + PK ->
  Q <= m <= Q + 1 ->
  Pk * a <= m < Pk * a + Pk ->
  a * 1000 <= rel * W <= a * 1000 + 1000.
Proof.
  intros Hrel HW HPK HPk Ha Herr HmW HmWhi HM HrelP HQ Hm Hdiv.
  assert (HPP : 4096 * PK <= PK * Pk).
  { rewrite (Z.mul_comm PK Pk). apply Z.mul_le_mono_nonneg_r; lia. }
  assert (Hup : 1000 * M <= rel * W * (PK * Pk) + 500 * mW).
  { rewrite HrelP, HM.
    assert (mq * 1000 * mW <= (rel * Pq + 500) * mW)
      by (apply Z.mul_le_mono_nonneg_r; lia).
    lia. }
  assert (Hlo : rel * W * (PK * Pk) - 500 * mW <= 1000 * M).
  { rewrite HrelP, HM.
    assert ((rel * Pq - 500) * mW <= mq * 1000 * mW)
      by (apply Z.mul_le_mono_nonneg_r; lia).
    lia. }
  split.
  - assert (H1 : a * (PK * Pk) <= M + PK).
    { assert (Pk * a * PK <= m * PK) by (apply Z.mul_le_mono_nonneg_r; lia).
      assert (m * PK <= (Q + 1) * PK) by (apply Z.mul_le_mono_nonneg_r; lia).
      lia. }
    destruct (Z_le_gt_dec (a * 1000) (rel * W)) as [H|H]; [exact H|exfalso].
    assert (1 * (PK * Pk) <= (a * 1000 - rel * W) * (PK * Pk))
      by (apply Z.mul_le_mono_nonneg_r; lia).
    lia.
  - assert (H1 : M < (a + 1) * (PK * Pk)).
    { assert ((m + 1) * PK <= (Pk * a + Pk) * PK)
        by (apply Z.mul_le_mono_nonneg_r; lia).
      assert ((Q + 1) * PK <= (m + 1) * PK)
        by (apply Z.mul_le_mono_nonneg_r; lia).
      lia. }
    destruct (Z_le_gt_dec (rel * W) (a * 1000 + 1000)) as [H|H]; [exact H|exfalso].
    assert (1 * (PK * Pk) <= (rel * W - 1000 * (a + 1)) * (PK * Pk))
      by (apply Z.mul_le_mono_nonneg_r; lia).
    lia.
Qed.

Lemma Zdiv_bracket (a b : Z) : 0 < b -> b * (a / b) <= a < b * (a / b) + b.
Proof.
  intros Hb. pose proof (Z.div_mod a b ltac:(lia)).
  pose proof (Z.mod_pos_bound a b Hb). lia.
Qed.

Lemma scale_relative_spec (rel W : Z) :
  0 <= rel <= 999 -> 0 < W < 2 ^ 40 ->
  exists a, scale_relative rel W = Ok a
            /\ 0 <= a /\ a * 1000 <= rel * W <= a * 1000 + 1000.
Proof.
  intros Hrel HW. unfold scale_relative.
  assert (HW53 : 0 < W < 2 ^ 53).
  { split; [lia|]. apply Z.lt_le_trans with (2 ^ 40); [lia|]. apply Z.pow_le_mono_r; lia. }
  destruct (of_Z_exact W HW53) as (mW & eW & HofZ & HeW & HmW & HmWb).
  assert (Hof : of_int W = Ok (S754_finite false mW eW)).
  { unfold of_int. rewrite HofZ. reflexivity. }
  destruct (Z.eq_dec rel 0) as [->|Hnz].
  - exists 0. change (truediv 0 1000) with (Ok (S754_zero false)).
    cbn [bind]. rewrite Hof. cbn. split; [reflexivity|lia].
  - destruct (thousandth_spec rel) as (mq & eq & Hq & Heq & Hmq & Herr); [lia|].
    rewrite Hq. cbn [bind]. rewrite Hof. cbn [bind].
    unfold mul, SFmul. cbn [xorb].
    set (Pq := 2 ^ (- eq)) in *. set (PW := 2 ^ (- eW)) in *.
    assert (HPq : 2 ^ 53 <= Pq) by (unfold Pq; apply Z.pow_le_mono_r; lia).
    assert (HPW : 0 < PW) by (apply Z.pow_pos_nonneg; lia).
    change (2 ^ 52) with 4503599627370496 in *.
    change (2 ^ 53) with 9007199254740992 in *.
    change (2 ^ 40) with 1099511627776 in *.
    assert (HmqPq : Zpos mq < Pq) by lia.
    set (M := (mq * mW)%positive).
    assert (HM : Zpos M = Zpos mq * Zpos mW) by reflexivity.
    assert (HMlo : 4503599627370496 * 4503599627370496 <= Zpos M).
    { rewrite HM. apply Z.mul_le_mono_nonneg; lia. }
    assert (HMhi : Zpos M < 2 ^ 106).
    { change (2 ^ 106) with (9007199254740992 * 9007199254740992). rewrite HM.
      apply Z.mul_lt_mono_nonneg; lia. }
    assert (Hex : 0 <= excess M <= 53).
    { unfold excess. pose proof (digits2_pos_le M 106 ltac:(lia) HMhi). lia. }
    destruct (binary_round_aux_faithful M (eq + eW) loc_Exact)
      as (m & e & Hr & He & Hmb & Hm53 & Hnorm & _); try lia.
    rewrite Hr, to_int_finite_pos.
    change (2 ^ 52) with 4503599627370496 in *.
    change (2 ^ 53) with 9007199254740992 in *.
    set (K := e - (eq + eW)) in *.
    assert (HK0 : 0 <= K) by (unfold K; lia).
    set (PK := 2 ^ K) in *.
    assert (HPK : 0 < PK) by (apply Z.pow_pos_nonneg; lia).
    pose proof (Zdiv_bracket (Zpos M) PK HPK) as HQ.
    set (Q := Zpos M / PK) in *.
    (* the product has at least 105 bits, so at least 52 are dropped *)
    assert (HPK51 : 2 ^ 51 < PK).
    { change (2 ^ 51) with 2251799813685248.
      assert (PK * Q <= PK * 9007199254740991)
        by (apply Z.mul_le_mono_nonneg_l; lia).
      lia. }
    assert (HK52 : 52 <= K).
    { assert (51 < K) by (apply pow2_gt_exp; [lia|exact HPK51]). lia. }
    assert (HPK52 : 4503599627370496 <= PK).
    { change 4503599627370496 with (2 ^ 52). apply Z.pow_le_mono_r; lia. }
    assert (Hm52 : 4503599627370496 <= Zpos m) by (apply Hnorm; lia).
    assert (HP : 2 ^ (- (eq + eW)) = Pq * PW).
    { unfold Pq, PW. rewrite <- pow2_split by lia. f_equal. lia. }
    assert (HMP : Zpos M < W * (Pq * PW)).
    { rewrite HM, HmW. fold PW.
      assert (Zpos mq * (W * PW) < Pq * (W * PW))
        by (apply Z.mul_lt_mono_pos_r; [apply Z.mul_pos_pos; lia|lia]).
      lia. }
    assert (Hm1 : (Zpos m - 1) * PK <= Zpos M).
    { assert ((Zpos m - 1) * PK <= Q * PK)
        by (apply Z.mul_le_mono_nonneg_r; lia).
      lia. }
    (* the result is below 2^40, so its exponent is negative *)
    assert (Hneg : e < 0).
    { destruct (Z_lt_le_dec e 0) as [H|H]; [exact H|exfalso].
      assert (Pq * PW <= PK).
      { rewrite <- HP. apply Z.pow_le_mono_r; lia. }
      assert (W * (Pq * PW) <= W * PK)
        by (apply Z.mul_le_mono_nonneg_l; lia).
      assert ((Zpos m - 1) * PK < W * PK) by lia.
      assert (Zpos m - 1 < W).
      { apply Z.mul_lt_mono_pos_r with PK; assumption. }
      lia. }
    replace (e <? 0) with true by (symmetry; apply Z.ltb_lt; exact Hneg).
    set (Pk := 2 ^ (- e)).
    assert (HPk : 0 < Pk) by (apply Z.pow_pos_nonneg; lia).
    assert (HPsplit : Pq * PW = PK * Pk).
    { rewrite <- HP. unfold PK, Pk. rewrite <- pow2_split by lia. f_equal. lia. }
    assert (HPk12 : 4096 <= Pk).
    { rewrite HPsplit in HMP.
      assert (Hlt : (Zpos m - 1) * PK < W * Pk * PK) by lia.
      apply Z.mul_lt_mono_pos_r in Hlt; [|exact HPK].
      destruct (Z_le_gt_dec 4096 Pk) as [H|H]; [exact H|exfalso].
      assert (W * Pk <= W * 4095) by (apply Z.mul_le_mono_nonneg_l; lia).
      lia. }
    pose proof (Zdiv_bracket (Zpos m) Pk HPk) as Ha.
    set (a := Zpos m / Pk) in *.
    exists a. split; [reflexivity|].
    assert (Ha0 : 0 <= a) by (apply Z.div_pos; lia).
    split; [exact Ha0|].
    apply (scale_relative_arith rel W (Zpos mq) Pq (Zpos mW) (Zpos M) Q PK (Zpos m) Pk a);
      try lia.
    rewrite <- HPsplit, HmW. fold PW. ring.
Qed.

Lemma digits2_pos_ge (p : positive) (k : Z) :
  2 ^ k <= Zpos p -> k + 1 <= Zpos (digits2_pos p).
Proof.
  intros Hp. pose proof (digits2_pos_bounds p) as [_ Hhi].
  assert (k < Zpos (digits2_pos p)) by (apply pow2_gt_exp; lia). lia.
Qed.

(** [float(W)] is [W] cut to 53 bits: the mantissa, scaled back, is within
    one unit in the last place of [W]. *)
Lemma of_Z_faithful (W : Z) :
  0 < W < 2 ^ 1023 ->
  exists m e,
    of_Z W = S754_finite false m e
    /\ -52 <= e <= 971
    /\ 2 ^ 52 <= Zpos m < 2 ^ 53
    /\ Z.abs (Zpos m * 2 ^ (e + 52) - W * 2 ^ 52) <= 2 ^ (e + 52).
Proof.
  intros [Hpos Hlt].
  destruct (Z_lt_le_dec W (2 ^ 53)) as [Hs|Hb].
  - destruct (of_Z_exact W (conj Hpos Hs)) as (m & e & Hm & He & Hval & Hmb).
    exists m, e. split; [exact Hm|]. split; [lia|]. split; [exact Hmb|].
    assert (H52 : 2 ^ 52 = 2 ^ (- e) * 2 ^ (e + 52)).
    { rewrite <- pow2_split by lia. f_equal. lia. }
    assert (Hp : 0 < 2 ^ (e + 52)) by (apply Z.pow_pos_nonneg; lia).
    replace (Zpos m * 2 ^ (e + 52) - W * 2 ^ 52) with 0; [lia|].
    rewrite Hval, H52. ring.
  - destruct W as [|p|p]; try lia.
    pose proof (digits2_pos_ge p 53 Hb) as Hd.
    pose proof (digits2_pos_le p 1023 ltac:(lia) Hlt) as Hd'.
    assert (Hex : excess p = Zpos (digits2_pos p) - 53) by (unfold excess; lia).
    destruct (binary_round_aux_faithful p 0 loc_Exact)
      as (m & e & Hr & He & Hmb & Hm53 & Hnorm & _);
      try (rewrite ?Hex; lia).
    exists m, e.
    assert (Hof : of_Z (Zpos p) = S754_finite false m e).
    { unfold of_Z, binary_normalize, binary_round, shl_align.
      unfold fexp, emin. unfold prec, emax in *.
      set (d := Zpos (digits2_pos p)) in *.
      replace (Z.max (d + 0 - 53) (3 - 1024 - 53) - 0) with (d - 53) by lia.
      replace (Z.max (d + 0 - 53) (3 - 1024 - 53)) with (d - 53) by lia.
      destruct (d - 53) as [|q|q] eqn:Hq; try lia; rewrite Hr; reflexivity. }
    split; [exact Hof|].
    replace (e - 0) with e in Hmb by lia.
    assert (He0 : 0 < e).
    { destruct (Z_lt_le_dec 0 e) as [H|H]; [exact H|exfalso].
      assert (e = 0) by lia. subst e. change (2 ^ 0) with 1 in Hmb.
      rewrite Z.div_1_r in Hmb. lia. }
    split; [rewrite Hex in He; lia|]. split; [split; [apply Hnorm; lia|exact Hm53]|].
    assert (Hpe : 0 < 2 ^ e) by (apply Z.pow_pos_nonneg; lia).
    pose proof (Zdiv_bracket (Zpos p) (2 ^ e) Hpe) as Hq.
    set (Q := Zpos p / 2 ^ e) in *.
    rewrite (pow2_split e 52) by lia.
    set (Pe := 2 ^ e) in *. change (2 ^ 52) with 4503599627370496.
    assert (Zpos m * Pe <= (Q + 1) * Pe) by (apply Z.mul_le_mono_nonneg_r; lia).
    assert (Q * Pe <= Zpos m * Pe) by (apply Z.mul_le_mono_nonneg_r; lia).
    lia.
Qed.

(** Arithmetic of [scale_relative] on a large screen: the three roundings
    (of the quotient, of the size, of the product) and the truncation
    together move the result by less than half a thousandth of the size.
    [Pq], [Pc], [PK] and [Pg] are the powers of two that scale the
    mantissas [mq], [mW] and [m]. *)
Lemma scale_relative_coarse_arith (rel W mq Pq mW Pc m PK Pg a : Z) :
  1 <= rel <= 999 -> 2 ^ 40 <= W ->
  2 ^ 53 <= Pq -> Z.abs (mq * 1000 - rel * Pq) <= 500 -> 0 < mq ->
  0 < Pc -> Z.abs (mW * Pc - W * 2 ^ 52) <= Pc -> 2 ^ 52 <= mW ->
  0 < PK <= 2 ^ 54 -> Z.abs (m * PK - mq * mW) <= PK ->
  0 < Pg -> 2 ^ 114 * (PK * Pc) = 2 ^ 52 * Pq * Pg ->
  a * 2 ^ 114 <= m * Pg < (a + 1) * 2 ^ 114 ->
  2 * Z.abs (a * 1000 - rel * W) <= W.
Proof.
  change (2 ^ 40) with 1099511627776.
  change (2 ^ 52) with 4503599627370496.
  change (2 ^ 53) with 9007199254740992.
  change (2 ^ 54) with 18014398509481984.
  set (T := 2 ^ 114).
  intros Hrel HW HPq Hq Hmq HPc Hw HmW HPK Hm HPg Hscale Ha.
  assert (HT : 0 < T) by (unfold T; lia).
  (* the size fills its 53 bits, so its last place is below [2 W] *)
  assert (HPcW : Pc <= 2 * W).
  { assert (4503599627370496 * Pc <= mW * Pc)
      by (apply Z.mul_le_mono_nonneg_r; lia).
    lia. }
  assert (HWPc : 0 <= W * 4503599627370496 - Pc) by lia.
  assert (HWq : 9007199254740992 * W <= Pq * W)
    by (apply Z.mul_le_mono_nonneg_r; lia).
  assert (HPKc : PK * Pc <= 18014398509481984 * Pc)
    by (apply Z.mul_le_mono_nonneg_r; lia).
  assert (HPqc : Pq * Pc <= Pq * (2 * W))
    by (apply Z.mul_le_mono_nonneg_l; lia).
  (* the product, in units of [Pc] *)
  assert (Hup : m * PK * Pc <= mq * (W * 4503599627370496 + Pc) + PK * Pc).
  { assert (m * PK * Pc <= (mq * mW + PK) * Pc)
      by (apply Z.mul_le_mono_nonneg_r; lia).
    assert (mq * (mW * Pc) <= mq * (W * 4503599627370496 + Pc))
      by (apply Z.mul_le_mono_nonneg_l; lia).
    lia. }
  assert (Hlo : mq * (W * 4503599627370496 - Pc) - PK * Pc <= m * PK * Pc).
  { assert ((mq * mW - PK) * Pc <= m * PK * Pc)
      by (apply Z.mul_le_mono_nonneg_r; lia).
    assert (mq * (W * 4503599627370496 - Pc) <= mq * (mW * Pc))
      by (apply Z.mul_le_mono_nonneg_l; lia).
    lia. }
  assert (Hup' : 1000 * (m * PK * Pc)
                 <= (rel * Pq + 500) * (W * 4503599627370496 + Pc)
                    + 1000 * (PK * Pc)).
  { assert (mq * 1000 * (W * 4503599627370496 + Pc)
            <= (rel * Pq + 500) * (W * 4503599627370496 + Pc))
      by (apply Z.mul_le_mono_nonneg_r; lia).
    lia. }
  assert (Hlo' : (rel * Pq - 500) * (W * 4503599627370496 - Pc)
                 - 1000 * (PK * Pc)
                 <= 1000 * (m * PK * Pc)).
  { assert ((rel * Pq - 500) * (W * 4503599627370496 - Pc)
            <= mq * 1000 * (W * 4503599627370496 - Pc))
      by (apply Z.mul_le_mono_nonneg_r; lia).
    lia. }
  (* the truncation, in the same units *)
  assert (Ha1 : a * (4503599627370496 * Pq) <= m * PK * Pc).
  { apply Z.mul_le_mono_pos_r with Pg; [exact HPg|].
    replace (a * (4503599627370496 * Pq) * Pg)
      with (a * T * (PK * Pc)) by (rewrite <- Z.mul_assoc, Hscale; ring).
    replace (m * PK * Pc * Pg) with (m * Pg * (PK * Pc)) by ring.
    apply Z.mul_le_mono_nonneg_r; [|lia].
    apply Z.mul_nonneg_nonneg; lia. }
  assert (Ha2 : m * PK * Pc < (a + 1) * (4503599627370496 * Pq)).
  { apply Z.mul_lt_mono_pos_r with Pg; [exact HPg|].
    replace ((a + 1) * (4503599627370496 * Pq) * Pg)
      with ((a + 1) * T * (PK * Pc)) by (rewrite <- Z.mul_assoc, Hscale; ring).
    replace (m * PK * Pc * Pg) with (m * Pg * (PK * Pc)) by ring.
    apply Z.mul_lt_mono_pos_r; [|lia].
    apply Z.mul_pos_pos; lia. }
  assert (HrelPq : rel * (Pq * Pc) <= 999 * (Pq * (2 * W))).
  { apply Z.le_trans with (999 * (Pq * Pc)).
    - apply Z.mul_le_mono_nonneg_r; [|lia]. apply Z.mul_nonneg_nonneg; lia.
    - apply Z.mul_le_mono_nonneg_l; lia. }
  assert (Hd : 0 < 4503599627370496 * Pq) by lia.
  set (D := 4503599627370496 * Pq) in *.
  assert (HDW : 8000 * D <= W * D) by (apply Z.mul_le_mono_nonneg_r; lia).
  assert (Hgoal : -(W * D) <= 2 * (a * 1000 - rel * W) * D <= W * D).
  { unfold D in *. split; lia. }
  destruct Hgoal as [G1 G2].
  assert (- W <= 2 * (a * 1000 - rel * W) <= W).
  { split.
    - apply Z.mul_le_mono_pos_r with D; [exact Hd|]. lia.
    - apply Z.mul_le_mono_pos_r with D; [exact Hd|]. lia. }
  lia.
Qed.

Lemma scale_relative_large (rel W : Z) :
  1 <= rel <= 999 -> 2 ^ 40 <= W < 2 ^ 1000 ->
  exists a, scale_relative rel W = Ok a
            /\ 2 * Z.abs (a * 1000 - rel * W) <= W.
Proof.
  intros Hrel HW. unfold scale_relative.
  assert (HW1023 : 0 < W < 2 ^ 1023).
  { split; [lia|]. apply Z.lt_le_trans with (2 ^ 1000); [lia|].
    apply Z.pow_le_mono_r; lia. }
  destruct (of_Z_faithful W HW1023) as (mW & eW & HofZ & HeW & HmW & Hw).
  assert (Hof : of_int W = Ok (S754_finite false mW eW)).
  { unfold of_int. rewrite HofZ. reflexivity. }
  destruct (thousandth_spec rel Hrel) as (mq & eq & Hq & Heq & Hmq & Herr).
  rewrite Hq. cbn [bind]. rewrite Hof. cbn [bind].
  unfold mul, SFmul. cbn [xorb].
  set (Pc := 2 ^ (eW + 52)) in *.
  assert (HPc : 0 < Pc) by (apply Z.pow_pos_nonneg; lia).
  (* the exponent of a size below 2^1000 *)
  assert (HeW' : eW <= 948).
  { assert (Hlt : 2 ^ (eW + 52) < 2 ^ 1001).
    { fold Pc. change (2 ^ 1001) with (2 * 2 ^ 1000).
      assert (2 ^ 52 * Pc <= Zpos mW * Pc)
        by (apply Z.mul_le_mono_nonneg_r; lia).
      change (2 ^ 52) with 4503599627370496 in *. lia. }
    apply pow2_gt_exp in Hlt; lia. }
  set (M := (mq * mW)%positive).
  assert (HM : Zpos M = Zpos mq * Zpos mW) by reflexivity.
  assert (HMhi : Zpos M < 2 ^ 106).
  { change (2 ^ 106) with (2 ^ 53 * 2 ^ 53). rewrite HM.
    apply Z.mul_lt_mono_nonneg; lia. }
  assert (Hex : 0 <= excess M <= 53).
  { unfold excess. pose proof (digits2_pos_le M 106 ltac:(lia) HMhi). lia. }
  destruct (binary_round_aux_faithful M (eq + eW) loc_Exact)
    as (m & e & Hr & He & Hmb & _); try lia.
  rewrite Hr, to_int_finite_pos.
  set (K := e - (eq + eW)) in *.
  assert (HK : 0 <= K <= 54) by (unfold K; lia).
  set (PK := 2 ^ K) in *.
  assert (HPK : 0 < PK <= 2 ^ 54).
  { split; [apply Z.pow_pos_nonneg; lia|apply Z.pow_le_mono_r; lia]. }
  pose proof (Zdiv_bracket (Zpos M) PK ltac:(lia)) as HQ.
  set (Q := Zpos M / PK) in *.
  assert (Hm : Z.abs (Zpos m * PK - Zpos mq * Zpos mW) <= PK).
  { rewrite <- HM.
    assert (Zpos m * PK <= (Q + 1) * PK) by (apply Z.mul_le_mono_nonneg_r; lia).
    assert (Q * PK <= Zpos m * PK) by (apply Z.mul_le_mono_nonneg_r; lia).
    lia. }
  set (Pq := 2 ^ (- eq)) in *.
  assert (HPq : 2 ^ 53 <= Pq) by (apply Z.pow_le_mono_r; lia).
  set (Pg := 2 ^ (e + 114)).
  assert (HPg : 0 < Pg) by (apply Z.pow_pos_nonneg; lia).
  assert (Hscale : 2 ^ 114 * (PK * Pc) = 2 ^ 52 * Pq * Pg).
  { unfold PK, Pc, Pq, Pg. rewrite <- !pow2_split by lia. f_equal. unfold K. lia. }
  eexists. split; [reflexivity|].
  apply (scale_relative_coarse_arith rel W (Zpos mq) Pq (Zpos mW) Pc (Zpos m) PK Pg);
    try assumption; try lia.
  destruct (Z.ltb_spec e 0) as [Hneg|Hpos].
  - assert (HPk : 0 < 2 ^ (- e)) by (apply Z.pow_pos_nonneg; lia).
    pose proof (Zdiv_bracket (Zpos m) (2 ^ (- e)) HPk) as Ha.
    set (a := Zpos m / 2 ^ (- e)) in *.
    assert (H114 : 2 ^ 114 = 2 ^ (- e) * Pg).
    { unfold Pg. rewrite <- pow2_split by lia. f_equal. lia. }
    rewrite H114. set (Pk := 2 ^ (- e)) in *.
    split.
    + replace (a * (Pk * Pg)) with (Pk * a * Pg) by ring.
      apply Z.mul_le_mono_nonneg_r; lia.
    + replace ((a + 1) * (Pk * Pg)) with ((Pk * a + Pk) * Pg) by ring.
      apply Z.mul_lt_mono_pos_r; lia.
  - assert (HPg' : Pg = 2 ^ e * 2 ^ 114).
    { unfold Pg. apply pow2_split; lia. }
    rewrite HPg'.
    assert (0 < 2 ^ e) by (apply Z.pow_pos_nonneg; lia).
    set (Pe := 2 ^ e) in *. set (T := 2 ^ 114).
    assert (0 < T) by (unfold T; lia).
    replace (Zpos m * (Pe * T)) with (Zpos m * Pe * T) by ring.
    split; [lia|]. apply Z.mul_lt_mono_pos_r; lia.
Qed.

Lemma scale_absolute_spec (pix W : Z) :
  0 <= pix < W -> W < 2 ^ 1000 ->
  exists r, scale_absolute pix W = Ok r
            /\ (forall k, 0 <= k -> k * W <= pix * 1000 -> k <= r)
            /\ (forall k, pix * 1000 <= k * W -> r <= k)
            /\ (W < 2 ^ 40 -> forall k, pix * 1000 < (k + 1) * W -> r <= k)
            /\ (forall k, 2 * (pix * 1000) <= (2 * k + 1) * W -> r <= k).
Proof.
  intros Hpix HW. unfold scale_absolute, truediv.
  replace (W =? 0) with false by (symmetry; apply Z.eqb_neq; lia).
  destruct (Z.eq_dec pix 0) as [->|Hnz].
  - exists 0. change (0 * 1000) with 0.
    split; [reflexivity|]. split; [|split; [|split]].
    + intros k; nia.
    + intros k; nia.
    + intros _ k Hk. nia.
    + intros k Hk.
      destruct (Z_le_gt_dec 0 k) as [H|H]; [exact H|exfalso].
      assert ((2 * k + 1) * W <= (-1) * W)
        by (apply Z.mul_le_mono_nonneg_r; lia).
      lia.
  - replace (pix * 1000 =? 0) with false by (symmetry; apply Z.eqb_neq; lia).
    destruct (pix * 1000) as [|pa|pa] eqn:Ha; try lia.
    destruct W as [|pb|pb] eqn:HWeq; try lia.
    cbn [integer]. unfold SFdiv, SFdiv_core_binary. cbn [xorb Zdigits2].
    pose proof (digits2_pos_bounds pa) as Hda.
    pose proof (digits2_pos_bounds pb) as Hdb.
    set (d1 := Zpos (digits2_pos pa)) in *.
    set (d2 := Zpos (digits2_pos pb)) in *.
    assert (Hd1 : 1 <= d1) by (unfold d1; lia).
    assert (Hd2 : 1 <= d2 <= 1000).
    { split; [unfold d2; lia|]. apply digits2_pos_le; lia. }
    assert (Hd12 : d1 <= d2 + 10).
    { apply digits2_pos_le; [lia|]. rewrite pow2_split by lia.
      change (2 ^ 10) with 1024. lia. }
    unfold fexp, emin, prec, emax.
    replace (Z.min (Z.max (d1 + 0 - (d2 + 0) - 53) (3 - 1024 - 53)) (0 - 0))
      with (d1 - d2 - 53) by lia.
    replace (0 - 0 - (d1 - d2 - 53)) with (53 + d2 - d1) by lia.
    destruct (53 + d2 - d1) as [|s|s] eqn:Hs; try lia.
    rewrite Z.shiftl_mul_pow2 by lia.
    set (P := 2 ^ Zpos s).
    assert (HP : 0 < P) by (apply Z.pow_pos_nonneg; lia).
    destruct (Z.div_eucl (Zpos pa * P) (Zpos pb)) as [q rm] eqn:Hdiv.
    assert (Hq : q = Zpos pa * P / Zpos pb) by (unfold Z.div; rewrite Hdiv; reflexivity).
    pose proof (Zdiv_bracket (Zpos pa * P) (Zpos pb) ltac:(lia)) as Hqb.
    rewrite <- Hq in Hqb.
    (* the quotient has 53 or 54 bits *)
    assert (Hqlo : 2 ^ 52 <= q).
    { rewrite Hq. apply Z.div_le_lower_bound; [lia|].
      assert (E1 : 2 ^ d2 * 2 ^ 52 = 2 ^ (d1 - 1) * P).
      { unfold P. rewrite <- !pow2_split by lia. f_equal. lia. }
      assert (Zpos pb * 2 ^ 52 <= 2 ^ d2 * 2 ^ 52)
        by (apply Z.mul_le_mono_nonneg_r; lia).
      assert (2 ^ (d1 - 1) * P <= Zpos pa * P)
        by (apply Z.mul_le_mono_nonneg_r; lia).
      lia. }
    assert (Hqhi : q < 2 ^ 54).
    { rewrite Hq. apply Z.div_lt_upper_bound; [lia|].
      assert (E1 : 2 ^ d1 * P = 2 ^ (d2 - 1) * 2 ^ 54).
      { unfold P. rewrite <- !pow2_split by lia. f_equal. lia. }
      assert (Zpos pa * P < 2 ^ d1 * P)
        by (apply Z.mul_lt_mono_pos_r; lia).
      assert (2 ^ (d2 - 1) * 2 ^ 54 <= Zpos pb * 2 ^ 54)
        by (apply Z.mul_le_mono_nonneg_r; lia).
      lia. }
    destruct q as [|pq|pq]; try lia.
    assert (Hex : 0 <= excess pq <= 1).
    { unfold excess. pose proof (digits2_pos_le pq 54 ltac:(lia) Hqhi). lia. }
    destruct (binary_round_aux_faithful pq (d1 - d2 - 53) (new_location (Zpos pb) rm))
      as (m & e & Hr & He & Hmb & Hm53 & Hnorm & _); try lia.
    unfold prec, emax in Hr. rewrite Hr. cbn [bind]. rewrite to_int_finite_pos.
    replace (e <? 0) with true by (symmetry; apply Z.ltb_lt; lia).
    set (K := e - (d1 - d2 - 53)) in *.
    assert (HK : 0 <= K) by (unfold K; lia).
    set (PK := 2 ^ K) in *. set (Pk := 2 ^ (- e)).
    assert (HPK : 0 < PK) by (apply Z.pow_pos_nonneg; lia).
    assert (HPk : 2 <= Pk).
    { change 2 with (2 ^ 1) at 1. apply Z.pow_le_mono_r; lia. }
    assert (HPP : P = Pk * PK).
    { unfold P, PK, Pk. rewrite <- pow2_split by lia. f_equal. unfold K. lia. }
    eexists. split; [reflexivity|]. split; [|split; [|split]].
    + intros k Hk Hle.
      apply Z.div_le_lower_bound; [lia|].
      apply Z.le_trans with (Zpos pq / PK); [|lia].
      apply Z.div_le_lower_bound; [lia|].
      rewrite Hq. apply Z.div_le_lower_bound; [lia|].
      replace (Zpos pb * (PK * (Pk * k))) with (k * Zpos pb * P) by (rewrite HPP; ring).
      apply Z.mul_le_mono_nonneg_r; lia.
    + intros k Hle.
      assert (Hk : 0 <= k) by nia.
      apply Z.lt_succ_r. apply Z.div_lt_upper_bound; [lia|].
      assert (Zpos pq / PK <= Pk * k); [|lia].
      apply Z.div_le_upper_bound; [lia|].
      rewrite Hq. apply Z.div_le_upper_bound; [lia|].
      replace (Zpos pb * (PK * (Pk * k))) with (k * Zpos pb * P) by (rewrite HPP; ring).
      apply Z.mul_le_mono_nonneg_r; lia.
    + (* a quotient that is not an integer stays below the next one: the
         last place of the result is finer than [1 / W] *)
      intros HW40 k Hlt.
      assert (Hk : 0 <= k) by nia.
      assert (HPkW : 2 * Zpos pb <= Pk).
      { apply Z.le_trans with (2 ^ 41).
        - change (2 ^ 41) with (2 * 2 ^ 40). lia.
        - apply Z.pow_le_mono_r; lia. }
      apply Z.lt_succ_r. apply Z.div_lt_upper_bound; [lia|].
      pose proof (Zdiv_bracket (Zpos pq) PK HPK) as HQ2.
      set (Q2 := Zpos pq / PK) in *.
      assert (H1 : Q2 * PK * Zpos pb <= ((k + 1) * Zpos pb - 1) * Pk * PK).
      { assert (Zpos pa * P <= ((k + 1) * Zpos pb - 1) * P)
          by (apply Z.mul_le_mono_nonneg_r; lia).
        assert (Q2 * PK * Zpos pb <= Zpos pq * Zpos pb)
          by (apply Z.mul_le_mono_nonneg_r; lia).
        rewrite HPP in H. lia. }
      assert (H2 : Q2 * Zpos pb <= ((k + 1) * Zpos pb - 1) * Pk).
      { apply Z.mul_le_mono_pos_r with PK; [exact HPK|]. lia. }
      assert (H3 : Zpos m * Zpos pb < Pk * Z.succ k * Zpos pb).
      { assert (Zpos m * Zpos pb <= (Q2 + 1) * Zpos pb)
          by (apply Z.mul_le_mono_nonneg_r; lia).
        lia. }
      apply Z.mul_lt_mono_pos_r with (Zpos pb); [lia|exact H3].
    + (* a quotient of at most [k + 1/2] is rounded to at most [k + 1/2] *)
      intros k Hle.
      assert (Hk : 0 <= k).
      { destruct (Z_le_gt_dec 0 k) as [H|H]; [exact H|exfalso].
        assert ((2 * k + 1) * Zpos pb <= (-1) * Zpos pb)
          by (apply Z.mul_le_mono_nonneg_r; lia).
        lia. }
      assert (HPk4 : 4 <= Pk).
      { change 4 with (2 ^ 2). apply Z.pow_le_mono_r; lia. }
      apply Z.lt_succ_r. apply Z.div_lt_upper_bound; [lia|].
      pose proof (Zdiv_bracket (Zpos pq) PK HPK) as HQ2.
      set (Q2 := Zpos pq / PK) in *.
      assert (H1 : 2 * (Zpos pq * Zpos pb) <= (2 * k + 1) * Pk * PK * Zpos pb).
      { assert (2 * (Zpos pa * P) <= (2 * k + 1) * Zpos pb * P)
          by (rewrite Z.mul_assoc; apply Z.mul_le_mono_nonneg_r; lia).
        rewrite HPP in H. lia. }
      assert (H2 : 2 * Zpos pq <= (2 * k + 1) * Pk * PK).
      { apply Z.mul_le_mono_pos_r with (Zpos pb); [lia|]. lia. }
      assert (H3 : 2 * Q2 <= (2 * k + 1) * Pk).
      { apply Z.mul_le_mono_pos_r with PK; [exact HPK|]. lia. }
      lia.
Qed.

Lemma scale_absolute_exact (pix W : Z) :
  0 <= pix < W -> W < 2 ^ 40 -> scale_absolute pix W = Ok (pix * 1000 / W).
Proof.
  intros Hpix HW.
  assert (HW' : W < 2 ^ 1000).
  { apply Z.lt_le_trans with (2 ^ 40); [lia|]. apply Z.pow_le_mono_r; lia. }
  destruct (scale_absolute_spec pix W Hpix HW') as (r & Hr & Hge & _ & Hlt & _).
  rewrite Hr. f_equal.
  pose proof (Zdiv_bracket (pix * 1000) W ltac:(lia)) as Hq.
  assert (0 <= pix * 1000 / W) by (apply Z.div_pos; lia).
  assert (pix * 1000 / W <= r) by (apply Hge; lia).
  assert (r <= pix * 1000 / W) by (apply (Hlt HW); lia).
  lia.
Qed.

End Rounding.

(** ** CoordinateMapper *)

Section Coordinates.

Import PyFloat.

Lemma scale_relative_zero (W : Z) :
  0 < W < 2 ^ 1023 -> scale_relative 0 W = Ok 0.
Proof.
  intros HW. destruct (of_Z_faithful W HW) as (m & e & Hm & _).
  unfold scale_relative. change (truediv 0 1000) with (Ok (S754_zero false)).
  cbn [bind]. unfold PyFloat.of_int. rewrite Hm. reflexivity.
Qed.

(** One coordinate, there and back.  Below 2^40 pixels the pixel is the
    exact floor or one less and the way back is exact; above, the pixel is
    within half a thousandth of the size of the exact product, which the
    way back rounds to the same unit. *)
Lemma round_trip_component (rel W : Z) :
  0 <= rel <= 999 -> 1000 <= W < 2 ^ 1000 ->
  exists a r,
    scale_relative rel W = Ok a
    /\ Z.max 0 (Z.min (W - 1) a) = a
    /\ scale_absolute a W = Ok r
    /\ rel - 1 <= r <= rel.
Proof.
  intros Hrel HW.
  assert (H1023 : 2 ^ 1000 <= 2 ^ 1023) by (apply Z.pow_le_mono_r; lia).
  destruct (Z_lt_le_dec W (2 ^ 40)) as [Hsmall|Hlarge].
  - destruct (scale_relative_spec rel W Hrel ltac:(lia)) as (a & Ha & Ha0 & Hlo & Hhi).
    assert (HaW : a < W) by nia.
    destruct (scale_absolute_spec a W ltac:(lia) ltac:(lia))
      as (r & Hr & Hge & Hle & _).
    exists a, r. repeat split; try assumption; try lia.
    + destruct (Z.eq_dec rel 0) as [->|Hnz].
      * specialize (Hge 0). lia.
      * apply (Hge (rel - 1)); [lia|]. nia.
    + apply Hle. lia.
  - change (2 ^ 40) with 1099511627776 in Hlarge.
    destruct (Z.eq_dec rel 0) as [->|Hnz].
    + destruct (scale_absolute_spec 0 W ltac:(lia) ltac:(lia))
        as (r & Hr & Hge & Hle & _).
      exists 0, r. rewrite scale_relative_zero by lia.
      repeat split; try assumption; try lia.
      * specialize (Hge 0). lia.
      * apply Hle. lia.
    + destruct (scale_relative_large rel W ltac:(lia) ltac:(lia)) as (a & Ha & Hnear).
      assert (Hup : 2 * (a * 1000) <= (2 * rel + 1) * W) by lia.
      assert (Hdn : (rel - 1) * W <= a * 1000) by lia.
      assert (Ha0 : 0 <= a).
      { assert (0 <= (rel - 1) * W) by (apply Z.mul_nonneg_nonneg; lia). lia. }
      assert (HaW : a < W).
      { assert ((2 * rel + 1) * W <= 1999 * W)
          by (apply Z.mul_le_mono_nonneg_r; lia).
        lia. }
      destruct (scale_absolute_spec a W ltac:(lia) ltac:(lia))
        as (r & Hr & Hge & _ & _ & Hhalf).
      exists a, r. repeat split; try assumption; try lia.
      * apply (Hge (rel - 1)); lia.
      * apply Hhalf. exact Hup.
Qed.

(** C1, as amended: for relative coordinates in [0,999] and a screen of
    at least 1000 and less than 2^1000 pixels in each dimension,
    converting to pixels and back returns each component unchanged or one
    unit lower. *)
Theorem round_trip_within_one (relX relY W H : Z) :
  0 <= relX <= 999 -> 0 <= relY <= 999 ->
  1000 <= W < 2 ^ 1000 -> 1000 <= H < 2 ^ 1000 ->
  exists x y, round_trip relX relY W H = Ok (x, y)
              /\ relX - 1 <= x <= relX /\ relY - 1 <= y <= relY.
Proof.
  intros HX HY HW HH.
  destruct (round_trip_component relX W HX HW) as (ax & rx & Hax & Hcx & Hrx & Hbx).
  destruct (round_trip_component relY H HY HH) as (ay & ry & Hay & Hcy & Hry & Hby).
  exists rx, ry. split; [|split; assumption].
  unfold round_trip, convert_relative_to_absolute.
  replace (Z.max 0 (Z.min 999 relX)) with relX by lia.
  replace (Z.max 0 (Z.min 999 relY)) with relY by lia.
  rewrite Hax, Hay. cbn [bind].
  unfold convert_absolute_to_relative. rewrite Hcx, Hcy, Hrx, Hry. reflexivity.
Qed.

Lemma round_trip_within_one_witness :
  exists x y, round_trip 999 999 1080 2400 = Ok (x, y)
              /\ 999 - 1 <= x <= 999 /\ 999 - 1 <= y <= 999.
Proof.
  apply (round_trip_within_one 999 999 1080 2400); vm_compute; split; congruence.
Defined.

(** C1 as stated fails on a screen narrower than the grid: on 720 x 1280
    the relative abscissa 4 comes back as 2. *)
Lemma round_trip_720p_loses_two :
  round_trip 4 4 720 1280 = Ok (2, 3) /\ ~ within_one_unit 4 4 720 1280.
Proof.
  assert (H : round_trip 4 4 720 1280 = Ok (2, 3)) by (vm_compute; reflexivity).
  split; [exact H|].
  intros (x & y & Hxy & Hx & _). rewrite H in Hxy.
  injection Hxy as <- <-. vm_compute in Hx. apply Hx. reflexivity.
Qed.

(** C8: on the default screen the ordinate 205 gives pixel 491, where
    [floor(205/1000 * 2400)] is 492: the quotient 205/1000 is rounded
    before it is multiplied. *)
Theorem relative_to_absolute_misses_floor :
  convert_relative_to_absolute 500 205 1080 2400 = Ok (540, 491)
  /\ relativeToAbsolute_floor 500 205 1080 2400 = (540, 492).
Proof. split; vm_compute; reflexivity. Qed.

(** The absolute coordinate is the exact floor or one below it, and a pixel
    of the screen. *)
Lemma scale_relative_floor (rel W : Z) :
  0 <= rel <= 999 -> 0 < W < 2 ^ 40 ->
  exists a, scale_relative rel W = Ok a
            /\ 0 <= a <= W - 1
            /\ rel * W / 1000 - 1 <= a <= rel * W / 1000.
Proof.
  intros Hrel HW.
  destruct (scale_relative_spec rel W Hrel HW) as (a & Ha & Ha0 & Hlo & Hhi).
  exists a. split; [exact Ha|]. split; [nia|]. split.
  - assert (rel * W / 1000 <= (a * 1000 + 1000) / 1000)
      by (apply Z.div_le_mono; lia).
    replace (a * 1000 + 1000) with ((a + 1) * 1000) in H by ring.
    rewrite Z.div_mul in H by lia. lia.
  - apply Z.div_le_lower_bound; lia.
Qed.

Lemma convert_relative_to_absolute_in_screen (relX relY W H : Z) :
  0 < W < 2 ^ 40 -> 0 < H < 2 ^ 40 ->
  exists abs_x abs_y,
    convert_relative_to_absolute relX relY W H = Ok (abs_x, abs_y)
    /\ 0 <= abs_x <= W - 1 /\ 0 <= abs_y <= H - 1
    /\ fst (relativeToAbsolute_floor relX relY W H) - 1 <= abs_x
       <= fst (relativeToAbsolute_floor relX relY W H)
    /\ snd (relativeToAbsolute_floor relX relY W H) - 1 <= abs_y
       <= snd (relativeToAbsolute_floor relX relY W H).
Proof.
  intros HW HH. unfold convert_relative_to_absolute, relativeToAbsolute_floor.
  destruct (scale_relative_floor (Z.max 0 (Z.min 999 relX)) W ltac:(lia) HW)
    as (ax & Hax & Hbx & Hfx).
  destruct (scale_relative_floor (Z.max 0 (Z.min 999 relY)) H ltac:(lia) HH)
    as (ay & Hay & Hby & Hfy).
  exists ax, ay. rewrite Hax, Hay. cbn [bind fst snd]. auto.
Qed.

Lemma of_int_finite (W : Z) :
  0 < W < 2 ^ 1023 ->
  exists m e, PyFloat.of_int W = Ok (S754_finite false m e).
Proof.
  intros HW. destruct (of_Z_faithful W HW) as (m & e & Hm & _).
  exists m, e. unfold PyFloat.of_int. rewrite Hm. reflexivity.
Qed.

Lemma format_int_writable (n : Z) :
  writable n -> format_int n = Ok (PyStr.of_int n).
Proof.
  unfold writable, format_int. intros Hn.
  destruct (10 ^ Z.of_nat int_max_str_digits <=? Z.abs n) eqn:E; [|reflexivity].
  apply Z.leb_le in E. lia.
Qed.

Lemma writable_on_screen (n W : Z) : 0 <= n < W -> W < 2 ^ 1023 -> writable n.
Proof.
  intros Hn HW. unfold writable.
  assert (Hpow : 2 ^ 1023 < 10 ^ Z.of_nat int_max_str_digits)
    by (apply Z.ltb_lt; vm_compute; reflexivity).
  rewrite Z.abs_eq by lia.
  apply Z.lt_trans with W; [lia|]. apply Z.lt_trans with (2 ^ 1023); assumption.
Qed.

Lemma validate_coordinates_returns (x y W H : Z) (tr : trace) :
  0 < W < 2 ^ 1023 -> 0 < H < 2 ^ 1023 -> writable x -> writable y ->
  exists tr',
    validate_coordinates x y W H tr
    = (Ok (Z.max 0 (Z.min (W - 1) x), Z.max 0 (Z.min (H - 1) y),
           negb (x =? Z.max 0 (Z.min (W - 1) x))
           || negb (y =? Z.max 0 (Z.min (H - 1) y))), tr').
Proof.
  intros HW HH Hx Hy.
  destruct (of_int_finite W HW) as (mw & ew & Hw).
  destruct (of_int_finite H HH) as (mh & eh & Hh).
  unfold validate_coordinates, iobind, lift.
  rewrite Hw, Hh, (format_int_writable x Hx), (format_int_writable y Hy).
  cbn [bind].
  repeat match goal with
         | |- context [if ?b then Ok ?l else Ok []] =>
             replace (if b then Ok l else Ok []) with (Ok (if b then l else []))
               by (destruct b; reflexivity)
         end.
  match goal with |- context [match ?ws with [] => _ | _ => _ end] => destruct ws end.
  - eexists. reflexivity.
  - eexists. reflexivity.
Qed.

(** C9, as amended: for a screen of less than 2^1023 pixels in each
    dimension and coordinates of at most 4300 digits,
    [validate_coordinates] returns the coordinates clamped to the screen
    and the flag that tells whether clamping changed one; the advisories
    change neither; validating the result again returns it with the flag
    unset. *)
Theorem validate_coordinates_idempotent (x y W H : Z) (tr : trace) :
  0 < W < 2 ^ 1023 -> 0 < H < 2 ^ 1023 -> writable x -> writable y ->
  exists valid_x valid_y was_corrected tr1 tr2,
    validate_coordinates x y W H tr = (Ok (valid_x, valid_y, was_corrected), tr1)
    /\ valid_x = Z.max 0 (Z.min (W - 1) x)
    /\ valid_y = Z.max 0 (Z.min (H - 1) y)
    /\ 0 <= valid_x <= W - 1 /\ 0 <= valid_y <= H - 1
    /\ (was_corrected = true <-> valid_x <> x \/ valid_y <> y)
    /\ validate_coordinates valid_x valid_y W H tr1
       = (Ok (valid_x, valid_y, false), tr2).
Proof.
  intros HW HH Hx Hy.
  destruct (validate_coordinates_returns x y W H tr HW HH Hx Hy) as (tr1 & H1).
  set (vx := Z.max 0 (Z.min (W - 1) x)) in *.
  set (vy := Z.max 0 (Z.min (H - 1) y)) in *.
  assert (Hvx : writable vx) by (apply (writable_on_screen vx W); lia).
  assert (Hvy : writable vy) by (apply (writable_on_screen vy H); lia).
  destruct (validate_coordinates_returns vx vy W H tr1 HW HH Hvx Hvy) as (tr2 & H2).
  replace (Z.max 0 (Z.min (W - 1) vx)) with vx in H2 by lia.
  replace (Z.max 0 (Z.min (H - 1) vy)) with vy in H2 by lia.
  rewrite !Z.eqb_refl in H2. cbn [negb orb] in H2.
  exists vx, vy, (negb (x =? vx) || negb (y =? vy)), tr1, tr2.
  split; [exact H1|]. split; [reflexivity|]. split; [reflexivity|].
  split; [lia|]. split; [lia|]. split; [|exact H2].
  rewrite orb_true_iff, !negb_true_iff, !Z.eqb_neq. intuition congruence.
Qed.

Lemma validate_coordinates_idempotent_witness :
  exists valid_x valid_y was_corrected tr1 tr2,
    validate_coordinates 1200 (-7) 1080 2400 [] = (Ok (valid_x, valid_y, was_corrected), tr1)
    /\ valid_x = Z.max 0 (Z.min (1080 - 1) 1200)
    /\ valid_y = Z.max 0 (Z.min (2400 - 1) (-7))
    /\ 0 <= valid_x <= 1080 - 1 /\ 0 <= valid_y <= 2400 - 1
    /\ (was_corrected = true <-> valid_x <> 1200 \/ valid_y <> -7)
    /\ validate_coordinates valid_x valid_y 1080 2400 tr1
       = (Ok (valid_x, valid_y, false), tr2).
Proof.
  apply (validate_coordinates_idempotent 1200 (-7) 1080 2400 []);
    first [split; reflexivity | vm_compute; reflexivity].
Defined.

(** C9 as stated fails on a size no [float] holds, where the soft margin
    cannot be computed, and on a coordinate of more than 4300 digits, which
    the advisory cannot write out: nothing is returned. *)
Lemma validate_coordinates_overflow :
  validate_coordinates 5 5 (2 ^ 1024) 2400 [] = (Raise OverflowError, [])
  /\ ~ validate_claim 5 5 (2 ^ 1024) 2400 []
  /\ validate_coordinates (10 ^ 4300) 500 1080 2400 [] = (Raise ValueError, [])
  /\ ~ validate_claim (10 ^ 4300) 500 1080 2400 [].
Proof.
  assert (H : validate_coordinates 5 5 (2 ^ 1024) 2400 [] = (Raise OverflowError, []))
    by (vm_compute; reflexivity).
  assert (H' : validate_coordinates (10 ^ 4300) 500 1080 2400 [] = (Raise ValueError, []))
    by (vm_compute; reflexivity).
  split; [exact H|]. split; [|split; [exact H'|]].
  - intros (vx & vy & c & tr1 & tr2 & H1 & _). rewrite H in H1. discriminate.
  - intros (vx & vy & c & tr1 & tr2 & H1 & _). rewrite H' in H1. discriminate.
Qed.

End Coordinates.

(** ** ScreenInfoResolver *)

Section Resolver.

Variable env : environment.

Lemma ror_ret {A} (P : A -> Prop) (a : A) : P a -> returns_or_raises P (ret a).
Proof. intros H tr. exact H. Qed.

Lemma ror_lift {A} (P : A -> Prop) (r : result A) :
  catchable P r -> returns_or_raises P (lift r).
Proof. intros H tr. exact H. Qed.

Lemma ror_bind {A B} (P : A -> Prop) (Q : B -> Prop) (c : io A) (k : A -> io B) :
  returns_or_raises P c ->
  (forall a, P a -> returns_or_raises Q (k a)) ->
  returns_or_raises Q (iobind c k).
Proof.
  intros Hc Hk tr. unfold iobind. specialize (Hc tr).
  destruct (c tr) as [[a|[e|code]] tr']; [|exact I|exact Hc].
  apply (Hk a Hc tr').
Qed.

Lemma ror_weaken {A} (P Q : A -> Prop) (c : io A) :
  (forall a, P a -> Q a) -> returns_or_raises P c -> returns_or_raises Q c.
Proof.
  intros HPQ Hc tr. specialize (Hc tr).
  destruct (c tr) as [[a|[e|code]] tr']; auto.
Qed.

Lemma ror_emit (e : event) : returns_or_raises (fun _ => True) (emit e).
Proof. intros tr. exact I. Qed.

Lemma ror_run (cmd : list str) (t : Z) :
  returns_or_raises (fun _ => True) (_run env cmd t).
Proof.
  intros tr. unfold _run, run_result.
  destruct (subprocess_run env tr cmd t); exact I.
Qed.

Lemma ar_ret {A} (P : A -> Prop) (a : A) : P a -> always_returns P (ret a).
Proof. intros H tr. exists a, tr. split; [reflexivity|exact H]. Qed.

Lemma ar_bind {A B} (P : A -> Prop) (Q : B -> Prop) (c : io A) (k : A -> io B) :
  always_returns P c ->
  (forall a, P a -> always_returns Q (k a)) ->
  always_returns Q (iobind c k).
Proof.
  intros Hc Hk tr. destruct (Hc tr) as (a & tr' & Hc' & Ha).
  destruct (Hk a Ha tr') as (b & tr'' & Hk' & Hb).
  exists b, tr''. unfold iobind. rewrite Hc'. split; assumption.
Qed.

Lemma ar_try_except {A} (P : A -> Prop) (c : io A) (h : exception -> io A) :
  returns_or_raises P c ->
  (forall e, always_returns P (h e)) ->
  always_returns P (try_except c h).
Proof.
  intros Hc Hh tr. unfold try_except. specialize (Hc tr).
  destruct (c tr) as [[a|[e|code]] tr'].
  - exists a, tr'. split; [reflexivity|exact Hc].
  - apply Hh.
  - contradiction.
Qed.

Lemma int_of_digits_catchable (ds : list N) :
  catchable (fun n => 0 <= n) (int_of_digits ds).
Proof.
  unfold int_of_digits. destruct (int_max_str_digits <? List.length ds)%nat; cbn; lia.
Qed.

Lemma two_ints_catchable (groups : list (list N)) :
  catchable (fun p => 0 <= fst p /\ 0 <= snd p) (two_ints groups).
Proof.
  unfold two_ints.
  destruct groups as [|g1 [|g2 [|g3 gs]]]; try exact I.
  pose proof (int_of_digits_catchable g1) as H1.
  pose proof (int_of_digits_catchable g2) as H2.
  destruct (int_of_digits g1) as [a|[e|c]]; cbn in *; try exact I; try contradiction.
  destruct (int_of_digits g2) as [b|[e|c]]; cbn in *; try exact I; try contradiction.
  lia.
Qed.

Lemma one_int_catchable (groups : list (list N)) :
  catchable (fun n => 0 <= n) (one_int groups).
Proof.
  unfold one_int. destruct groups as [|g1 [|g2 gs]]; try exact I.
  apply int_of_digits_catchable.
Qed.

Lemma truediv_catchable (a b : Z) :
  catchable (fun _ => b <> 0) (PyFloat.truediv a b).
Proof.
  unfold PyFloat.truediv.
  destruct (Z.eqb_spec b 0) as [->|Hb]; [exact I|].
  destruct (a =? 0); [exact Hb|].
  destruct (SFdiv PyFloat.prec PyFloat.emax (PyFloat.integer a) (PyFloat.integer b));
    cbn; auto.
Qed.

Lemma parse_display_info_catchable (out : str) :
  catchable (fun p => 0 <= fst p /\ 0 <= snd p) (parse_display_info out).
Proof.
  unfold parse_display_info. destruct (search init_pattern out).
  - apply two_ints_catchable.
  - cbn. lia.
Qed.

Lemma get_screen_size_via_adb_measured (adb device : str) :
  returns_or_raises (fun p => 0 <= fst p /\ 0 <= snd p)
    (get_screen_size_via_adb env adb device).
Proof.
  unfold get_screen_size_via_adb.
  assert (Hm2 : returns_or_raises (fun p => 0 <= fst p /\ 0 <= snd p)
    (cmd_res <~ _run env (dumpsys_window_displays adb device) 10 ;;
     '(width, height) <~ lift (parse_display_info (stdout cmd_res)) ;;
     if negb (width =? 1080) || negb (height =? 2400) then ret (width, height)
     else
       cmd_res0 <~ _run env (dumpsys_window adb device) 10 ;;
       match search unrestricted_pattern (stdout cmd_res0) with
       | Some groups => lift (two_ints groups)
       | None => ret (1080, 2400)
       end)).
  { eapply ror_bind; [apply ror_run|]. intros r _.
    eapply ror_bind; [apply ror_lift, parse_display_info_catchable|].
    intros [w h] Hwh.
    destruct (negb (w =? 1080) || negb (h =? 2400)).
    - apply ror_ret. exact Hwh.
    - eapply ror_bind; [apply ror_run|]. intros r' _.
      destruct (search unrestricted_pattern (stdout r')).
      + apply ror_lift, two_ints_catchable.
      + apply ror_ret. cbn. lia. }
  eapply ror_bind; [apply ror_run|]. intros r _.
  destruct (ok r); [|exact Hm2].
  destruct (search size_pattern (stdout r)); [|exact Hm2].
  apply ror_lift, two_ints_catchable.
Qed.

Lemma get_screen_density_via_adb_measured (adb device : str) :
  returns_or_raises (fun d => 0 <= d) (get_screen_density_via_adb env adb device).
Proof.
  unfold get_screen_density_via_adb.
  eapply ror_bind; [apply ror_run|]. intros r _.
  destruct (ok r); [|apply ror_ret; lia].
  destruct (search density_pattern (stdout r)).
  - apply ror_lift, one_int_catchable.
  - apply ror_ret. lia.
Qed.

Lemma info_from_adb_measured (adb device : str) :
  always_returns measured (info_from_adb env adb device).
Proof.
  unfold info_from_adb, adb_queries. apply ar_try_except.
  - eapply ror_bind; [apply get_screen_size_via_adb_measured|].
    intros [w h] [Hw Hh]. cbn [fst snd] in *.
    eapply ror_bind; [apply get_screen_density_via_adb_measured|].
    intros d Hd.
    eapply ror_bind; [apply ror_lift, truediv_catchable|].
    intros q Hq. apply ror_ret. unfold measured. cbn in *. lia.
  - intros e. eapply ar_bind with (P := fun _ => True).
    + intros tr. eexists tt, _. split; [reflexivity|exact I].
    + intros _ _. apply ar_ret. unfold measured. cbn. lia.
Qed.

Lemma info_from_screenshot_measured (adb device : str) (path : option str) :
  always_returns (fun r => match r with Some info => measured info | None => True end)
    (info_from_screenshot env adb device path).
Proof.
  unfold info_from_screenshot.
  destruct path as [[|c p]|]; try (apply ar_ret; exact I).
  eapply ar_bind with (P := fun _ => True).
  { intros tr. eexists _, _. split; [reflexivity|exact I]. }
  intros present _.
  destruct (present && PIL_AVAILABLE env); [|apply ar_ret; exact I].
  apply ar_try_except.
  - eapply ror_bind with (P := fun p => 0 <= fst p /\ 0 <= snd p).
    { intros tr. destruct (Image_open_size env tr (c :: p)) as [e|[w h]]; cbn; [exact I|lia]. }
    intros [w h] [Hw Hh]. cbn [fst snd] in *.
    eapply ror_bind; [apply ror_emit|]. intros _ _.
    eapply ror_bind; [apply get_screen_density_via_adb_measured|].
    intros d Hd.
    eapply ror_bind; [apply ror_lift, truediv_catchable|].
    intros q Hq. apply ror_ret. unfold measured. cbn in *. lia.
  - intros e. eapply ar_bind with (P := fun _ => True).
    + intros tr. eexists tt, _. split; [reflexivity|exact I].
    + intros _ _. apply ar_ret. exact I.
Qed.

(** C3, as amended: whatever the screenshot, the device and the
    commands do, the resolver returns a record; its height is positive,
    its width and its density are not negative. *)
Theorem get_accurate_screen_info_never_fails
  (adb device : str) (screenshot_path : option str) (tr : trace) :
  exists info tr',
    get_accurate_screen_info env adb device screenshot_path tr = (Ok info, tr')
    /\ 0 <= width info /\ 0 < height info /\ 0 <= density info.
Proof.
  assert (H : always_returns measured
                (get_accurate_screen_info env adb device screenshot_path)).
  { unfold get_accurate_screen_info.
    eapply ar_bind; [apply info_from_screenshot_measured|].
    intros [info|] Hinfo.
    - apply ar_ret. exact Hinfo.
    - apply info_from_adb_measured. }
  destruct (H tr) as (info & tr' & Heq & Hm). exists info, tr'. split; assumption.
Qed.

Lemma run_as (cmd : list str) (t : Z) (tr : trace) (r : CmdResult) :
  run_result cmd (subprocess_run env tr cmd t) = Ok r ->
  _run env cmd t tr = (Ok r, tr ++ [EvRun cmd t]).
Proof. intros H. unfold _run. rewrite H. reflexivity. Qed.

Lemma get_screen_size_via_adb_no_signal
  (adb device : str) (tr : trace) (r1 r2 r3 : CmdResult) :
  let tr1 := tr ++ [EvRun (wm_size adb device) 10] in
  let tr2 := tr1 ++ [EvRun (dumpsys_window_displays adb device) 10] in
  let tr3 := tr2 ++ [EvRun (dumpsys_window adb device) 10] in
  run_result (wm_size adb device)
    (subprocess_run env tr (wm_size adb device) 10) = Ok r1 ->
  ok r1 = false \/ search size_pattern (stdout r1) = None ->
  run_result (dumpsys_window_displays adb device)
    (subprocess_run env tr1 (dumpsys_window_displays adb device) 10) = Ok r2 ->
  search init_pattern (stdout r2) = None ->
  run_result (dumpsys_window adb device)
    (subprocess_run env tr2 (dumpsys_window adb device) 10) = Ok r3 ->
  search unrestricted_pattern (stdout r3) = None ->
  get_screen_size_via_adb env adb device tr = (Ok (1080, 2400), tr3).
Proof.
  intros tr1 tr2 tr3 H1 Hno1 H2 Hno2 H3 Hno3.
  unfold get_screen_size_via_adb, iobind.
  rewrite (run_as _ _ _ _ H1).
  assert (Hm2 :
    (cmd_res <~ _run env (dumpsys_window_displays adb device) 10 ;;
     '(width, height) <~ lift (parse_display_info (stdout cmd_res)) ;;
     if negb (width =? 1080) || negb (height =? 2400) then ret (width, height)
     else
       cmd_res0 <~ _run env (dumpsys_window adb device) 10 ;;
       match search unrestricted_pattern (stdout cmd_res0) with
       | Some groups => lift (two_ints groups)
       | None => ret (1080, 2400)
       end) tr1 = (Ok (1080, 2400), tr3)).
  { unfold iobind. fold tr1. rewrite (run_as _ _ _ _ H2).
    unfold lift, parse_display_info. rewrite Hno2. cbn -[_run search app].
    fold tr2. rewrite (run_as _ _ _ _ H3). rewrite Hno3. reflexivity. }
  unfold iobind in Hm2. fold tr1.
  destruct Hno1 as [Hok|Hno1].
  - rewrite Hok. exact Hm2.
  - destruct (ok r1); [rewrite Hno1|]; exact Hm2.
Qed.

Lemma get_screen_density_via_adb_default
  (adb device : str) (tr : trace) (r : CmdResult) :
  run_result (wm_density adb device)
    (subprocess_run env tr (wm_density adb device) 10) = Ok r ->
  ok r = false \/ search density_pattern (stdout r) = None ->
  get_screen_density_via_adb env adb device tr
  = (Ok 420, tr ++ [EvRun (wm_density adb device) 10]).
Proof.
  intros H Hno. unfold get_screen_density_via_adb, iobind.
  rewrite (run_as _ _ _ _ H).
  destruct Hno as [Hok|Hno].
  - rewrite Hok. reflexivity.
  - destruct (ok r); [rewrite Hno|]; reflexivity.
Qed.

Lemma get_screen_size_via_adb_wm_size
  (adb device : str) (tr : trace) (r : CmdResult) (groups : list (list N))
  (w h : Z) :
  run_result (wm_size adb device)
    (subprocess_run env tr (wm_size adb device) 10) = Ok r ->
  ok r = true ->
  search size_pattern (stdout r) = Some groups ->
  two_ints groups = Ok (w, h) ->
  get_screen_size_via_adb env adb device tr
  = (Ok (w, h), tr ++ [EvRun (wm_size adb device) 10]).
Proof.
  intros H Hok Hs Hi. unfold get_screen_size_via_adb, iobind.
  rewrite (run_as _ _ _ _ H), Hok, Hs. unfold lift. rewrite Hi. reflexivity.
Qed.

End Resolver.

(** C2: when no strategy yields a signal the numbers returned are the
    defaults, but the tag is [adb] where the claim says [default].  On a
    device on which every command runs and fails, with nothing printed,
    the resolver asks its four queries and returns 1080 x 2400 at density
    420 tagged [adb]; the handler of the same function returns the same
    three numbers tagged [default] when the queries cannot be started. *)
Theorem total_failure_is_tagged_adb :
  get_accurate_screen_info unreachable_device (u "adb") (u "127.0.0.1:5555") None []
  = (Ok (mkScreenInfo 1080 2400 420 default_aspect_ratio (u "adb")),
     [EvRun (wm_size (u "adb") (u "127.0.0.1:5555")) 10;
      EvRun (dumpsys_window_displays (u "adb") (u "127.0.0.1:5555")) 10;
      EvRun (dumpsys_window (u "adb") (u "127.0.0.1:5555")) 10;
      EvRun (wm_density (u "adb") (u "127.0.0.1:5555")) 10])
  /\ u "adb" <> u "default"
  /\ get_accurate_screen_info adb_missing (u "adb") (u "127.0.0.1:5555") None []
     = (Ok (mkScreenInfo 1080 2400 420 default_aspect_ratio (u "default")),
        [EvRun (wm_size (u "adb") (u "127.0.0.1:5555")) 10;
         EvStderr (AdbScreenInfoFailed FileNotFoundError)]).
Proof.
  split; [vm_compute; reflexivity|]. split; [discriminate|vm_compute; reflexivity].
Qed.

(** C3 as stated fails on a device that reports density 0. *)
Lemma zero_density_is_returned :
  fst (get_accurate_screen_info
         (reporting_device (u "Physical size: 1080x2400" ++ newline :: u "Physical density: 0"))
         (u "adb") (u "127.0.0.1:5555") None [])
  = Ok (mkScreenInfo 1080 2400 0 default_aspect_ratio (u "adb"))
  /\ ~ usable (mkScreenInfo 1080 2400 0 default_aspect_ratio (u "adb")).
Proof.
  split; [vm_compute; reflexivity|].
  unfold usable. cbn. lia.
Qed.

(** ** NarrativeElementExtractor *)

Section Extractor.

Variable info : screen_info.

Lemma parse_line_relative (els : list element) (e : element) (line : str)
  (rel pix : Z * Z) :
  relative_line info line rel pix ->
  exists e',
    parse_line info (els, Some e) line = Ok (els, Some e')
    /\ e_relative_coordinates e' = Some rel
    /\ e_coordinates e' = Some pix
    /\ e_description e' = e_description e.
Proof.
  intros (Ht & Hm & groups & Hs & Hi & Hc).
  unfold parse_line. rewrite Ht, Hm, Hs, Hi. cbn [bind].
  destruct rel as [rx ry]. cbn [fst snd] in Hc. rewrite Hc. cbn [bind].
  destruct pix as [px py]. eexists. split; [reflexivity|]. cbn. auto.
Qed.

Lemma parse_line_legacy (els : list element) (e : element) (line : str)
  (pix rel : Z * Z) :
  legacy_line info line pix rel ->
  e_coordinates e = None ->
  exists e',
    parse_line info (els, Some e) line = Ok (els, Some e')
    /\ e_coordinates e' = Some pix
    /\ e_relative_coordinates e' = Some rel.
Proof.
  intros (Ht & Hr & Hm & groups & Hs & Hi & Hc) Hnone.
  unfold parse_line. rewrite Ht, Hr, Hm, Hnone, Hs, Hi. cbn [andb bind].
  destruct pix as [px py]. cbn [fst snd] in Hc. rewrite Hc. cbn [bind].
  destruct rel as [rx ry]. eexists. split; [reflexivity|]. cbn. auto.
Qed.

(** Once coordinates are attached, only a relative line changes them. *)
Lemma parse_line_keeps_coordinates (els : list element) (e : element) (line : str)
  (st : list element * option element) :
  no_relative line ->
  e_coordinates e <> None ->
  parse_line info (els, Some e) line = Ok st ->
  exists e',
    st = (els, Some e')
    /\ e_coordinates e' = e_coordinates e
    /\ e_relative_coordinates e' = e_relative_coordinates e.
Proof.
  intros [Ht Hno] Hsome. unfold parse_line. rewrite Ht.
  destruct (e_coordinates e) as [c|] eqn:Hc; [|congruence].
  assert (Hrel : (if contains rel_coord_marker line
                  then match search rel_coord_pattern line with
                       | Some _ => false | None => true end
                  else true) = true).
  { destruct Hno as [-> | ->]; [reflexivity|]. destruct (contains _ _); reflexivity. }
  destruct (contains rel_coord_marker line).
  - destruct (search rel_coord_pattern line); [discriminate|].
    intros [= <-]. exists e. rewrite Hc. auto.
  - rewrite andb_false_r.
    destruct (contains command_marker line).
    + destruct (search_command line).
      * intros [= <-]. eexists. split; [reflexivity|]. cbn. auto.
      * intros [= <-]. exists e. rewrite Hc. auto.
    + intros [= <-]. exists e. rewrite Hc. auto.
Qed.

Lemma parse_line_body (els : list element) (e : element) (line : str)
  (st : list element * option element) :
  is_title_line line = false ->
  parse_line info (els, Some e) line = Ok st ->
  exists e', st = (els, Some e').
Proof.
  intros Ht. unfold parse_line. rewrite Ht.
  repeat match goal with
         | |- context [if ?b then _ else _] => destruct b
         | |- context [match search ?p ?l with _ => _ end] => destruct (search p l)
         | |- context [match search_command ?l with _ => _ end] => destruct (search_command l)
         | |- context [bind ?r _] => destruct r as [[? ?]|?]; cbn [bind]
         end;
    intros H; try discriminate; injection H as <-; eexists; reflexivity.
Qed.

Lemma parse_lines_app (st : list element * option element) (l1 l2 : list str)
  (st2 : list element * option element) :
  parse_lines info st (l1 ++ l2) = Ok st2 ->
  exists st1, parse_lines info st l1 = Ok st1 /\ parse_lines info st1 l2 = Ok st2.
Proof.
  revert st. induction l1 as [|l l1 IH]; intros st H.
  - exists st. split; [reflexivity|exact H].
  - cbn [app parse_lines] in *.
    destruct (parse_line info st l) as [st'|x]; cbn [bind] in *; [|discriminate].
    apply IH. exact H.
Qed.

Lemma parse_lines_body (els : list element) (lines : list str) :
  Forall (fun l => is_title_line l = false) lines ->
  forall e st,
    parse_lines info (els, Some e) lines = Ok st ->
    exists e', st = (els, Some e').
Proof.
  induction 1 as [|l lines Hl _ IH]; intros e st H.
  - injection H as <-. exists e. reflexivity.
  - cbn [parse_lines] in H.
    destruct (parse_line info (els, Some e) l) as [st'|x] eqn:Hst; cbn [bind] in H;
      [|discriminate].
    destruct (parse_line_body els e l st' Hl Hst) as (e1 & ->).
    apply (IH e1 st H).
Qed.

Lemma parse_lines_keep_coordinates (els : list element) (lines : list str) :
  Forall no_relative lines ->
  forall e st,
    e_coordinates e <> None ->
    parse_lines info (els, Some e) lines = Ok st ->
    exists e',
      st = (els, Some e')
      /\ e_coordinates e' = e_coordinates e
      /\ e_relative_coordinates e' = e_relative_coordinates e.
Proof.
  induction 1 as [|l lines Hl _ IH]; intros e st Hsome H.
  - injection H as <-. exists e. auto.
  - cbn [parse_lines] in H.
    destruct (parse_line info (els, Some e) l) as [st'|x] eqn:Hst; cbn [bind] in H;
      [|discriminate].
    destruct (parse_line_keeps_coordinates els e l st' Hl Hsome Hst)
      as (e1 & -> & Hc1 & Hr1).
    destruct (IH e1 st ltac:(congruence) H) as (e' & -> & Hc & Hr).
    exists e'. split; [reflexivity|]. split; congruence.
Qed.

Lemma pending_snoc (els : list element) (cur : option element) (e : element) :
  pending (match cur with Some e0 => els ++ [e0] | None => els end, Some e)
  = pending (els, cur) ++ [e].
Proof. unfold pending. destruct cur; cbn [fst snd]; rewrite ?app_nil_r; reflexivity. Qed.

Lemma parse_line_titles (st st' : list element * option element) (line : str) :
  parse_line info st line = Ok st' ->
  map title (pending st')
  = map title (pending st)
    ++ (if is_title_line line then [element_title line] else []).
Proof.
  destruct st as [els cur]. unfold parse_line.
  destruct (is_title_line line).
  - intros [= <-]. rewrite pending_snoc, map_app. reflexivity.
  - rewrite app_nil_r. destruct cur as [e|]; [|intros [= <-]; reflexivity].
    assert (Hsame : forall rel pix com,
               map title (pending (els, Some (mkElement (e_description e) (e_type e)
                                                (e_priority e) rel pix com)))
               = map title (pending (els, Some e))).
    { intros. unfold pending. cbn [fst snd]. rewrite !map_app. reflexivity. }
    destruct (contains rel_coord_marker line).
    { destruct (search rel_coord_pattern line); [|intros [= <-]; reflexivity].
      destruct (two_ints l) as [[rx ry]|x]; cbn [bind]; [|discriminate].
      destruct (convert_relative_to_absolute rx ry (width info) (height info))
        as [[ax ay]|x]; cbn [bind]; [|discriminate].
      intros [= <-]. apply Hsame. }
    destruct (contains abs_coord_marker line
              && match e_coordinates e with None => true | Some _ => false end).
    { destruct (search abs_coord_pattern line); [|intros [= <-]; reflexivity].
      destruct (two_ints l) as [[ax ay]|x]; cbn [bind]; [|discriminate].
      destruct (convert_absolute_to_relative ax ay (width info) (height info))
        as [[rx ry]|x]; cbn [bind]; [|discriminate].
      intros [= <-]. apply Hsame. }
    destruct (contains command_marker line); [|intros [= <-]; reflexivity].
    destruct (search_command line); intros [= <-]; [apply Hsame|reflexivity].
Qed.

Lemma parse_lines_titles (lines : list str) :
  forall st st',
    parse_lines info st lines = Ok st' ->
    map title (pending st')
    = map title (pending st) ++ map element_title (filter is_title_line lines).
Proof.
  induction lines as [|line lines IH]; intros st st' H.
  - injection H as <-. cbn. rewrite app_nil_r. reflexivity.
  - cbn [parse_lines] in H.
    destruct (parse_line info st line) as [st1|x] eqn:H1; cbn [bind] in H;
      [|discriminate].
    rewrite (IH _ _ H), (parse_line_titles _ _ _ H1), <- app_assoc. f_equal.
    cbn [filter]. destruct (is_title_line line); reflexivity.
Qed.

Lemma parse_relative_coordinates_from_text_pending (description : str)
  (els : list element) :
  parse_relative_coordinates_from_text description info = Ok els ->
  exists st,
    parse_lines info ([], None) (split newline description) = Ok st
    /\ els = pending st.
Proof.
  unfold parse_relative_coordinates_from_text.
  destruct (parse_lines info ([], None) (split newline description))
    as [[elements [e|]]|x]; cbn [bind]; intros [= <-];
    eexists; (split; [reflexivity|]); unfold pending; cbn [fst snd];
    rewrite ?app_nil_r; reflexivity.
Qed.

Lemma parse_line_attaches_nothing (els : list element) (e : element) (line : str)
  (st : list element * option element) :
  attaches_nothing line ->
  parse_line info (els, Some e) line = Ok st ->
  exists e',
    st = (els, Some e')
    /\ e_coordinates e' = e_coordinates e
    /\ e_relative_coordinates e' = e_relative_coordinates e.
Proof.
  intros (Ht & Hrel & Habs). unfold parse_line. rewrite Ht.
  destruct (contains rel_coord_marker line) eqn:Hm.
  - destruct Hrel as [Hrel|Hrel]; [discriminate|]. rewrite Hrel.
    intros [= <-]. exists e. auto.
  - destruct Habs as [Habs|[Habs|Habs]]; [discriminate| |].
    + rewrite Habs. cbn [andb].
      destruct (contains command_marker line).
      * destruct (search_command line); intros [= <-]; eexists;
          (split; [reflexivity|]); cbn; auto.
      * intros [= <-]. exists e. auto.
    + destruct (contains abs_coord_marker line
                && match e_coordinates e with None => true | Some _ => false end).
      * rewrite Habs. intros [= <-]. exists e. auto.
      * destruct (contains command_marker line).
        -- destruct (search_command line); intros [= <-]; eexists;
             (split; [reflexivity|]); cbn; auto.
        -- intros [= <-]. exists e. auto.
Qed.

Lemma parse_lines_attach_nothing (els : list element) (lines : list str) :
  Forall attaches_nothing lines ->
  forall e st,
    parse_lines info (els, Some e) lines = Ok st ->
    exists e',
      st = (els, Some e')
      /\ e_coordinates e' = e_coordinates e
      /\ e_relative_coordinates e' = e_relative_coordinates e.
Proof.
  induction 1 as [|l lines Hl _ IH]; intros e st H.
  - injection H as <-. exists e. auto.
  - cbn [parse_lines] in H.
    destruct (parse_line info (els, Some e) l) as [st'|x] eqn:Hst; cbn [bind] in H;
      [|discriminate].
    destruct (parse_line_attaches_nothing els e l st' Hl Hst) as (e1 & -> & Hc1 & Hr1).
    destruct (IH e1 st H) as (e' & -> & Hc & Hr).
    exists e'. split; [reflexivity|]. split; congruence.
Qed.

(** A title line closes the current element and opens one with no
    coordinates. *)
Lemma parse_line_title (st : list element * option element) (line : str) :
  is_title_line line = true ->
  exists e0,
    parse_line info st line = Ok (pending st, Some e0)
    /\ e_coordinates e0 = None /\ e_relative_coordinates e0 = None.
Proof.
  intros Ht. destruct st as [els cur]. unfold parse_line. rewrite Ht.
  eexists. split.
  - unfold pending. cbn [fst snd]. destruct cur; rewrite ?app_nil_r; reflexivity.
  - split; reflexivity.
Qed.

(** The elements that are finished stay as they are. *)
Lemma parse_line_finished (st st' : list element * option element) (line : str) :
  parse_line info st line = Ok st' -> exists more, fst st' = fst st ++ more.
Proof.
  destruct (is_title_line line) eqn:Ht.
  - destruct (parse_line_title st line Ht) as (e0 & -> & _). intros [= <-].
    unfold pending. cbn [fst]. eauto.
  - destruct st as [els [e|]].
    + intros H. destruct (parse_line_body els e line st' Ht H) as (e' & ->).
      exists []. cbn [fst]. rewrite app_nil_r. reflexivity.
    + unfold parse_line. rewrite Ht. intros [= <-]. exists [].
      rewrite app_nil_r. reflexivity.
Qed.

Lemma parse_lines_finished (lines : list str) :
  forall st st',
    parse_lines info st lines = Ok st' -> exists more, fst st' = fst st ++ more.
Proof.
  induction lines as [|l lines IH]; intros st st' H.
  - injection H as <-. exists []. rewrite app_nil_r. reflexivity.
  - cbn [parse_lines] in H.
    destruct (parse_line info st l) as [st1|x] eqn:H1; cbn [bind] in H; [|discriminate].
    destruct (parse_line_finished _ _ _ H1) as (m1 & E1).
    destruct (IH _ _ H) as (m2 & E2).
    exists (m1 ++ m2). rewrite E2, E1, app_assoc. reflexivity.
Qed.

(** The element of a block, as it stands at the end of the block, is the
    one returned at the place of its title line. *)
Lemma element_of_block (description : str) (els : list element)
  (before : list str) (title_line : str) (block rest : list str) :
  parse_relative_coordinates_from_text description info = Ok els ->
  element_block description before title_line block rest ->
  exists finished e0 e,
    e_coordinates e0 = None /\ e_relative_coordinates e0 = None
    /\ parse_lines info (finished, Some e0) block = Ok (finished, Some e)
    /\ nth_error els (element_index before) = Some e.
Proof.
  intros Hels (Hlines & Ht & Hblock & Hrest).
  destruct (parse_relative_coordinates_from_text_pending _ _ Hels) as (st & Hst & ->).
  rewrite Hlines in Hst.
  apply parse_lines_app in Hst. destruct Hst as (stb & Hb & Hst).
  cbn [parse_lines] in Hst.
  destruct (parse_line_title stb title_line Ht) as (e0 & H0 & Hc0 & Hr0).
  rewrite H0 in Hst. cbn [bind] in Hst.
  apply parse_lines_app in Hst. destruct Hst as (st1 & H1 & H2).
  destruct (parse_lines_body (pending stb) block Hblock e0 st1 H1) as (e & ->).
  exists (pending stb), e0, e. split; [exact Hc0|]. split; [exact Hr0|].
  split; [exact H1|].
  assert (Hlen : List.length (pending stb) = element_index before).
  { pose proof (parse_lines_titles _ _ _ Hb) as Hm.
    apply (f_equal (@List.length _)) in Hm.
    rewrite !length_app, !length_map in Hm. cbn in Hm. exact Hm. }
  rewrite <- Hlen.
  assert (Hend : exists more, pending st = pending stb ++ e :: more).
  { destruct rest as [|l rest'].
    - injection H2 as <-. exists []. reflexivity.
    - cbn [parse_lines] in H2.
      destruct (parse_line_title (pending stb, Some e) l Hrest) as (e2 & H3 & _).
      rewrite H3 in H2. cbn [bind] in H2.
      destruct (parse_lines_finished _ _ _ H2) as (more & Hmore).
      cbn [fst] in Hmore. unfold pending at 1. rewrite Hmore.
      unfold pending at 1. cbn [fst snd]. rewrite <- !app_assoc. cbn [app]. eauto. }
  destruct Hend as (more & ->).
  rewrite nth_error_app2 by lia. rewrite Nat.sub_diag. reflexivity.
Qed.

(** C4, as amended: among the lines of an element block, those after the
    title line of the element, the last line with relative coordinates
    decides both coordinates of the element returned, whatever legacy
    lines stand before or after it; where the block has no such line, the
    first legacy line is honoured, nothing being attached before it, and
    the relative coordinates are filled in by the inverse conversion;
    later legacy lines change nothing. *)
Theorem relative_coordinates_win
  (description : str) (els : list element) (before : list str) (title_line : str)
  (b1 : list str) (line : str) (b2 rest : list str) :
  parse_relative_coordinates_from_text description info = Ok els ->
  element_block description before title_line (b1 ++ line :: b2) rest ->
  Forall no_relative b2 ->
  exists e,
    nth_error els (element_index before) = Some e
    (* a relative line sets both coordinates, whatever was attached *)
    /\ (forall rel pix,
           relative_line info line rel pix ->
           e_relative_coordinates e = Some rel /\ e_coordinates e = Some pix)
    (* a legacy line is honoured when nothing is attached yet *)
    /\ (forall pix rel,
           legacy_line info line pix rel ->
           Forall attaches_nothing b1 ->
           e_coordinates e = Some pix /\ e_relative_coordinates e = Some rel).
Proof.
  intros Hels Hblock Hafter.
  destruct (element_of_block _ _ _ _ _ _ Hels Hblock)
    as (finished & e0 & e & Hc0 & Hr0 & Hrun & Hnth).
  exists e. split; [exact Hnth|].
  destruct Hblock as (_ & _ & Hbody & _).
  apply Forall_app in Hbody. destruct Hbody as [Hb1 _].
  apply parse_lines_app in Hrun. destruct Hrun as (st1 & H1 & H2).
  cbn [parse_lines] in H2.
  split.
  - intros rel pix Hl.
    destruct (parse_lines_body finished b1 Hb1 e0 st1 H1) as (e1 & ->).
    destruct (parse_line_relative finished e1 line rel pix Hl) as (e2 & Hp & Hr & Hc & _).
    rewrite Hp in H2. cbn [bind] in H2.
    destruct (parse_lines_keep_coordinates finished b2 Hafter e2 _ ltac:(congruence) H2)
      as (e' & [= <-] & Hc' & Hr').
    split; congruence.
  - intros pix rel Hl Hnothing.
    destruct (parse_lines_attach_nothing finished b1 Hnothing e0 st1 H1)
      as (e1 & -> & Hc1 & Hr1).
    destruct (parse_line_legacy finished e1 line pix rel Hl ltac:(congruence))
      as (e2 & Hp & Hc & Hr).
    rewrite Hp in H2. cbn [bind] in H2.
    destruct (parse_lines_keep_coordinates finished b2 Hafter e2 _ ltac:(congruence) H2)
      as (e' & [= <-] & Hc' & Hr').
    split; congruence.
Qed.

Lemma parse_line_paired (els : list element) (cur : option element) (line : str)
  (st : list element * option element) :
  Forall paired els ->
  (forall e, cur = Some e -> paired e) ->
  parse_line info (els, cur) line = Ok st ->
  Forall paired (fst st) /\ (forall e, snd st = Some e -> paired e).
Proof.
  intros Hels Hcur. unfold parse_line.
  destruct (is_title_line line).
  - intros [= <-]. cbn [fst snd]. split.
    + destruct cur as [e|]; [|exact Hels].
      apply Forall_app. split; [exact Hels|]. constructor; [|constructor].
      apply Hcur. reflexivity.
    + intros e [= <-]. exact I.
  - destruct cur as [e|].
    2:{ intros [= <-]. cbn. split; [exact Hels|discriminate]. }
    pose proof (Hcur e eq_refl) as He.
    assert (Hsame : Forall paired (fst (els, Some e))
                    /\ (forall e0, snd (els, Some e) = Some e0 -> paired e0)).
    { cbn. split; [exact Hels|]. intros e0 [= <-]. exact He. }
    destruct (contains rel_coord_marker line).
    { destruct (search rel_coord_pattern line); [|intros [= <-]; exact Hsame].
      destruct (two_ints l) as [[rx ry]|x]; cbn [bind]; [|discriminate].
      destruct (convert_relative_to_absolute rx ry (width info) (height info))
        as [[ax ay]|x]; cbn [bind]; [|discriminate].
      intros [= <-]. cbn. split; [exact Hels|]. intros e0 [= <-]. exact I. }
    destruct (contains abs_coord_marker line
              && match e_coordinates e with None => true | Some _ => false end).
    { destruct (search abs_coord_pattern line); [|intros [= <-]; exact Hsame].
      destruct (two_ints l) as [[ax ay]|x]; cbn [bind]; [|discriminate].
      destruct (convert_absolute_to_relative ax ay (width info) (height info))
        as [[rx ry]|x]; cbn [bind]; [|discriminate].
      intros [= <-]. cbn. split; [exact Hels|]. intros e0 [= <-]. exact I. }
    destruct (contains command_marker line); [|intros [= <-]; exact Hsame].
    destruct (search_command line); [|intros [= <-]; exact Hsame].
    intros [= <-]. cbn. split; [exact Hels|]. intros e0 [= <-]. exact He.
Qed.

Lemma parse_lines_paired (lines : list str) :
  forall st st',
    Forall paired (fst st) ->
    (forall e, snd st = Some e -> paired e) ->
    parse_lines info st lines = Ok st' ->
    Forall paired (fst st') /\ (forall e, snd st' = Some e -> paired e).
Proof.
  induction lines as [|l lines IH]; intros st st' Hels Hcur H.
  - injection H as <-. split; assumption.
  - cbn [parse_lines] in H.
    destruct (parse_line info st l) as [st1|x] eqn:Hst; cbn [bind] in H; [|discriminate].
    destruct st as [els cur].
    destruct (parse_line_paired els cur l st1 Hels Hcur Hst) as [H1 H2].
    apply (IH st1 st' H1 H2 H).
Qed.

(** C10: every element the extractor returns has both coordinate keys or
    neither. *)
Theorem coordinates_come_in_pairs (description : str) (elements : list element) :
  parse_relative_coordinates_from_text description info = Ok elements ->
  Forall (fun e =>
            (e_relative_coordinates e = None /\ e_coordinates e = None)
            \/ (exists rel pix,
                   e_relative_coordinates e = Some rel /\ e_coordinates e = Some pix))
         elements.
Proof.
  intros H.
  assert (Hp : Forall paired elements).
  { unfold parse_relative_coordinates_from_text in H.
    destruct (parse_lines info ([], None) (split newline description))
      as [[els cur]|x] eqn:Hl; cbn [bind] in H; [|discriminate].
    destruct (parse_lines_paired _ ([], None) (els, cur)
                (Forall_nil _) ltac:(discriminate) Hl) as [H1 H2].
    cbn [fst snd] in *.
    destruct cur as [e|]; injection H as <-; [|exact H1].
    apply Forall_app. split; [exact H1|]. constructor; [|constructor].
    apply H2. reflexivity. }
  eapply Forall_impl; [|exact Hp].
  intros e He. unfold paired in He.
  destruct (e_relative_coordinates e) as [r|], (e_coordinates e) as [c|];
    try contradiction; [right; eauto|left; auto].
Qed.

End Extractor.

Lemma relative_coordinates_win_witness :
  exists e,
    nth_error
      [mkElement (u "搜索框") (u "unknown") (u "high") (Some (500, 150))
         (Some (540, 360))
         (Some (u "python3 scripts/phone_control.py tap --relative 500 150"));
       mkElement (u "Trending标签") (u "unknown") (u "medium") None None None]
      (element_index []) = Some e
    /\ (forall rel pix,
           relative_line full_hd relative_example rel pix ->
           e_relative_coordinates e = Some rel /\ e_coordinates e = Some pix)
    /\ (forall pix rel,
           legacy_line full_hd relative_example pix rel ->
           Forall attaches_nothing [legacy_example] ->
           e_coordinates e = Some pix /\ e_relative_coordinates e = Some rel).
Proof.
  apply (relative_coordinates_win full_hd narrative_example _ []
           (u "1. 🔥 **搜索框** (高优先级)") [legacy_example] relative_example
           [u "   💻 命令：python3 scripts/phone_control.py tap --relative 500 150"]
           [u "2. ⭐ **Trending标签** (中优先级)"]).
  - vm_compute. reflexivity.
  - split; [vm_compute; reflexivity|]. split; [vm_compute; reflexivity|].
    split; [|vm_compute; reflexivity].
    repeat (constructor; [vm_compute; reflexivity|]). constructor.
  - constructor; [|constructor].
    split; [vm_compute; reflexivity|]. left. vm_compute. reflexivity.
Defined.

(** C4 as stated fails where the relative coordinates stand on the title
    line of the element: they are not read, and the legacy line of the
    block decides. *)
Lemma title_line_marker_is_ignored :
  parse_relative_coordinates_from_text one_line_example full_hd
  = Ok [mkElement (u "搜索框") (u "unknown") (u "medium") (Some (277, 83))
          (Some (300, 200)) None]
  /\ contains rel_coord_marker (u "1. **搜索框** 🎯 相对坐标：(500, 150)") = true
  /\ (exists groups,
         search rel_coord_pattern (u "1. **搜索框** 🎯 相对坐标：(500, 150)")
         = Some groups
         /\ two_ints groups = Ok (500, 150))
  /\ Some (277, 83) <> Some (500, 150).
Proof.
  split; [vm_compute; reflexivity|]. split; [vm_compute; reflexivity|].
  split; [|discriminate].
  exists [[5; 0; 0]; [1; 5; 0]]%N. split; vm_compute; reflexivity.
Qed.

Lemma coordinates_come_in_pairs_witness :
  Forall (fun e =>
            (e_relative_coordinates e = None /\ e_coordinates e = None)
            \/ (exists rel pix,
                   e_relative_coordinates e = Some rel /\ e_coordinates e = Some pix))
         (match parse_relative_coordinates_from_text narrative_example full_hd with
          | Ok elements => elements
          | Raise _ => []
          end).
Proof.
  apply (coordinates_come_in_pairs full_hd narrative_example).
  vm_compute. reflexivity.
Defined.

(** ** Exact subtraction

    Where the difference of two [float]s has a mantissa of 53 bits, the
    subtraction does not round. *)

Section Subtraction.

Import PyFloat.

Lemma shr_1_exact (m : Z) :
  0 <= m -> m mod 2 = 0 ->
  shr_1 {| shr_m := m; shr_r := false; shr_s := false |}
  = {| shr_m := m / 2; shr_r := false; shr_s := false |}.
Proof.
  intros Hm Heven. destruct m as [|p|p]; [reflexivity| |lia].
  destruct p as [p|p|]; cbn [shr_1 orb].
  - exfalso. change (Zpos p~1) with (2 * Zpos p + 1) in Heven.
    rewrite Z.add_comm, Z.mul_comm, Z.mod_add in Heven by lia. discriminate.
  - f_equal. change (Zpos p~0) with (2 * Zpos p).
    rewrite Z.mul_comm, Z.div_mul by lia. reflexivity.
  - discriminate.
Qed.

Lemma iter_pos_shr_exact (p : positive) :
  forall m, 0 <= m -> m mod 2 ^ Zpos p = 0 ->
    iter_pos shr_1 p {| shr_m := m; shr_r := false; shr_s := false |}
    = {| shr_m := m / 2 ^ Zpos p; shr_r := false; shr_s := false |}.
Proof.
  assert (Hdiv : forall m a b, 0 < a -> 0 < b -> m mod (a * b) = 0 ->
                   m mod a = 0 /\ (m / a) mod b = 0).
  { intros m a b Ha Hb Hm.
    apply Z.mod_divide in Hm; [|lia]. destruct Hm as [q ->].
    split.
    - apply Z.mod_divide; [lia|]. exists (q * b). ring.
    - replace (q * (a * b)) with (q * b * a) by ring. rewrite Z.div_mul by lia.
      apply Z.mod_mul. lia. }
  induction p as [p IH | p IH | ]; intros m Hm Hmod; cbn [iter_pos];
    try assert (Hp : 0 < 2 ^ Zpos p) by (apply Z.pow_pos_nonneg; lia).
  - replace (2 ^ Zpos p~1) with (2 * (2 ^ Zpos p * 2 ^ Zpos p)) in *
      by (replace (Zpos p~1) with (1 + Zpos p + Zpos p) by lia;
          rewrite !Z.pow_add_r by lia; change (2 ^ 1) with 2; ring).
    destruct (Hdiv m 2 (2 ^ Zpos p * 2 ^ Zpos p) ltac:(lia) ltac:(nia) Hmod) as [H2 Hrest].
    destruct (Hdiv (m / 2) (2 ^ Zpos p) (2 ^ Zpos p) Hp Hp Hrest) as [H3 H4].
    rewrite shr_1_exact by assumption.
    rewrite IH by (try apply Z.div_pos; try assumption; lia).
    rewrite IH by (try apply Z.div_pos; try apply Z.div_pos; try assumption; lia).
    rewrite !Z.div_div by nia. reflexivity.
  - replace (2 ^ Zpos p~0) with (2 ^ Zpos p * 2 ^ Zpos p) in *
      by (rewrite <- Z.pow_add_r by lia; f_equal; lia).
    destruct (Hdiv m (2 ^ Zpos p) (2 ^ Zpos p) Hp Hp Hmod) as [H3 H4].
    rewrite IH by assumption.
    rewrite IH by (try apply Z.div_pos; try assumption; lia).
    rewrite Z.div_div by lia. reflexivity.
  - apply shr_1_exact; assumption.
Qed.

Lemma shr_fexp_exact (M : positive) (E : Z) :
  -1074 <= E -> Zpos M mod 2 ^ excess M = 0 ->
  shr_fexp prec emax (Zpos M) E loc_Exact
  = ({| shr_m := Zpos M / 2 ^ excess M; shr_r := false; shr_s := false |},
     E + excess M).
Proof.
  intros HE Hmod. unfold shr_fexp, excess, fexp, emin, prec, emax in *.
  cbn [Zdigits2 shr_record_of_loc].
  set (d := Zpos (digits2_pos M)) in *.
  destruct (Z_le_gt_dec d 53) as [Hd|Hd].
  - replace (Z.max 0 (d - 53)) with 0 by lia.
    rewrite Z.add_0_r, Z.div_1_r.
    assert (Hs : Z.max (d + E - 53) (3 - 1024 - 53) - E <= 0) by lia.
    destruct (Z.max (d + E - 53) (3 - 1024 - 53) - E) as [|p|p]; try reflexivity; lia.
  - replace (Z.max (d + E - 53) (3 - 1024 - 53) - E) with (d - 53) by lia.
    replace (Z.max 0 (d - 53)) with (d - 53) in * by lia.
    destruct (d - 53) as [|p|p] eqn:Hn; try lia.
    unfold shr. rewrite iter_pos_shr_exact by (try assumption; lia). reflexivity.
Qed.

(** A mantissa whose bits beyond the 53rd are all zero is kept as it is. *)
Lemma binary_round_aux_divisible (M : positive) (E : Z) :
  -1074 <= E -> E + excess M <= 971 -> Zpos M mod 2 ^ excess M = 0 ->
  exists m,
    binary_round_aux prec emax false (Zpos M) E loc_Exact
    = S754_finite false m (E + excess M)
    /\ Zpos m = Zpos M / 2 ^ excess M.
Proof.
  intros HE Hov Hmod.
  unfold binary_round_aux. rewrite (shr_fexp_exact M E HE Hmod).
  cbn [shr_m loc_of_shr_record round_nearest_even].
  pose proof (digits2_pos_bounds M) as HdM.
  set (n := excess M) in *.
  set (d := Zpos (digits2_pos M)) in *.
  assert (Hn : n = Z.max 0 (d - 53)) by reflexivity.
  assert (Hpn : 0 < 2 ^ n) by (apply Z.pow_pos_nonneg; lia).
  assert (Hm1 : 1 <= Zpos M / 2 ^ n < 2 ^ 53).
  { destruct (Z_le_gt_dec d 53) as [Hd|Hd].
    - replace n with 0 by lia. rewrite Z.div_1_r. split; [lia|].
      apply Z.lt_le_trans with (2 ^ d); [lia|]. apply Z.pow_le_mono_r; lia.
    - replace n with (d - 53) in * by lia.
      assert (H52 : 2 ^ (d - 1) = 2 ^ 52 * 2 ^ (d - 53)).
      { rewrite <- pow2_split by lia. f_equal. lia. }
      assert (H53 : 2 ^ d = 2 ^ 53 * 2 ^ (d - 53)).
      { rewrite <- pow2_split by lia. f_equal. lia. }
      split.
      + apply Z.div_le_lower_bound; [lia|].
        change (2 ^ 52) with 4503599627370496 in H52. lia.
      + apply Z.div_lt_upper_bound; [lia|]. rewrite Z.mul_comm. lia. }
  destruct (Zpos M / 2 ^ n) as [|m1|m1] eqn:Hq; try lia.
  assert (Hd1 : Zpos (digits2_pos m1) <= 53).
  { apply digits2_pos_le; lia. }
  destruct (shr_fexp_spec m1 (E + n) loc_Exact ltac:(lia)) as (mrs & Hshr & _ & Hex).
  rewrite Hshr, (Hex Hd1). cbn [shr_m shr_record_of_loc].
  assert (Hx : excess m1 = 0) by (unfold excess; lia).
  rewrite Hx, Z.add_0_r.
  unfold prec, emax. change (1024 - 53) with 971.
  replace (E + n <=? 971) with true by (symmetry; apply Z.leb_le; lia).
  exists m1. split; reflexivity.
Qed.

(** A number [K * 2^j] with [K] of at most 53 bits is a [float]. *)
Lemma binary_round_exact (M : positive) (E K j : Z) :
  -1074 <= E -> 0 <= j -> E + j <= 971 -> 0 < K < 2 ^ 53 ->
  Zpos M = K * 2 ^ j ->
  exists m e,
    binary_round prec emax false M E = S754_finite false m e
    /\ e <= E + j
    /\ Zpos m = K * 2 ^ (E + j - e).
Proof.
  intros HE Hj Hov HK HM.
  pose proof (digits2_pos_bounds M) as HdM.
  assert (Hpj : 0 < 2 ^ j) by (apply Z.pow_pos_nonneg; lia).
  assert (Hd : Zpos (digits2_pos M) <= 53 + j).
  { apply digits2_pos_le; [lia|]. rewrite HM, pow2_split by lia. nia. }
  unfold binary_round, shl_align, fexp, emin, prec, emax.
  set (d := Zpos (digits2_pos M)) in *.
  destruct (Z.max (d + E - 53) (3 - 1024 - 53) - E) as [|q|q] eqn:Hq.
  1,2: assert (Hx : excess M <= j) by (unfold excess; fold d; lia);
    assert (Hx0 : 0 <= excess M) by (unfold excess; lia);
    assert (Hsplit : Zpos M = K * 2 ^ (j - excess M) * 2 ^ excess M)
      by (rewrite HM, <- Z.mul_assoc, <- pow2_split by lia; do 2 f_equal; lia);
    destruct (binary_round_aux_divisible M E HE ltac:(lia)) as (m & Hr & Hm);
    [rewrite Hsplit; apply Z.mod_mul; apply Z.pow_nonzero; lia|];
    unfold prec, emax in Hr;
    exists m, (E + excess M); (split; [exact Hr|]); (split; [lia|]);
    rewrite Hm, Hsplit, Z.div_mul by (apply Z.pow_nonzero; lia);
    do 2 f_equal; lia.
  pose proof (iter_xO_pow2 M q) as Hsh.
  set (mz := Pos.iter xO M q) in *.
  assert (Hpq : 0 < 2 ^ Zpos q) by (apply Z.pow_pos_nonneg; lia).
  assert (Hdz : Zpos (digits2_pos mz) <= 53).
  { apply digits2_pos_le; [lia|]. rewrite Hsh.
    apply Z.lt_le_trans with (2 ^ d * 2 ^ Zpos q); [nia|].
    rewrite <- pow2_split by lia. apply Z.pow_le_mono_r; lia. }
  assert (Hx : excess mz = 0) by (unfold excess; lia).
  destruct (binary_round_aux_divisible mz (Z.max (d + E - 53) (3 - 1024 - 53))
              ltac:(lia) ltac:(rewrite Hx; lia)) as (m & Hr & Hm).
  { rewrite Hx. apply Z.mod_1_r. }
  unfold prec, emax in Hr. rewrite Hx, Z.add_0_r in Hr. rewrite Hx, Z.div_1_r in Hm.
  exists m, (Z.max (d + E - 53) (3 - 1024 - 53)).
  split; [exact Hr|]. split; [lia|].
  rewrite Hm, Hsh, HM, <- Z.mul_assoc, <- pow2_split by lia. do 2 f_equal. lia.
Qed.

Lemma shl_align_fst (m : positive) (e ez : Z) :
  ez <= e -> Zpos (fst (shl_align m e ez)) = Zpos m * 2 ^ (e - ez).
Proof.
  intros Hle. unfold shl_align.
  destruct (ez - e) as [|q|q] eqn:Hq; try lia; cbn [fst].
  - replace (e - ez) with 0 by lia. lia.
  - rewrite iter_xO_pow2. f_equal. f_equal. lia.
Qed.

(** A negative number is not above the floor. *)
Lemma gt_int_negative (x : float) (n : Z) :
  0 <= n ->
  match x with
  | S754_finite false _ _ | S754_infinity false => False
  | _ => True
  end ->
  gt_int x n = false.
Proof.
  intros Hn. unfold gt_int, compare_int.
  destruct x as [[|]|[|]| |[|] m e]; try contradiction; intros _; try reflexivity.
  - destruct (0 ?= n) eqn:Hc; try reflexivity. apply Z.compare_gt_iff in Hc. lia.
  - destruct (0 ?= n) eqn:Hc; try reflexivity. apply Z.compare_gt_iff in Hc. lia.
  - destruct e as [|p|p].
    + rewrite Z.shiftl_0_r. destruct (Zneg m ?= n) eqn:Hc; try reflexivity.
      apply Z.compare_gt_iff in Hc. lia.
    + rewrite Z.shiftl_mul_pow2 by lia.
      assert (0 < 2 ^ Zpos p) by (apply Z.pow_pos_nonneg; lia).
      destruct (Zneg m * 2 ^ Zpos p ?= n) eqn:Hc; try reflexivity.
      apply Z.compare_gt_iff in Hc. nia.
    + rewrite Z.shiftl_mul_pow2 by lia.
      assert (0 < 2 ^ Zpos p) by (apply Z.pow_pos_nonneg; lia).
      destruct (Zneg m ?= n * 2 ^ Zpos p) eqn:Hc; try reflexivity.
      apply Z.compare_gt_iff in Hc. nia.
Qed.

Lemma binary_round_negative (M : positive) (E n : Z) :
  0 <= n -> gt_int (binary_round prec emax true M E) n = false.
Proof.
  intros Hn. apply gt_int_negative; [exact Hn|].
  unfold binary_round. destruct (shl_align _ _ _) as [mz ez].
  unfold binary_round_aux.
  destruct (shr_fexp prec emax (Zpos mz) ez loc_Exact) as [mrs1 e1].
  destruct (shr_fexp prec emax _ e1 loc_Exact) as [mrs2 e2].
  destruct (shr_m mrs2); [exact I| |exact I].
  destruct (e2 <=? emax - prec); exact I.
Qed.

(** The whole seconds of a difference of [K] ticks, with the floor. *)
Lemma budget_of_ticks (m : positive) (e K : Z) :
  e <= -22 -> Zpos m = K * 2 ^ (- 22 - e) ->
  (if gt_int (S754_finite false m e) minimumFloor
   then to_int (S754_finite false m e) else Ok minimumFloor)
  = Ok (Z.max minimumFloor (K / 2 ^ 22)).
Proof.
  intros He Hm. unfold minimumFloor.
  set (a := - 22 - e) in *.
  assert (Ha : 0 <= a) by (unfold a; lia).
  assert (Hpa : 0 < 2 ^ a) by (apply Z.pow_pos_nonneg; lia).
  assert (Hpe : 2 ^ (- e) = 2 ^ 22 * 2 ^ a).
  { rewrite <- pow2_split by lia. f_equal. unfold a. lia. }
  assert (Hint : to_int (S754_finite false m e) = Ok (K / 2 ^ 22)).
  { rewrite to_int_finite_pos.
    replace (e <? 0) with true by (symmetry; apply Z.ltb_lt; lia).
    rewrite Hm, Hpe, Z.div_mul_cancel_r by lia. reflexivity. }
  assert (Hcmp : gt_int (S754_finite false m e) 10 = (10 * 2 ^ 22 <? K)).
  { unfold gt_int, compare_int. destruct e as [|p|p]; try lia.
    rewrite Z.shiftl_mul_pow2 by lia.
    change (Zpos p) with (- Zneg p). rewrite Hpe, Hm.
    destruct (10 * 2 ^ 22 <? K) eqn:Hlt.
    - apply Z.ltb_lt in Hlt.
      replace (K * 2 ^ a ?= 10 * (2 ^ 22 * 2 ^ a)) with Gt; [reflexivity|].
      symmetry. apply Z.compare_gt_iff. nia.
    - apply Z.ltb_ge in Hlt.
      destruct (K * 2 ^ a ?= 10 * (2 ^ 22 * 2 ^ a)) eqn:Hc; try reflexivity.
      apply Z.compare_gt_iff in Hc. nia. }
  rewrite Hcmp, Hint.
  destruct (10 * 2 ^ 22 <? K) eqn:Hlt; f_equal.
  - apply Z.ltb_lt in Hlt.
    assert (10 <= K / 2 ^ 22) by (apply Z.div_le_lower_bound; lia). lia.
  - apply Z.ltb_ge in Hlt.
    assert (K / 2 ^ 22 <= 10).
    { apply Z.lt_succ_r. apply Z.div_lt_upper_bound; lia. }
    lia.
Qed.

(** On the ticks of the clock the budget is exact: the whole seconds of
    [max(10, T - elapsed)]. *)
Lemma observation_budget_exact (T n : Z) (elapsed : float) :
  0 < T < 2 ^ 30 -> ticks elapsed n -> Z.abs n < 2 ^ 52 ->
  observation_budget T elapsed = Ok (exact_budget T n).
Proof.
  intros HT Hticks Hn.
  destruct (of_Z_exact T) as (mt & et & Ht & Het & Hmt & Hnorm).
  { split; [lia|]. apply Z.lt_trans with (2 ^ 30); [lia|reflexivity]. }
  assert (Het' : et <= -23).
  { destruct (Z_le_gt_dec et (-23)) as [H|H]; [exact H|exfalso].
    assert (2 ^ (- et) <= 2 ^ 22) by (apply Z.pow_le_mono_r; lia).
    change (2 ^ 30) with 1073741824 in HT. change (2 ^ 22) with 4194304 in H0.
    change (2 ^ 52) with 4503599627370496 in Hnorm. nia. }
  assert (Hmt' : forall ez, ez <= et ->
             Zpos mt * 2 ^ (et - ez) = T * 2 ^ 22 * 2 ^ (- 22 - ez)).
  { intros ez Hez. rewrite Hmt, <- !Z.mul_assoc, <- !pow2_split by lia.
    do 2 f_equal. lia. }
  unfold observation_budget, of_int. rewrite Ht. cbn [bind]. unfold exact_budget.
  destruct elapsed as [sz|si| |s m e]; cbn [ticks] in Hticks; try contradiction.
  - (* no time elapsed *)
    subst n. change (sub (S754_finite false mt et) (S754_zero sz))
      with (S754_finite false mt et).
    rewrite (budget_of_ticks mt et (T * 2 ^ 22)); [|lia|].
    + rewrite Z.sub_0_r. reflexivity.
    + rewrite <- (Hmt' et) by lia. rewrite Z.sub_diag. lia.
  - destruct Hticks as [He Hv].
    set (v := if s then Zneg m else Zpos m) in *. cbv zeta in Hv.
    set (ez := Z.min et e).
    set (j := - 22 - ez).
    assert (Hj : 1 <= j) by (unfold j, ez; lia).
    assert (Hpj : 0 < 2 ^ j) by (apply Z.pow_pos_nonneg; lia).
    assert (Hvj : v * 2 ^ (e - ez) = n * 2 ^ j).
    { destruct (e + 22 <? 0) eqn:Hlt.
      - apply Z.ltb_lt in Hlt. rewrite Hv, <- Z.mul_assoc, <- pow2_split by (unfold ez; lia).
        do 2 f_equal. unfold j. lia.
      - apply Z.ltb_ge in Hlt. rewrite Hv, <- Z.mul_assoc, <- pow2_split by (unfold ez; lia).
        do 2 f_equal. unfold j. lia. }
    assert (Hsub : sub (S754_finite false mt et) (S754_finite s m e)
                   = binary_normalize prec emax ((T * 2 ^ 22 - n) * 2 ^ j) ez false).
    { unfold sub, SFsub. fold ez. f_equal.
      rewrite !shl_align_fst by (unfold ez; lia).
      rewrite (Hmt' ez) by (unfold ez; lia). fold j.
      replace (cond_Zopp s (Zpos m * 2 ^ (e - ez))) with (v * 2 ^ (e - ez))
        by (unfold v, cond_Zopp; destruct s; lia).
      cbn [cond_Zopp]. rewrite Hvj. ring. }
    rewrite Hsub. set (K := T * 2 ^ 22 - n) in *.
    assert (HK : Z.abs K < 2 ^ 53).
    { unfold K. change (2 ^ 30) with 1073741824 in HT.
      change (2 ^ 22) with 4194304. change (2 ^ 52) with 4503599627370496 in Hn.
      change (2 ^ 53) with 9007199254740992. lia. }
    unfold binary_normalize.
    destruct (K * 2 ^ j) as [|M|M] eqn:HM.
    + assert (K = 0) by nia. rewrite H. reflexivity.
    + destruct (binary_round_exact M ez K j) as (m' & e' & Hr & He' & Hm');
        try (unfold ez, j; lia).
      all: try (symmetry; exact HM); try (split; [nia|lia]).
      rewrite Hr.
      replace (ez + j) with (-22) in * by (unfold j; lia).
      apply budget_of_ticks; [lia|]. rewrite Hm'. f_equal.
    + rewrite binary_round_negative by (unfold minimumFloor; lia).
      assert (K < 0) by nia. unfold minimumFloor.
      assert (K / 2 ^ 22 < 0) by (apply Z.div_lt_upper_bound; lia).
      f_equal. lia.
Qed.

End Subtraction.

(** ** AutoViewOrchestrator *)

Lemma observations_app (a b : trace) :
  observations (a ++ b) = observations a ++ observations b.
Proof.
  induction a as [|e a IH]; [reflexivity|].
  destruct e; cbn [app observations]; rewrite IH; reflexivity.
Qed.

Lemma observations_snoc (tr : trace) (e : event) :
  (forall argv t, e <> EvAutoView argv t) ->
  observations (tr ++ [e]) = observations tr.
Proof.
  intros He. rewrite observations_app.
  destruct e; cbn; rewrite ?app_nil_r; try reflexivity.
  exfalso. eapply He. reflexivity.
Qed.

Lemma quiet_ret {A} (a : A) : quiet (ret a).
Proof. intros tr r tr' [= _ <-]. reflexivity. Qed.

Lemma quiet_raise {A} (e : exn) : quiet (@raise A e).
Proof. intros tr r tr' [= _ <-]. reflexivity. Qed.

Lemma quiet_lift {A} (x : result A) : quiet (lift x).
Proof. intros tr r tr' [= _ <-]. reflexivity. Qed.

Lemma quiet_bind {A B} (c : io A) (k : A -> io B) :
  quiet c -> (forall a, quiet (k a)) -> quiet (iobind c k).
Proof.
  intros Hc Hk tr r tr'. unfold iobind.
  destruct (c tr) as [[a|e] tr1] eqn:Hct.
  - intros H. rewrite (Hk a _ _ _ H). apply (Hc _ _ _ Hct).
  - intros [= _ <-]. apply (Hc _ _ _ Hct).
Qed.

Lemma quiet_try_except {A} (c : io A) (h : exception -> io A) :
  quiet c -> (forall e, quiet (h e)) -> quiet (try_except c h).
Proof.
  intros Hc Hh tr r tr'. unfold try_except.
  destruct (c tr) as [[a|[e|code]] tr1] eqn:Hct.
  - intros [= _ <-]. apply (Hc _ _ _ Hct).
  - intros H. rewrite (Hh e _ _ _ H). apply (Hc _ _ _ Hct).
  - intros [= _ <-]. apply (Hc _ _ _ Hct).
Qed.

Lemma quiet_emit (e : event) :
  (forall argv t, e <> EvAutoView argv t) -> quiet (emit e).
Proof.
  intros He tr r tr' [= _ <-]. apply observations_snoc. exact He.
Qed.

Lemma quiet_print_stderr (m : message) : quiet (print_stderr m).
Proof. apply quiet_emit. discriminate. Qed.

Lemma quiet_print_stdout (m : message) : quiet (print_stdout m).
Proof. apply quiet_emit. discriminate. Qed.

Lemma quiet_if {A} (b : bool) (c1 c2 : io A) :
  quiet c1 -> quiet c2 -> quiet (if b then c1 else c2).
Proof. destruct b; auto. Qed.

Create HintDb quiet.
#[local] Hint Resolve quiet_ret quiet_raise quiet_lift quiet_print_stderr
  quiet_print_stdout quiet_if : quiet.

Ltac observe_nothing :=
  repeat first
    [ solve [auto with quiet]
    | apply quiet_bind; [|intros ?]
    | apply quiet_try_except; [|intros ?]
    | apply quiet_if
    | match goal with
      | |- quiet (match ?x with _ => _ end) => destruct x
      | |- quiet (let '(_, _) := ?x in _) => destruct x
      end ].

Section Orchestrator.

Variable env : environment.

Lemma quiet__run (cmd : list str) (t : Z) : quiet (_run env cmd t).
Proof.
  intros tr r tr' [= _ <-]. apply observations_snoc. discriminate.
Qed.

Lemma quiet_get_screen_size (adb device : str) :
  quiet (get_screen_size_via_adb env adb device).
Proof.
  pose proof quiet__run. unfold get_screen_size_via_adb. observe_nothing.
Qed.

Lemma quiet_get_screen_density (adb device : str) :
  quiet (get_screen_density_via_adb env adb device).
Proof.
  pose proof quiet__run. unfold get_screen_density_via_adb. observe_nothing.
Qed.

Lemma quiet_get_accurate_screen_info (adb device : str) (path : option str) :
  quiet (get_accurate_screen_info env adb device path).
Proof.
  pose proof quiet_get_screen_size. pose proof quiet_get_screen_density.
  unfold get_accurate_screen_info, info_from_screenshot, info_from_adb, adb_queries.
  observe_nothing.
  all: intros tr r tr' [= _ <-]; apply observations_snoc; discriminate.
Qed.

Lemma quiet_validate_coordinates (x y W H : Z) :
  quiet (validate_coordinates x y W H).
Proof. unfold validate_coordinates. observe_nothing. Qed.

Variable args : arguments.

Lemma quiet_convert_coordinates_if_needed (x y : Z) :
  quiet (convert_coordinates_if_needed env args x y).
Proof.
  pose proof quiet_get_accurate_screen_info. pose proof quiet_validate_coordinates.
  unfold convert_coordinates_if_needed. observe_nothing.
Qed.

Lemma quiet_run (self : AdbClient) (argv : list str) : quiet (run env self argv).
Proof.
  intros tr r tr'. unfold run.
  destruct (subprocess_run env tr argv (timeout_s self)) as [code out err|out err|e];
    [|destruct (truthy err)|];
    intros [= _ <-]; apply observations_snoc; discriminate.
Qed.

(** Whatever comes of it, [AdbClient.run] starts the command, once. *)
Lemma run_trace (self : AdbClient) (argv : list str) (tr : trace) :
  snd (run env self argv tr) = tr ++ [EvRun argv (timeout_s self)].
Proof.
  unfold run.
  destruct (subprocess_run env tr argv (timeout_s self)) as [code out err|out err|e];
    [|destruct (truthy err)|]; reflexivity.
Qed.

Lemma quiet_device_action (action : io CmdResult) :
  is_device_action env args action -> quiet action.
Proof.
  unfold is_device_action.
  destruct (a_command args); try contradiction.
  - intros (x' & y' & ->). apply quiet_run.
  - intros (x1' & y1' & x2' & y2' & ->). apply quiet_run.
  - intros ->. apply quiet_run.
  - intros ->. apply quiet_run.
  - intros ->. unfold app_start. apply quiet_if; [apply quiet_ret|apply quiet_run].
Qed.

Lemma quiet__print_result (r : CmdResult) (as_json : bool) (view : auto_view) :
  quiet (_print_result r as_json view).
Proof. unfold _print_result. observe_nothing. Qed.

End Orchestrator.

(** *** What a run leaves out *)

Lemma eqb_eq (a b : str) : PyStr.eqb a b = true <-> a = b.
Proof.
  revert b. induction a as [|x a IH]; intros [|y b]; cbn [PyStr.eqb];
    try (split; [discriminate|discriminate]); [split; reflexivity|].
  rewrite andb_true_iff, Z.eqb_eq, IH. split.
  - intros [-> ->]. reflexivity.
  - intros [= -> ->]. split; reflexivity.
Qed.

Lemma cmd_eqb_eq (a b : list str) : cmd_eqb a b = true <-> a = b.
Proof.
  revert b. induction a as [|x a IH]; intros [|y b]; cbn [cmd_eqb];
    try (split; [discriminate|discriminate]); [split; reflexivity|].
  rewrite andb_true_iff, eqb_eq, IH. split.
  - intros [-> ->]. reflexivity.
  - intros [= -> ->]. split; reflexivity.
Qed.

Lemma observations_filter (new : trace) :
  filter is_observation new = [] -> observations new = [].
Proof.
  induction new as [|e new IH]; [reflexivity|].
  destruct e; cbn [filter is_observation observations]; try exact IH. discriminate.
Qed.

Lemma silent_ret (P : event -> bool) {A} (a : A) : silent P (ret a).
Proof. intros tr r tr' [= _ <-]. exists []. rewrite app_nil_r. auto. Qed.

Lemma silent_raise (P : event -> bool) {A} (e : exn) : silent P (@raise A e).
Proof. intros tr r tr' [= _ <-]. exists []. rewrite app_nil_r. auto. Qed.

Lemma silent_lift (P : event -> bool) {A} (x : result A) : silent P (lift x).
Proof. intros tr r tr' [= _ <-]. exists []. rewrite app_nil_r. auto. Qed.

Lemma silent_bind (P : event -> bool) {A B} (c : io A) (k : A -> io B) :
  silent P c -> (forall a, silent P (k a)) -> silent P (iobind c k).
Proof.
  intros Hc Hk tr r tr'. unfold iobind.
  destruct (c tr) as [[a|e] tr1] eqn:Hct.
  - intros H. destruct (Hc _ _ _ Hct) as (n1 & -> & H1).
    destruct (Hk a _ _ _ H) as (n2 & -> & H2).
    exists (n1 ++ n2). rewrite app_assoc, filter_app, H1, H2. auto.
  - intros [= _ <-]. apply (Hc _ _ _ Hct).
Qed.

Lemma silent_try_except (P : event -> bool) {A} (c : io A) (h : exception -> io A) :
  silent P c -> (forall e, silent P (h e)) -> silent P (try_except c h).
Proof.
  intros Hc Hh tr r tr'. unfold try_except.
  destruct (c tr) as [[a|[e|code]] tr1] eqn:Hct.
  - intros [= _ <-]. apply (Hc _ _ _ Hct).
  - intros H. destruct (Hc _ _ _ Hct) as (n1 & -> & H1).
    destruct (Hh e _ _ _ H) as (n2 & -> & H2).
    exists (n1 ++ n2). rewrite app_assoc, filter_app, H1, H2. auto.
  - intros [= _ <-]. apply (Hc _ _ _ Hct).
Qed.

Lemma silent_emit (P : event -> bool) (e : event) :
  P e = false -> silent P (emit e).
Proof.
  intros He tr r tr' [= _ <-]. exists [e]. split; [reflexivity|].
  cbn [filter]. rewrite He. reflexivity.
Qed.

Lemma silent_if (P : event -> bool) {A} (b : bool) (c1 c2 : io A) :
  silent P c1 -> silent P c2 -> silent P (if b then c1 else c2).
Proof. destruct b; auto. Qed.

Lemma silent_step (P : event -> bool) {A} (f : trace -> result A) (e : trace -> event) :
  (forall tr, P (e tr) = false) -> silent P (fun tr => (f tr, tr ++ [e tr])).
Proof.
  intros He tr r tr' [= _ <-]. exists [e tr]. split; [reflexivity|].
  cbn [filter]. rewrite He. reflexivity.
Qed.

Create HintDb silent.
#[local] Hint Resolve silent_ret silent_raise silent_lift silent_if : silent.

Ltac hush stderr_lines :=
  repeat first
    [ solve [auto with silent]
    | apply silent_bind; [|intros ?]
    | apply silent_try_except; [|intros ?]
    | apply silent_if
    | unfold print_stderr, print_stdout; apply silent_emit;
      first [solve [auto] | solve [apply stderr_lines; reflexivity]]
    | match goal with
      | |- silent _ (match ?x with _ => _ end) => destruct x
      | |- silent _ (let '(_, _) := ?x in _) => destruct x
      end ].

Section Silence.

Variable env : environment.
Variable P : event -> bool.

Lemma silent__run (cmd : list str) (t : Z) :
  P (EvRun cmd t) = false -> silent P (_run env cmd t).
Proof.
  intros H. unfold _run.
  apply (silent_step P (fun tr => run_result cmd (subprocess_run env tr cmd t))
           (fun _ => EvRun cmd t)).
  intros _. exact H.
Qed.

Variable args : arguments.

Hypothesis queries :
  forall cmd,
    In cmd (geometry_queries (a_adb args) (a_device args)) ->
    P (EvRun cmd 10) = false.
Hypothesis stderr_lines :
  forall m, observation_report m = false -> P (EvStderr m) = false.

Lemma silent_get_screen_size :
  silent P (get_screen_size_via_adb env (a_adb args) (a_device args)).
Proof.
  unfold get_screen_size_via_adb. hush stderr_lines.
  all: apply silent__run, queries; cbn [geometry_queries In]; auto 6.
Qed.

Lemma silent_get_screen_density :
  silent P (get_screen_density_via_adb env (a_adb args) (a_device args)).
Proof.
  unfold get_screen_density_via_adb. hush stderr_lines.
  all: apply silent__run, queries; cbn [geometry_queries In]; auto 6.
Qed.

Lemma silent_validate_coordinates (x y W H : Z) :
  silent P (validate_coordinates x y W H).
Proof. unfold validate_coordinates. hush stderr_lines. Qed.

Hypothesis files : forall p, P (EvExists p) = false /\ P (EvImageOpen p) = false.

Lemma silent_get_accurate_screen_info (path : option str) :
  silent P (get_accurate_screen_info env (a_adb args) (a_device args) path).
Proof.
  pose proof silent_get_screen_size. pose proof silent_get_screen_density.
  unfold get_accurate_screen_info, info_from_screenshot, info_from_adb, adb_queries.
  hush stderr_lines.
  all: intros tr r tr' [= _ <-]; eexists [_]; (split; [reflexivity|]);
    cbn [filter]; rewrite ?(proj1 (files _)), ?(proj2 (files _)); reflexivity.
Qed.

Lemma silent_convert_coordinates_if_needed (x y : Z) :
  silent P (convert_coordinates_if_needed env args x y).
Proof.
  pose proof silent_get_accurate_screen_info. pose proof silent_validate_coordinates.
  unfold convert_coordinates_if_needed. hush stderr_lines.
Qed.

Hypothesis commands : forall cmd, P (EvRun cmd (a_timeout args)) = false.
Hypothesis clocks : forall t, P (EvClock t) = false.
Hypothesis waits_and_observations :
  a_auto_view args = false
  \/ ((forall s, P (EvSleep s) = false) /\ (forall c t, P (EvAutoView c t) = false)).
Hypothesis reports : a_json args = true \/ forall m, P (EvStderr m) = false.
Hypothesis stdout_lines :
  (a_json args = true /\ forall r v, P (EvStdout (JsonResult r v)) = false)
  \/ forall m, P (EvStdout m) = false.

Let client := mkAdbClient (a_adb args) (a_device args) (a_timeout args).

Lemma silent_run (argv : list str) : silent P (run env client argv).
Proof.
  intros tr r tr' H.
  pose proof (run_trace env client argv tr) as Ht. rewrite H in Ht. cbn [snd] in Ht.
  subst tr'. eexists [_]. split; [reflexivity|]. cbn [filter].
  unfold client; cbn [timeout_s]; rewrite commands; reflexivity.
Qed.

Lemma silent_device_action (action : io CmdResult) :
  is_device_action env args action -> silent P action.
Proof.
  unfold is_device_action. fold client.
  destruct (a_command args); try contradiction.
  - intros (x' & y' & ->). apply silent_run.
  - intros (x1' & y1' & x2' & y2' & ->). apply silent_run.
  - intros ->. apply silent_run.
  - intros ->. apply silent_run.
  - intros ->. unfold app_start. apply silent_if; [apply silent_ret|apply silent_run].
Qed.

Lemma silent_plain_action (action : io CmdResult) :
  is_plain_action env args action -> silent P action.
Proof.
  unfold is_plain_action. fold client.
  destruct (a_command args) as [| | | | | | |name|[|a l]]; try contradiction.
  - intros ->. apply silent_run.
  - intros ->. apply silent_run.
  - intros ->. unfold app_stop. apply silent_if; [apply silent_ret|apply silent_run].
  - intros ->. apply silent_run.
Qed.

Lemma silent__print_result (r : CmdResult) (view : auto_view) :
  silent P (_print_result r (a_json args) view).
Proof.
  unfold _print_result.
  destruct stdout_lines as [[Hjson Hout]|Hout].
  - rewrite Hjson. apply silent_emit. apply Hout.
  - hush stderr_lines.
Qed.

Lemma silent__auto_view_screen (timeout : Z) :
  (forall c t, P (EvAutoView c t) = false) ->
  silent P (_auto_view_screen env (a_adb args) (a_device args) timeout (a_json args)).
Proof.
  intros Hobs tr r tr'. unfold _auto_view_screen.
  set (c := describe_command env (a_adb args) (a_device args) timeout (a_json args)).
  assert (H1 : forall x : result auto_view,
             (x, tr ++ [EvAutoView c (timeout + 10)]) = (r, tr') ->
             exists new, tr' = tr ++ new /\ filter P new = []).
  { intros x [= _ <-]. eexists [_]. split; [reflexivity|]. cbn [filter].
    rewrite Hobs. reflexivity. }
  assert (H2 : forall (x : result auto_view) m,
             a_json args = false ->
             (x, (tr ++ [EvAutoView c (timeout + 10)]) ++ [EvStderr m]) = (r, tr') ->
             exists new, tr' = tr ++ new /\ filter P new = []).
  { intros x m Htext [= _ <-]. eexists [_; _]. rewrite <- app_assoc.
    split; [reflexivity|]. cbn [filter]. rewrite Hobs.
    destruct reports as [Hjson|Herr]; [congruence|]. rewrite Herr. reflexivity. }
  destruct (subprocess_run_view env tr c (timeout + 10)) as [code out err|out err|e].
  - destruct (code =? 0).
    + destruct (a_json args).
      * destruct (json_loads env out) as [[]|]; apply H1.
      * apply H1.
    + destruct (a_json args) eqn:Hj; [apply H1|apply H2; reflexivity].
  - destruct (a_json args) eqn:Hj; [apply H1|apply H2; reflexivity].
  - destruct e; destruct (a_json args) eqn:Hj;
      first [apply H1 | apply H2; reflexivity].
Qed.

Lemma silent_execute_with_auto_view (command_func : io CmdResult) :
  silent P command_func ->
  silent P (execute_with_auto_view env args command_func).
Proof.
  intros Hc. pose proof silent__print_result. pose proof silent__auto_view_screen.
  unfold execute_with_auto_view.
  apply silent_bind.
  { apply (silent_step P (fun tr => Ok (time_time env tr))
             (fun tr => EvClock (time_time env tr))).
    intros tr. apply clocks. }
  intros start_time. apply silent_bind; [exact Hc|]. intros result.
  apply silent_bind; [|intros view; hush stderr_lines].
  destruct waits_and_observations as [Hoff|[Hsleep Hobs]].
  - rewrite Hoff. cbn [andb]. apply silent_ret.
  - destruct (a_auto_view args && ok result); [|apply silent_ret].
    destruct (existsb _ _); [|apply silent_ret].
    apply silent_bind.
    { apply silent_if; [apply silent_emit, Hsleep|apply silent_ret]. }
    intros _. apply silent_bind.
    { apply (silent_step P (fun tr => Ok (time_time env tr))
               (fun tr => EvClock (time_time env tr))).
      intros tr. apply clocks. }
    intros now. hush stderr_lines.
Qed.

Lemma silent_main : silent P (main env args).
Proof.
  pose proof silent_convert_coordinates_if_needed.
  pose proof silent_execute_with_auto_view.
  pose proof silent__print_result.
  assert (Hdev : forall action,
             is_device_action env args action ->
             silent P (execute_with_auto_view env args action)).
  { intros action Ha. apply silent_execute_with_auto_view, silent_device_action, Ha. }
  assert (Hplain : forall action,
             is_plain_action env args action ->
             silent P (r <~ action ;;
                       _print_result r (a_json args) AvNone ;;; ret 0)).
  { intros action Ha. apply silent_bind; [apply silent_plain_action, Ha|].
    intros r. hush stderr_lines. }
  unfold main. fold client.
  apply silent_if; [hush stderr_lines|].
  apply silent_if; [hush stderr_lines|].
  apply silent_if; [hush stderr_lines|].
  unfold is_device_action, is_plain_action in *. fold client in Hdev, Hplain.
  destruct (a_command args) as [| |x y rel|x1 y1 x2 y2 d rel|k|t|name|name|[|a l]].
  - apply Hplain. reflexivity.
  - apply Hplain. reflexivity.
  - apply silent_bind; [auto|]. intros [ax ay]. apply Hdev. eauto.
  - apply silent_bind; [auto|]. intros [ax1 ay1].
    apply silent_bind; [auto|]. intros [ax2 ay2]. apply Hdev. eauto 6.
  - apply Hdev. reflexivity.
  - apply Hdev. reflexivity.
  - apply Hdev. reflexivity.
  - apply Hplain. reflexivity.
  - hush stderr_lines.
  - apply Hplain. reflexivity.
Qed.

End Silence.
Lemma filter_nil_Forall {A} (P : A -> bool) (l : list A) :
  filter P l = [] -> Forall (fun e => P e = false) l.
Proof.
  induction l as [|e l IH]; [constructor|].
  cbn [filter]. destruct (P e) eqn:E; [discriminate|].
  intros H. constructor; [exact E|apply IH, H].
Qed.

Section OrchestratorRuns.

Variable env : environment.
Variable args : arguments.

Lemma _auto_view_screen_observes (adb device : str) (timeout : Z) (as_json : bool)
  (tr : trace) :
  exists view rest,
    _auto_view_screen env adb device timeout as_json tr
    = (Ok view,
       tr ++ EvAutoView (describe_command env adb device timeout as_json) (timeout + 10)
          :: rest)
    /\ observations rest = [].
Proof.
  unfold _auto_view_screen.
  set (c := describe_command env adb device timeout as_json).
  destruct (subprocess_run_view env tr c (timeout + 10)) as [code out err|out err|e].
  - destruct (code =? 0).
    + destruct as_json.
      * destruct (json_loads env out) as [[]|];
          eexists _, []; (split; [reflexivity|reflexivity]).
      * eexists _, []. split; reflexivity.
    + destruct as_json.
      * eexists _, []. split; reflexivity.
      * eexists _, [_]. rewrite <- app_assoc. split; reflexivity.
  - destruct as_json.
    + eexists _, []. split; reflexivity.
    + eexists _, [_]. rewrite <- app_assoc. split; reflexivity.
  - destruct e; destruct as_json;
      first [ eexists _, []; split; reflexivity
            | eexists _, [_]; rewrite <- app_assoc; split; reflexivity ].
Qed.

Lemma to_int_above (x : PyFloat.float) (n b : Z) :
  0 <= n -> PyFloat.gt_int x n = true -> PyFloat.to_int x = Ok b -> n <= b.
Proof.
  intros Hn. unfold PyFloat.gt_int, PyFloat.compare_int, PyFloat.to_int.
  destruct x as [s|s| |s m e]; try discriminate.
  - destruct (0 ?= n) eqn:Hc; try discriminate.
    apply Z.compare_gt_iff in Hc. lia.
  - destruct s.
    + (* a negative value is not above [n] *)
      destruct e as [|p|p]; intros Hc; exfalso.
      * rewrite Z.shiftl_0_r in Hc.
        destruct (Zneg m ?= n) eqn:Hcmp; try discriminate.
        apply Z.compare_gt_iff in Hcmp. lia.
      * rewrite Z.shiftl_mul_pow2 in Hc by lia.
        destruct (Zneg m * 2 ^ Zpos p ?= n) eqn:Hcmp; try discriminate.
        apply Z.compare_gt_iff in Hcmp.
        assert (0 < 2 ^ Zpos p) by (apply Z.pow_pos_nonneg; lia). nia.
      * rewrite Z.shiftl_mul_pow2 in Hc by lia.
        destruct (Zneg m ?= n * 2 ^ Zpos p) eqn:Hcmp; try discriminate.
        apply Z.compare_gt_iff in Hcmp.
        assert (0 < 2 ^ Zpos p) by (apply Z.pow_pos_nonneg; lia). nia.
    + destruct e as [|p|p]; intros Hc [= <-].
      * rewrite Z.shiftl_0_r in *.
        destruct (Zpos m ?= n) eqn:Hcmp; try discriminate.
        apply Z.compare_gt_iff in Hcmp. lia.
      * destruct (Z.shiftl (Zpos m) (Zpos p) ?= n) eqn:Hcmp; try discriminate.
        apply Z.compare_gt_iff in Hcmp. unfold Z.shiftl in Hcmp. lia.
      * rewrite Z.shiftl_mul_pow2 in Hc by lia.
        rewrite Z.shiftr_div_pow2 by lia.
        destruct (Zpos m ?= n * 2 ^ Zpos p) eqn:Hcmp; try discriminate.
        apply Z.compare_gt_iff in Hcmp.
        apply Z.div_le_lower_bound; [apply Z.pow_pos_nonneg; lia|]. lia.
Qed.

(** What the orchestrator computes is the budget of the specification. *)
Lemma observation_budget_computed (timeout : Z) (elapsed : PyFloat.float) :
  (remaining <- remaining_timeout timeout elapsed ;; int remaining)
  = observation_budget timeout elapsed.
Proof.
  unfold observation_budget, remaining_timeout, minimumFloor.
  destruct (PyFloat.of_int timeout) as [t|x]; cbn [bind]; [|reflexivity].
  unfold max_int_float.
  destruct (PyFloat.gt_int (PyFloat.sub t elapsed) 10); reflexivity.
Qed.

Lemma observation_budget_floor (timeout : Z) (elapsed : PyFloat.float) (b : Z) :
  observation_budget timeout elapsed = Ok b -> 10 <= b.
Proof.
  rewrite <- observation_budget_computed. unfold remaining_timeout.
  destruct (PyFloat.of_int timeout) as [t|x]; cbn [bind]; [|discriminate].
  unfold max_int_float.
  destruct (PyFloat.gt_int (PyFloat.sub t elapsed) 10) eqn:Hgt; cbn [int].
  - apply to_int_above; [lia|exact Hgt].
  - intros [= <-]. lia.
Qed.

(** What a run of [execute_with_auto_view] that observes looks like. *)
Lemma execute_with_auto_view_observing
  (command_func : io CmdResult) (tr : trace) (r : result Z) (tr' : trace) :
  quiet command_func ->
  execute_with_auto_view env args command_func tr = (r, tr') ->
  observations tr' <> observations tr ->
  let start_time := time_time env tr in
  a_auto_view args = true
  /\ existsb (PyStr.eqb (cmd (a_command args))) auto_view_commands = true
  /\ exists result tr1,
      command_func (tr ++ [EvClock start_time]) = (Ok result, tr1)
      /\ ok result = true
      /\ let tr2 := if PyFloat.gt_int (a_wait args) 0
                    then tr1 ++ [EvSleep (a_wait args)] else tr1 in
         let now := time_time env tr2 in
         exists budget rest,
           observation_budget (a_timeout args) (PyFloat.sub now start_time) = Ok budget
           /\ tr' = tr2 ++ [EvClock now;
                            EvAutoView (describe_command env (a_adb args) (a_device args)
                                          budget (a_json args)) (budget + 10)]
                        ++ rest
           /\ observations rest = []
           /\ r = Ok 0.
Proof.
  intros Hq Hrun Hobs start_time.
  unfold execute_with_auto_view, iobind in Hrun. fold start_time in Hrun.
  set (tr0 := tr ++ [EvClock start_time]) in *.
  assert (Htr0 : observations tr0 = observations tr)
    by (apply observations_snoc; discriminate).
  destruct (command_func tr0) as [[result|e] tr1] eqn:Hcmd.
  2:{ injection Hrun as _ <-. rewrite (Hq _ _ _ Hcmd) in Hobs. congruence. }
  pose proof (Hq _ _ _ Hcmd) as Htr1.
  assert (Hquietly : forall v rr trr,
    (let (r0, tr'0) := _print_result result (a_json args) v tr1 in
     match r0 with
     | Ok _ => ret (if ok result then 0 else or_1 (returncode result)) tr'0
     | Raise e => (Raise e, tr'0)
     end) = (rr, trr) -> observations trr = observations tr).
  { intros v rr trr H.
    destruct (_print_result result (a_json args) v tr1) as [[[]|e] tr3] eqn:Hp;
      pose proof (quiet__print_result _ _ _ _ _ _ Hp) as Hp';
      injection H as _ <-; congruence. }
  destruct (a_auto_view args); cbn [andb] in Hrun.
  2:{ exfalso. apply Hobs. apply (Hquietly _ _ _ Hrun). }
  destruct (ok result) eqn:Hok.
  2:{ exfalso. apply Hobs. apply (Hquietly AvNone r tr'). rewrite ?Hok. exact Hrun. }
  destruct (existsb (PyStr.eqb (cmd (a_command args))) auto_view_commands).
  2:{ exfalso. apply Hobs. apply (Hquietly AvNone r tr'). rewrite ?Hok. exact Hrun. }
  split; [reflexivity|]. split; [reflexivity|].
  exists result, tr1. split; [reflexivity|]. split; [exact Hok|].
  intros tr2 now.
  assert (Hsleep :
    (if PyFloat.gt_int (a_wait args) 0 then emit (EvSleep (a_wait args)) else ret tt) tr1
    = (Ok tt, tr2)).
  { unfold tr2. destruct (PyFloat.gt_int (a_wait args) 0); reflexivity. }
  rewrite Hsleep in Hrun. fold now in Hrun.
  assert (Htr2 : observations tr2 = observations tr).
  { unfold tr2. destruct (PyFloat.gt_int (a_wait args) 0); [|congruence].
    rewrite observations_snoc by discriminate. congruence. }
  unfold lift in Hrun. rewrite <- observation_budget_computed.
  destruct (remaining_timeout (a_timeout args) (PyFloat.sub now start_time))
    as [remaining|e]; cbn [bind].
  2:{ exfalso. apply Hobs. injection Hrun as _ <-.
      rewrite observations_snoc by discriminate. exact Htr2. }
  destruct (int remaining) as [budget|e].
  2:{ exfalso. apply Hobs. injection Hrun as _ <-.
      rewrite observations_snoc by discriminate. exact Htr2. }
  destruct (_auto_view_screen_observes (a_adb args) (a_device args) budget (a_json args)
              (tr2 ++ [EvClock now])) as (view & rest & Hview & Hrest).
  rewrite Hview in Hrun.
  unfold _print_result in Hrun. rewrite Hok in Hrun.
  set (tr3 := (tr2 ++ [EvClock now]) ++
              EvAutoView (describe_command env (a_adb args) (a_device args) budget
                            (a_json args)) (budget + 10) :: rest) in *.
  assert (Hfinal : exists more, tr' = tr3 ++ more /\ observations more = [] /\ r = Ok 0).
  { destruct (a_json args).
    - injection Hrun as <- <-. exists [EvStdout (JsonResult result view)]. auto.
    - unfold iobind, print_stdout, emit, ret in Hrun.
      clearbody tr3.
      destruct (stdout_is_bytes result);
        [destruct (truthy (strip_ascii (stdout result)))
        |destruct (truthy (strip (stdout result)))];
        destruct view as [|[|c s]|d]; injection Hrun as <- <-;
        first [ exists []; rewrite app_nil_r; repeat split; reflexivity
              | eexists [_]; repeat split; reflexivity
              | eexists [_; _]; rewrite <- !app_assoc; repeat split; reflexivity
              | eexists [_; _; _]; rewrite <- !app_assoc; repeat split; reflexivity ]. }
  destruct Hfinal as (more & -> & Hmore & ->).
  exists budget, (rest ++ more). split; [reflexivity|]. split.
  - unfold tr3. rewrite <- !app_assoc. reflexivity.
  - rewrite observations_app, Hrest, Hmore. auto.
Qed.

(** In JSON mode the observation returns a dictionary, whatever comes of
    it, and a failure is told in it. *)
Lemma _auto_view_screen_json (adb device : str) (timeout : Z) (tr : trace) :
  let argv := describe_command env adb device timeout true in
  exists d,
    _auto_view_screen env adb device timeout true tr
    = (Ok (AvDict d), tr ++ [EvAutoView argv (timeout + 10)])
    /\ (observation_failed (subprocess_run_view env tr argv (timeout + 10)) ->
        av_ok d = false /\ av_error d <> None).
Proof.
  intros argv. unfold _auto_view_screen. fold argv.
  destruct (subprocess_run_view env tr argv (timeout + 10)) as [code out err|out err|e];
    cbn [observation_failed].
  - destruct (code =? 0) eqn:Hc.
    + apply Z.eqb_eq in Hc.
      destruct (json_loads env out) as [[]|]; eexists; (split; [reflexivity|]);
        intros H; contradiction.
    + eexists. split; [reflexivity|]. intros _. split; [reflexivity|discriminate].
  - eexists. split; [reflexivity|]. intros _. split; [reflexivity|discriminate].
  - destruct e; eexists; (split; [reflexivity|]); intros _;
      (split; [reflexivity|discriminate]).
Qed.

(** What a run of [execute_with_auto_view] that observes prints in JSON
    mode: the object of the result, with the dictionary of the
    observation in it, and nothing else. *)
Lemma execute_with_auto_view_json
  (command_func : io CmdResult) (tr : trace) (r : result Z) (tr' : trace) :
  a_json args = true ->
  silent is_observation command_func ->
  execute_with_auto_view env args command_func tr = (r, tr') ->
  observations tr' <> observations tr ->
  exists before argv t result d,
    observations before = []
    /\ tr' = (tr ++ before)
             ++ [EvAutoView argv t; EvStdout (JsonResult result (AvDict d))]
    /\ (observation_failed (subprocess_run_view env (tr ++ before) argv t) ->
        av_ok d = false /\ av_error d <> None)
    /\ r = Ok 0.
Proof.
  intros Hjson Hs Hrun Hobs.
  assert (Hq : quiet command_func).
  { intros t0 r0 t1 H. destruct (Hs _ _ _ H) as (new & -> & Hnew).
    rewrite observations_app, (observations_filter _ Hnew). apply app_nil_r. }
  destruct (execute_with_auto_view_observing command_func tr r tr' Hq Hrun Hobs)
    as (Hav & Hcmdset & result & tr1 & Hcmd & Hok & _).
  destruct (Hs _ _ _ Hcmd) as (new1 & -> & Hnew1).
  unfold execute_with_auto_view, iobind in Hrun.
  rewrite Hcmd, Hav, Hok, Hcmdset, Hjson in Hrun. cbn [andb] in Hrun.
  set (tr1 := (tr ++ [EvClock (time_time env tr)]) ++ new1) in *.
  set (tr2 := if PyFloat.gt_int (a_wait args) 0
              then tr1 ++ [EvSleep (a_wait args)] else tr1).
  assert (Hsleep :
    (if PyFloat.gt_int (a_wait args) 0 then emit (EvSleep (a_wait args)) else ret tt) tr1
    = (Ok tt, tr2)).
  { unfold tr2. destruct (PyFloat.gt_int (a_wait args) 0); reflexivity. }
  rewrite Hsleep in Hrun. unfold lift in Hrun.
  set (now := time_time env tr2) in *.
  assert (Hbefore : exists before,
             tr2 ++ [EvClock now] = tr ++ before /\ observations before = []).
  { unfold tr2, tr1. destruct (PyFloat.gt_int (a_wait args) 0).
    - exists ([EvClock (time_time env tr)] ++ new1 ++ [EvSleep (a_wait args)]
              ++ [EvClock now]).
      rewrite <- !app_assoc. split; [reflexivity|].
      rewrite !observations_app, (observations_filter _ Hnew1). reflexivity.
    - exists ([EvClock (time_time env tr)] ++ new1 ++ [EvClock now]).
      rewrite <- !app_assoc. split; [reflexivity|].
      rewrite !observations_app, (observations_filter _ Hnew1). reflexivity. }
  destruct Hbefore as (before & Hb & Hbobs).
  destruct (remaining_timeout (a_timeout args)
              (PyFloat.sub now (time_time env tr))) as [remaining|e].
  2:{ exfalso. apply Hobs. injection Hrun as _ <-. rewrite Hb, observations_app, Hbobs.
      apply app_nil_r. }
  destruct (int remaining) as [budget|e].
  2:{ exfalso. apply Hobs. injection Hrun as _ <-. rewrite Hb, observations_app, Hbobs.
      apply app_nil_r. }
  destruct (_auto_view_screen_json (a_adb args) (a_device args) budget
              (tr2 ++ [EvClock now])) as (d & Hview & Hfail).
  rewrite Hview in Hrun. unfold _print_result, print_stdout, emit, ret in Hrun.
  injection Hrun as <- <-.
  exists before, (describe_command env (a_adb args) (a_device args) budget true),
    (budget + 10), result, d.
  rewrite <- Hb. split; [exact Hbobs|]. split; [rewrite <- !app_assoc; reflexivity|].
  split; [exact Hfail|reflexivity].
Qed.

Lemma observations_dec (a b : list (list str * Z)) : {a = b} + {a <> b}.
Proof.
  apply list_eq_dec. intros [x1 t1] [x2 t2].
  destruct (list_eq_dec (list_eq_dec Z.eq_dec) x1 x2) as [->|H];
    [|right; intros [= E _]; exact (H E)].
  destruct (Z.eq_dec t1 t2) as [->|H]; [left; reflexivity|].
  right. intros [= E]. exact (H E).
Qed.

(** A failed action is not followed by an observation. *)
Lemma execute_with_auto_view_failed
  (command_func : io CmdResult) (tr : trace) (res : result CmdResult) (tr1 : trace) :
  quiet command_func ->
  command_func (tr ++ [EvClock (time_time env tr)]) = (res, tr1) ->
  (forall result, res = Ok result -> ok result = false) ->
  observations (snd (execute_with_auto_view env args command_func tr))
  = observations tr.
Proof.
  intros Hq Hcmd Hfailed.
  destruct (execute_with_auto_view env args command_func tr) as [r tr'] eqn:Hrun.
  cbn [snd].
  destruct (observations_dec (observations tr') (observations tr)) as [Heq|Hobs];
    [exact Heq|exfalso].
  destruct (execute_with_auto_view_observing command_func tr r tr' Hq Hrun Hobs)
    as (_ & _ & result & tr1' & Hcmd' & Hok & _).
  rewrite Hcmd in Hcmd'. injection Hcmd' as -> _.
  rewrite (Hfailed result eq_refl) in Hok. discriminate.
Qed.

End OrchestratorRuns.

Section MainRuns.

Variable env : environment.
Variable args : arguments.

Lemma quiet_silent {A} (c : io A) (tr : trace) (r : result A) (tr' : trace) :
  quiet c -> c tr = (r, tr') -> observations tr' <> observations tr -> False.
Proof. intros Hq H Hobs. apply Hobs. apply (Hq _ _ _ H). Qed.

Lemma main_observing (tr : trace) (r : result Z) (tr' : trace) :
  main env args tr = (r, tr') ->
  observations tr' <> observations tr ->
  exists action tr0,
    is_device_action env args action
    /\ observations tr0 = observations tr
    /\ execute_with_auto_view env args action tr0 = (r, tr').
Proof.
  intros Hrun Hobs. unfold main in Hrun.
  pose proof (quiet_run env) as Hqr.
  pose proof (quiet__print_result) as Hqp.
  pose proof (quiet_convert_coordinates_if_needed env args) as Hqc.
  assert (Hnot : forall c : io Z, quiet c -> c tr = (r, tr') -> False).
  { intros c Hc H. exact (quiet_silent c tr r tr' Hc H Hobs). }
  destruct (PyFloat.int_gt 0 (a_wait args)).
  { exfalso. eapply Hnot; [|exact Hrun]. observe_nothing. }
  destruct (PyFloat.gt_int (a_wait args) 60).
  { exfalso. eapply Hnot; [|exact Hrun]. observe_nothing. }
  match type of Hrun with (if ?b then _ else _) _ = _ => destruct b end.
  { exfalso. eapply Hnot; [|exact Hrun]. observe_nothing. }
  unfold is_device_action.
  destruct (a_command args) as [| |x y rel|x1 y1 x2 y2 d rel|k|t|name|name|sh].
  - exfalso. eapply Hnot; [|exact Hrun]. unfold connect. observe_nothing.
  - exfalso. eapply Hnot; [|exact Hrun]. unfold devices. observe_nothing.
  - unfold iobind in Hrun.
    destruct (convert_coordinates_if_needed env args x y tr) as [[[ax ay]|e] tr0] eqn:Hc.
    + exists (tap env (mkAdbClient (a_adb args) (a_device args) (a_timeout args)) ax ay), tr0.
      split; [eauto|]. split; [apply (Hqc _ _ _ _ _ Hc)|exact Hrun].
    + exfalso. injection Hrun as _ <-. apply Hobs. apply (Hqc _ _ _ _ _ Hc).
  - unfold iobind in Hrun.
    destruct (convert_coordinates_if_needed env args x1 y1 tr) as [[[ax1 ay1]|e] tr0] eqn:Hc1.
    2:{ exfalso. injection Hrun as _ <-. apply Hobs. apply (Hqc _ _ _ _ _ Hc1). }
    destruct (convert_coordinates_if_needed env args x2 y2 tr0) as [[[ax2 ay2]|e] tr1] eqn:Hc2.
    2:{ exfalso. injection Hrun as _ <-. apply Hobs.
        rewrite (Hqc _ _ _ _ _ Hc2). apply (Hqc _ _ _ _ _ Hc1). }
    exists (swipe env (mkAdbClient (a_adb args) (a_device args) (a_timeout args))
              ax1 ay1 ax2 ay2 d), tr1.
    split; [eauto|]. split; [|exact Hrun].
    rewrite (Hqc _ _ _ _ _ Hc2). apply (Hqc _ _ _ _ _ Hc1).
  - eexists _, tr. split; [reflexivity|]. split; [reflexivity|exact Hrun].
  - eexists _, tr. split; [reflexivity|]. split; [reflexivity|exact Hrun].
  - eexists _, tr. split; [reflexivity|]. split; [reflexivity|exact Hrun].
  - exfalso. eapply Hnot; [|exact Hrun]. unfold app_stop, shell. cbv zeta. observe_nothing.
  - exfalso. destruct sh; (eapply Hnot; [|exact Hrun]); unfold shell; observe_nothing.
Qed.

(** A run of [main] that observes is the orchestration of a device
    action, after the conversion of the coordinates, if any. *)
Lemma main_runs_action (tr : trace) (r : result Z) (tr' : trace) :
  main env args tr = (r, tr') ->
  observations tr' <> observations tr ->
  exists action before,
    is_device_action env args action
    /\ observations before = []
    /\ execute_with_auto_view env args action (tr ++ before) = (r, tr').
Proof.
  intros Hrun Hobs. unfold main in Hrun.
  pose proof (quiet_run env) as Hqr.
  pose proof (quiet__print_result) as Hqp.
  assert (Hsc : forall x y, silent is_observation
                              (convert_coordinates_if_needed env args x y)).
  { intros x y. apply silent_convert_coordinates_if_needed.
    - intros c _. reflexivity.
    - intros m _. reflexivity.
    - intros p. split; reflexivity. }
  assert (Hnot : forall c : io Z, quiet c -> c tr = (r, tr') -> False).
  { intros c Hc H. exact (quiet_silent c tr r tr' Hc H Hobs). }
  destruct (PyFloat.int_gt 0 (a_wait args)).
  { exfalso. eapply Hnot; [|exact Hrun]. observe_nothing. }
  destruct (PyFloat.gt_int (a_wait args) 60).
  { exfalso. eapply Hnot; [|exact Hrun]. observe_nothing. }
  match type of Hrun with (if ?b then _ else _) _ = _ => destruct b end.
  { exfalso. eapply Hnot; [|exact Hrun]. observe_nothing. }
  unfold is_device_action.
  destruct (a_command args) as [| |x y rel|x1 y1 x2 y2 d rel|k|t|name|name|sh].
  - exfalso. eapply Hnot; [|exact Hrun]. unfold connect. observe_nothing.
  - exfalso. eapply Hnot; [|exact Hrun]. unfold devices. observe_nothing.
  - unfold iobind in Hrun.
    destruct (convert_coordinates_if_needed env args x y tr) as [[[ax ay]|e] tr0] eqn:Hc;
      destruct (Hsc _ _ _ _ _ Hc) as (new & -> & Hnew);
      pose proof (observations_filter _ Hnew) as Hnone.
    + exists (tap env (mkAdbClient (a_adb args) (a_device args) (a_timeout args)) ax ay),
        new.
      split; [eauto|]. split; [exact Hnone|exact Hrun].
    + exfalso. injection Hrun as _ <-. apply Hobs.
      rewrite observations_app, Hnone. apply app_nil_r.
  - unfold iobind in Hrun.
    destruct (convert_coordinates_if_needed env args x1 y1 tr)
      as [[[ax1 ay1]|e] tr0] eqn:Hc1;
      destruct (Hsc _ _ _ _ _ Hc1) as (new1 & -> & Hnew1);
      pose proof (observations_filter _ Hnew1) as Hnone1.
    2:{ exfalso. injection Hrun as _ <-. apply Hobs.
        rewrite observations_app, Hnone1. apply app_nil_r. }
    destruct (convert_coordinates_if_needed env args x2 y2 (tr ++ new1))
      as [[[ax2 ay2]|e] tr1] eqn:Hc2;
      destruct (Hsc _ _ _ _ _ Hc2) as (new2 & -> & Hnew2);
      pose proof (observations_filter _ Hnew2) as Hnone2.
    2:{ exfalso. injection Hrun as _ <-. apply Hobs.
        rewrite !observations_app, Hnone1, Hnone2, !app_nil_r. reflexivity. }
    exists (swipe env (mkAdbClient (a_adb args) (a_device args) (a_timeout args))
              ax1 ay1 ax2 ay2 d), (new1 ++ new2).
    split; [eauto|]. split; [|rewrite app_assoc; exact Hrun].
    rewrite observations_app, Hnone1, Hnone2. reflexivity.
  - eexists _, []. rewrite app_nil_r. split; [reflexivity|]. split; [reflexivity|exact Hrun].
  - eexists _, []. rewrite app_nil_r. split; [reflexivity|]. split; [reflexivity|exact Hrun].
  - eexists _, []. rewrite app_nil_r. split; [reflexivity|]. split; [reflexivity|exact Hrun].
  - exfalso. eapply Hnot; [|exact Hrun]. unfold app_stop, shell. cbv zeta. observe_nothing.
  - exfalso. destruct sh; (eapply Hnot; [|exact Hrun]); unfold shell; observe_nothing.
Qed.

End MainRuns.

(** C6: a run of [main] observes the screen only if auto-view is
    enabled, the command is one of tap, swipe, key, text and app, hence
    none of connect, devices, stop and shell, and the run is the
    orchestration of a device action that returned a successful result
    before anything was observed; and where the action that
    [execute_with_auto_view] runs fails, by a failed result or by an
    exception, nothing is observed. *)
Theorem observation_requires_successful_mutation :
  (forall env args tr r tr',
      main env args tr = (r, tr') ->
      observations tr' <> observations tr ->
      a_auto_view args = true
      /\ In (cmd (a_command args)) auto_view_commands
      /\ ~ In (cmd (a_command args)) [u "connect"; u "devices"; u "stop"; u "shell"]
      /\ exists action before result tr1 after,
          is_device_action env args action
          /\ observations before = []
          /\ execute_with_auto_view env args action (tr ++ before) = (r, tr')
          /\ action ((tr ++ before) ++ [EvClock (time_time env (tr ++ before))])
             = (Ok result, tr1)
          /\ ok result = true
          /\ observations tr1 = observations tr
          /\ tr' = tr1 ++ after)
  /\ (forall env args action tr res tr1,
         is_device_action env args action ->
         action (tr ++ [EvClock (time_time env tr)]) = (res, tr1) ->
         (forall result, res = Ok result -> ok result = false) ->
         observations (snd (execute_with_auto_view env args action tr))
         = observations tr).
Proof.
  split.
  - intros env args tr r tr' Hrun Hobs.
    destruct (main_runs_action env args tr r tr' Hrun Hobs)
      as (action & before & Hact & Hbefore & Hex).
    assert (Htr0 : observations (tr ++ before) = observations tr)
      by (rewrite observations_app, Hbefore; apply app_nil_r).
    rewrite <- Htr0 in Hobs.
    pose proof (quiet_device_action env args action Hact) as Hq.
    destruct (execute_with_auto_view_observing env args action (tr ++ before) r tr'
                Hq Hex Hobs)
      as (Hav & _ & result & tr1 & Hcmd & Hok & budget & rest & _ & Htr' & _).
    split; [exact Hav|].
    assert (Hcmdname : In (cmd (a_command args)) auto_view_commands
                       /\ ~ In (cmd (a_command args))
                            [u "connect"; u "devices"; u "stop"; u "shell"]).
    { unfold is_device_action in Hact.
      destruct (a_command args); try contradiction;
        (split; [cbn; tauto|]);
        intros [H|[H|[H|[H|[]]]]]; vm_compute in H; discriminate. }
    destruct Hcmdname as [H1 H2]. split; [exact H1|]. split; [exact H2|].
    exists action, before, result, tr1.
    assert (Hafter : exists after, tr' = tr1 ++ after).
    { rewrite Htr'. destruct (PyFloat.gt_int (a_wait args) 0);
        rewrite <- ?app_assoc; eexists; reflexivity. }
    destruct Hafter as (after & Hafter). exists after.
    split; [exact Hact|]. split; [exact Hbefore|]. split; [exact Hex|].
    split; [exact Hcmd|]. split; [exact Hok|]. split; [|exact Hafter].
    rewrite (Hq _ _ _ Hcmd), observations_snoc by discriminate. exact Htr0.
  - intros env args action tr res tr1 Hact.
    apply execute_with_auto_view_failed.
    apply (quiet_device_action env args action Hact).
Qed.

(** C5: in a run of [main] that observes, the clock is read when the
    action starts and again after the wait, and the observation is given
    the budget of the specification for the difference of the two
    readings, [max(10, timeout - elapsed)] in whole seconds: it is at
    least 10, and where the time elapsed is a number of ticks of the
    clock and the timeout is below 2^30 seconds it is exactly the whole
    seconds of that maximum.  With a timeout of 30 and 3 seconds elapsed
    that is 27, where subtracting the wait of 1.5 again would give 25. *)
Theorem observation_budget_is_recomputed :
  (forall env args tr r tr',
      main env args tr = (r, tr') ->
      observations tr' <> observations tr ->
      exists action tr0 result tr1,
        is_device_action env args action
        /\ observations tr0 = observations tr
        /\ let start_time := time_time env tr0 in
           action (tr0 ++ [EvClock start_time]) = (Ok result, tr1)
           /\ let tr2 := if PyFloat.gt_int (a_wait args) 0
                         then tr1 ++ [EvSleep (a_wait args)] else tr1 in
              let now := time_time env tr2 in
              let elapsed := PyFloat.sub now start_time in
              exists budget rest,
                observation_budget (a_timeout args) elapsed = Ok budget
                /\ 10 <= budget
                /\ (forall n,
                       0 < a_timeout args < 2 ^ 30 ->
                       ticks elapsed n -> Z.abs n < 2 ^ 52 ->
                       budget = exact_budget (a_timeout args) n)
                /\ tr' = tr2 ++ [EvClock now;
                                 EvAutoView (describe_command env (a_adb args)
                                               (a_device args) budget (a_json args))
                                            (budget + 10)]
                             ++ rest
                /\ observations rest = [])
  /\ observation_budget 30 float_3 = Ok 27
  /\ ticks float_3 (3 * 2 ^ 22)
  /\ exact_budget 30 (3 * 2 ^ 22) = 27
  /\ twice_subtracted_budget 30 float_3 float_1_5 = Ok 25.
Proof.
  split; [|split; [vm_compute; reflexivity|
           split; [split; [discriminate|reflexivity]|
           split; vm_compute; reflexivity]]].
  intros env args tr r tr' Hrun Hobs.
  destruct (main_observing env args tr r tr' Hrun Hobs) as (action & tr0 & Hact & Htr0 & Hex).
  rewrite <- Htr0 in Hobs.
  destruct (execute_with_auto_view_observing env args action tr0 r tr'
              (quiet_device_action env args action Hact) Hex Hobs)
    as (_ & _ & result & tr1 & Hcmd & _ & budget & rest & Hb & Htr' & Hrest & _).
  exists action, tr0, result, tr1. split; [exact Hact|]. split; [exact Htr0|].
  split; [exact Hcmd|].
  exists budget, rest. split; [exact Hb|].
  split; [apply (observation_budget_floor _ _ _ Hb)|]. split; [|split; assumption].
  intros n HT Hticks Hn.
  rewrite (observation_budget_exact _ n _ HT Hticks Hn) in Hb.
  injection Hb as <-. reflexivity.
Qed.

Lemma _auto_view_screen_suggests_twice_the_budget
  (env : environment) (adb device : str) (timeout : Z) (tr : trace)
  (d : auto_view_dict) (tr' : trace) (n : Z) :
  _auto_view_screen env adb device timeout true tr = (Ok (AvDict d), tr') ->
  av_suggested_timeout d = Some (Some n) ->
  n = timeout * 2.
Proof.
  unfold _auto_view_screen.
  destruct (subprocess_run_view env tr _ (timeout + 10)) as [code out err|out err|e].
  - destruct (code =? 0).
    + destruct (json_loads env out) as [[]|]; intros [= <- _]; discriminate.
    + intros [= <- _]. cbn [av_suggested_timeout].
      match goal with |- context [if ?b then _ else _] => destruct b end;
        [intros [= <-]; reflexivity|discriminate].
  - intros [= <- _]. cbn. intros [= <-]. reflexivity.
  - destruct e; intros [= <- _]; discriminate.
Qed.

(** C7: with a timeout of 30, of which 3 seconds have elapsed when the
    observation starts and times out, the action is reported as
    successful and the retry timeout suggested, on either stream, is 54:
    twice the remaining budget of 27, not twice the configured 30. *)
Theorem suggestion_doubles_the_remaining_budget :
  exit_status (fst (main slow_model (press_home true) [])) = 0
  /\ a_timeout (press_home true) = 30
  /\ surfaced_suggestions (snd (main slow_model (press_home true) [])) = [54]
  /\ surfaced_suggestions (snd (main slow_model (press_home false) [])) = [54].
Proof. repeat split; vm_compute; reflexivity. Qed.

Lemma observation_requires_successful_mutation_witness :
  a_auto_view (press_home true) = true
  /\ In (cmd (a_command (press_home true))) auto_view_commands
  /\ ~ In (cmd (a_command (press_home true)))
       [u "connect"; u "devices"; u "stop"; u "shell"]
  /\ exists action before result tr1 after,
      is_device_action slow_model (press_home true) action
      /\ observations before = []
      /\ execute_with_auto_view slow_model (press_home true) action ([] ++ before)
         = (fst (main slow_model (press_home true) []),
            snd (main slow_model (press_home true) []))
      /\ action (([] ++ before) ++ [EvClock (time_time slow_model ([] ++ before))])
         = (Ok result, tr1)
      /\ ok result = true
      /\ observations tr1 = observations []
      /\ snd (main slow_model (press_home true) []) = tr1 ++ after.
Proof.
  apply (proj1 observation_requires_successful_mutation slow_model (press_home true) []
           (fst (main slow_model (press_home true) []))
           (snd (main slow_model (press_home true) []))).
  - apply surjective_pairing.
  - vm_compute. discriminate.
Defined.

Lemma observation_budget_is_recomputed_witness :
  exists action tr0 result tr1,
    is_device_action slow_model (press_home true) action
    /\ observations tr0 = observations []
    /\ let start_time := time_time slow_model tr0 in
       action (tr0 ++ [EvClock start_time]) = (Ok result, tr1)
       /\ let tr2 := if PyFloat.gt_int (a_wait (press_home true)) 0
                     then tr1 ++ [EvSleep (a_wait (press_home true))] else tr1 in
          let now := time_time slow_model tr2 in
          let elapsed := PyFloat.sub now start_time in
          exists budget rest,
            observation_budget (a_timeout (press_home true)) elapsed = Ok budget
            /\ 10 <= budget
            /\ (forall n,
                   0 < a_timeout (press_home true) < 2 ^ 30 ->
                   ticks elapsed n -> Z.abs n < 2 ^ 52 ->
                   budget = exact_budget (a_timeout (press_home true)) n)
            /\ snd (main slow_model (press_home true) [])
               = tr2 ++ [EvClock now;
                         EvAutoView (describe_command slow_model
                                       (a_adb (press_home true))
                                       (a_device (press_home true)) budget
                                       (a_json (press_home true)))
                                    (budget + 10)]
                     ++ rest
            /\ observations rest = [].
Proof.
  apply (proj1 observation_budget_is_recomputed slow_model (press_home true) []
           (fst (main slow_model (press_home true) []))
           (snd (main slow_model (press_home true) []))).
  - apply surjective_pairing.
  - vm_compute. discriminate.
Defined.

(** * Further properties *)

(** * Further properties *)

(** ** Text for [adb shell input text] *)

Lemma replace_flat_map (old : Z) (new : str) (f : Z -> str) (s : str) :
  replace old new (flat_map f s) = flat_map (fun c => replace old new (f c)) s.
Proof.
  unfold replace. induction s as [|c s IH]; [reflexivity|].
  cbn [flat_map]. rewrite flat_map_app, IH. reflexivity.
Qed.

Lemma replace_as_flat_map (old : Z) (new : str) (s : str) :
  replace old new s = replace old new (flat_map (fun c => [c]) s).
Proof.
  f_equal. induction s as [|c s IH]; [reflexivity|]. cbn. f_equal. exact IH.
Qed.

Ltac split_code_point c :=
  destruct (Z.eqb_spec c 37); [subst; reflexivity|];
  destruct (Z.eqb_spec c 32); [subst; reflexivity|];
  destruct (Z.eqb_spec c 10); [subst; reflexivity|];
  destruct (Z.eqb_spec c 9); [subst; reflexivity|];
  destruct (Z.eqb_spec c 38); [subst; reflexivity|];
  destruct (Z.eqb_spec c 60); [subst; reflexivity|];
  destruct (Z.eqb_spec c 62); [subst; reflexivity|];
  destruct (Z.eqb_spec c 34); [subst; reflexivity|];
  destruct (Z.eqb_spec c 39); [subst; reflexivity|].

(** The nine replacements never meet each other's output: together they
    recode the text one code point at a time. *)
Lemma _encode_adb_text_flat_map (text : str) :
  _encode_adb_text text = flat_map encode_char text.
Proof.
  unfold _encode_adb_text.
  rewrite (replace_as_flat_map 37). rewrite !replace_flat_map.
  apply flat_map_ext. intros c. unfold encode_char, newline.
  split_code_point c.
  unfold replace.
  repeat (cbn [flat_map app]; rewrite (proj2 (Z.eqb_neq c _)) by assumption).
  reflexivity.
Qed.
Lemma encode_char_other (c : Z) :
  c <> 37 -> c <> 32 -> c <> 10 -> c <> 9 -> c <> 38 -> c <> 60 -> c <> 62 ->
  c <> 34 -> c <> 39 -> encode_char c = [c].
Proof.
  intros. unfold encode_char, newline.
  repeat rewrite (proj2 (Z.eqb_neq c _)) by assumption. reflexivity.
Qed.

(** Every code point is one of the nine that are recoded, or is written as
    it is. *)
Ltac classify c :=
  let known k :=
    let v := eval vm_compute in (encode_char k) in
    change (encode_char k) with v in * in
  destruct (Z.eq_dec c 37); [subst c; known 37|];
  [|destruct (Z.eq_dec c 32); [subst c; known 32|]];
  [| |destruct (Z.eq_dec c 10); [subst c; known 10|]];
  [| | |destruct (Z.eq_dec c 9); [subst c; known 9|]];
  [| | | |destruct (Z.eq_dec c 38); [subst c; known 38|]];
  [| | | | |destruct (Z.eq_dec c 60); [subst c; known 60|]];
  [| | | | | |destruct (Z.eq_dec c 62); [subst c; known 62|]];
  [| | | | | | |destruct (Z.eq_dec c 34); [subst c; known 34|]];
  [| | | | | | | |destruct (Z.eq_dec c 39); [subst c; known 39|]];
  [| | | | | | | | |rewrite (encode_char_other c) in * by assumption].

(** The recoded text never starts with a code point that is escaped. *)
Lemma encode_head (s : str) (c : Z) (r : str) :
  flat_map encode_char s = c :: r ->
  c <> 32 /\ c <> 10 /\ c <> 9 /\ c <> 38 /\ c <> 60 /\ c <> 62 /\ c <> 34
  /\ c <> 39.
Proof.
  destruct s as [|x s]; [discriminate|]. cbn [flat_map].
  classify x; cbn [app]; intros [= <- _]; lia.
Qed.

Lemma cons_eq_inv {A} (x y : A) (l l' : list A) :
  x :: l = y :: l' -> x = y /\ l = l'.
Proof. intros [= -> ->]. split; reflexivity. Qed.

Lemma flat_map_encode_char_injective (a b : str) :
  flat_map encode_char a = flat_map encode_char b -> a = b.
Proof.
  revert b. induction a as [|x a IH]; intros [|y b] H.
  - reflexivity.
  - exfalso. cbn [flat_map] in H. classify y; discriminate.
  - exfalso. cbn [flat_map] in H. classify x; discriminate.
  - cbn [flat_map] in H.
    classify x; classify y; cbn [app] in H;
      repeat (let E := fresh "E" in
              apply cons_eq_inv in H; destruct H as [E H]; try (exfalso; lia));
      first [ exfalso; lia
            | exfalso; apply encode_head in H; lia
            | exfalso; symmetry in H; apply encode_head in H; lia
            | f_equal; first [lia|apply IH; exact H] ].
Qed.
(** X1: [_encode_adb_text] loses nothing: two different texts are never
    encoded alike. *)
Theorem _encode_adb_text_injective (a b : str) :
  a <> b -> _encode_adb_text a <> _encode_adb_text b.
Proof.
  intros Hab H. apply Hab. rewrite !_encode_adb_text_flat_map in H.
  apply flat_map_encode_char_injective. exact H.
Qed.

Lemma _encode_adb_text_injective_witness :
  _encode_adb_text (u "50% off") <> _encode_adb_text (u "50%soff").
Proof.
  apply (_encode_adb_text_injective (u "50% off") (u "50%soff")).
  vm_compute. discriminate.
Defined.

Lemma guarded_encode (s : str) (prev : Z) : guarded prev (flat_map encode_char s).
Proof.
  revert prev. induction s as [|x s IH]; intros prev; [exact I|].
  cbn [flat_map].
  classify x; cbn [app guarded In];
    repeat split; try apply IH; intros; lia.
Qed.

(** X2: the text [_encode_adb_text] returns holds no space, no line break
    and no tab, and each of its ampersands, angle brackets and quotes,
    single or double, comes right after a backslash. *)
Theorem _encode_adb_text_escapes (text : str) :
  Forall (fun c => c <> 32 /\ c <> 10 /\ c <> 9) (_encode_adb_text text)
  /\ guarded 0 (_encode_adb_text text).
Proof.
  rewrite _encode_adb_text_flat_map. split; [|apply guarded_encode].
  induction text as [|x s IH]; [constructor|].
  cbn [flat_map]. apply Forall_app. split; [|exact IH].
  classify x; repeat constructor; lia.
Qed.

Lemma replace_absent (old : Z) (new s : str) :
  Forall (fun c => c <> old) s -> replace old new s = s.
Proof.
  unfold replace. induction 1 as [|c s Hc _ IH]; [reflexivity|].
  cbn [flat_map]. rewrite (proj2 (Z.eqb_neq c old)) by assumption.
  cbn [app]. f_equal. exact IH.
Qed.

Lemma replace_app (old : Z) (new a b : str) :
  replace old new (a ++ b) = replace old new a ++ replace old new b.
Proof. unfold replace. apply flat_map_app. Qed.

(** X3: [encode_text_for_adb] of [chinese_input.py] is [_encode_adb_text]
    applied after the spaces were turned into [%s]; the percent sign so
    brought in is then encoded itself, and a space comes out like the two
    characters [%s]. *)
Theorem encode_text_for_adb_confuses_spaces :
  (forall text,
      encode_text_for_adb text = _encode_adb_text (replace 32 (u "%s") text))
  /\ (forall a b,
         encode_text_for_adb (a ++ 32 :: b) = encode_text_for_adb (a ++ u "%s" ++ b)).
Proof.
  assert (H : forall text,
             encode_text_for_adb text = _encode_adb_text (replace 32 (u "%s") text)).
  { intros text. unfold encode_text_for_adb, _encode_adb_text. cbv zeta.
    do 7 f_equal. symmetry. apply replace_absent.
    rewrite (replace_as_flat_map 32), !replace_flat_map.
    induction text as [|c s IH]; [constructor|].
    cbn [flat_map]. apply Forall_app. split; [|exact IH].
    destruct (Z.eq_dec c 32) as [->|H32].
    { vm_compute. repeat apply Forall_cons; try apply Forall_nil; lia. }
    unfold replace. cbn [flat_map app].
    rewrite (proj2 (Z.eqb_neq c 32)) by assumption. cbn [flat_map app].
    destruct (c =? 37).
    - vm_compute. repeat apply Forall_cons; try apply Forall_nil; lia.
    - repeat apply Forall_cons; try apply Forall_nil; lia. }
  split; [exact H|].
  intros a b. rewrite !H. f_equal.
  rewrite !replace_app. f_equal.
Qed.

(** ** The mapper *)

Lemma scale_absolute_floor (pix W : Z) :
  0 <= pix < W -> W < 2 ^ 40 ->
  scale_absolute pix W = Ok (pix * 1000 / W) /\ 0 <= pix * 1000 / W <= 999.
Proof.
  intros Hpix HW. split; [apply scale_absolute_exact; assumption|].
  split; [apply Z.div_pos; lia|].
  assert (pix * 1000 / W < 1000); [|lia].
  apply Z.div_lt_upper_bound; lia.
Qed.

(** X4: on a screen of less than 2^40 pixels in each dimension,
    [convert_absolute_to_relative] clamps the pixel to the screen and
    returns exactly the floor of [pixel * 1000 / size]: multiplying before
    dividing leaves no rounding error, and the result is in [0,999]. *)
Theorem convert_absolute_to_relative_floor (abs_x abs_y W H : Z) :
  0 < W < 2 ^ 40 -> 0 < H < 2 ^ 40 ->
  exists rel_x rel_y,
    convert_absolute_to_relative abs_x abs_y W H = Ok (rel_x, rel_y)
    /\ rel_x = Z.max 0 (Z.min (W - 1) abs_x) * 1000 / W
    /\ rel_y = Z.max 0 (Z.min (H - 1) abs_y) * 1000 / H
    /\ 0 <= rel_x <= 999 /\ 0 <= rel_y <= 999.
Proof.
  intros HW HH. unfold convert_absolute_to_relative.
  destruct (scale_absolute_floor (Z.max 0 (Z.min (W - 1) abs_x)) W) as [Hx Hbx];
    [lia|lia|].
  destruct (scale_absolute_floor (Z.max 0 (Z.min (H - 1) abs_y)) H) as [Hy Hby];
    [lia|lia|].
  rewrite Hx, Hy. cbn [bind]. eexists _, _. repeat split; lia.
Qed.

Lemma convert_absolute_to_relative_floor_witness :
  exists rel_x rel_y,
    convert_absolute_to_relative 540 2400 1080 2400 = Ok (rel_x, rel_y)
    /\ rel_x = Z.max 0 (Z.min (1080 - 1) 540) * 1000 / 1080
    /\ rel_y = Z.max 0 (Z.min (2400 - 1) 2400) * 1000 / 2400
    /\ 0 <= rel_x <= 999 /\ 0 <= rel_y <= 999.
Proof.
  apply (convert_absolute_to_relative_floor 540 2400 1080 2400);
    vm_compute; split; congruence.
Defined.

(** X5: on a screen of less than 2^40 pixels in each dimension,
    [convert_relative_to_absolute] returns, whatever the relative
    coordinates, a pixel of the screen, and each component is the floor of
    [clamped relative * size / 1000] or one below it. *)
Theorem convert_relative_to_absolute_on_screen (rel_x rel_y W H : Z) :
  0 < W < 2 ^ 40 -> 0 < H < 2 ^ 40 ->
  exists abs_x abs_y,
    convert_relative_to_absolute rel_x rel_y W H = Ok (abs_x, abs_y)
    /\ 0 <= abs_x < W /\ 0 <= abs_y < H
    /\ Z.max 0 (Z.min 999 rel_x) * W / 1000 - 1 <= abs_x
       <= Z.max 0 (Z.min 999 rel_x) * W / 1000
    /\ Z.max 0 (Z.min 999 rel_y) * H / 1000 - 1 <= abs_y
       <= Z.max 0 (Z.min 999 rel_y) * H / 1000.
Proof.
  intros HW HH.
  destruct (convert_relative_to_absolute_in_screen rel_x rel_y W H HW HH)
    as (ax & ay & Heq & Hx & Hy & Hfx & Hfy).
  exists ax, ay. cbn [relativeToAbsolute_floor fst snd] in Hfx, Hfy.
  repeat split; try assumption; lia.
Qed.

Lemma convert_relative_to_absolute_on_screen_witness :
  exists abs_x abs_y,
    convert_relative_to_absolute 1500 (-3) 720 1280 = Ok (abs_x, abs_y)
    /\ 0 <= abs_x < 720 /\ 0 <= abs_y < 1280
    /\ Z.max 0 (Z.min 999 1500) * 720 / 1000 - 1 <= abs_x
       <= Z.max 0 (Z.min 999 1500) * 720 / 1000
    /\ Z.max 0 (Z.min 999 (-3)) * 1280 / 1000 - 1 <= abs_y
       <= Z.max 0 (Z.min 999 (-3)) * 1280 / 1000.
Proof.
  apply (convert_relative_to_absolute_on_screen 1500 (-3) 720 1280);
    vm_compute; split; congruence.
Defined.
Lemma scale_relative_monotone (rel1 rel2 W : Z) :
  0 <= rel1 <= rel2 -> rel2 <= 999 -> 0 < W < 2 ^ 40 ->
  exists a1 a2,
    scale_relative rel1 W = Ok a1 /\ scale_relative rel2 W = Ok a2 /\ a1 <= a2.
Proof.
  intros Hrel H999 HW.
  destruct (scale_relative_spec rel1 W ltac:(lia) HW) as (a1 & H1 & _ & Hlo1 & Hhi1).
  destruct (scale_relative_spec rel2 W ltac:(lia) HW) as (a2 & H2 & _ & Hlo2 & Hhi2).
  exists a1, a2. split; [exact H1|]. split; [exact H2|].
  destruct (Z_le_gt_dec a1 a2) as [Hle|Hgt]; [exact Hle|exfalso].
  assert (Hmono : rel1 * W <= rel2 * W) by (apply Z.mul_le_mono_nonneg_r; lia).
  assert (Heq : rel1 * W = rel2 * W) by lia.
  apply Z.mul_reg_r in Heq; [|lia]. subst rel2.
  rewrite H1 in H2. injection H2 as ->. lia.
Qed.

(** X6: on a screen of less than 2^40 pixels in each dimension,
    [convert_relative_to_absolute] is monotone: relative coordinates
    further right or further down never give a pixel further left or
    further up, the rounding of the quotient notwithstanding. *)
Theorem convert_relative_to_absolute_monotone (x1 y1 x2 y2 W H : Z) :
  0 < W < 2 ^ 40 -> 0 < H < 2 ^ 40 -> x1 <= x2 -> y1 <= y2 ->
  exists a1 b1 a2 b2,
    convert_relative_to_absolute x1 y1 W H = Ok (a1, b1)
    /\ convert_relative_to_absolute x2 y2 W H = Ok (a2, b2)
    /\ a1 <= a2 /\ b1 <= b2.
Proof.
  intros HW HH Hx Hy. unfold convert_relative_to_absolute.
  destruct (scale_relative_monotone (Z.max 0 (Z.min 999 x1)) (Z.max 0 (Z.min 999 x2)) W)
    as (a1 & a2 & Ha1 & Ha2 & Ha); [lia|lia|exact HW|].
  destruct (scale_relative_monotone (Z.max 0 (Z.min 999 y1)) (Z.max 0 (Z.min 999 y2)) H)
    as (b1 & b2 & Hb1 & Hb2 & Hb); [lia|lia|exact HH|].
  exists a1, b1, a2, b2. rewrite Ha1, Ha2, Hb1, Hb2. cbn [bind]. auto.
Qed.

Lemma convert_relative_to_absolute_monotone_witness :
  exists a1 b1 a2 b2,
    convert_relative_to_absolute 204 204 1080 2400 = Ok (a1, b1)
    /\ convert_relative_to_absolute 205 205 1080 2400 = Ok (a2, b2)
    /\ a1 <= a2 /\ b1 <= b2.
Proof.
  apply (convert_relative_to_absolute_monotone 204 204 205 205 1080 2400);
    vm_compute; try split; congruence.
Defined.

(** ** The extractors *)

Section Extractors.

Variable info : screen_info.

(** X7: when [parse_relative_coordinates_from_text] returns, it returns
    one element for each title line of the description, in the order of
    the lines, with the description and the priority read off that line;
    the lines in between change neither. *)
Theorem parse_relative_coordinates_from_text_titles
  (description : str) (els : list element) :
  parse_relative_coordinates_from_text description info = Ok els ->
  map title els
  = map element_title (filter is_title_line (split newline description)).
Proof.
  intros H.
  destruct (parse_relative_coordinates_from_text_pending info _ _ H) as (st & Hst & ->).
  apply (parse_lines_titles info _ _ _ Hst).
Qed.

End Extractors.
Lemma parse_relative_coordinates_from_text_titles_witness :
  map title
    [mkElement (u "搜索框") (u "unknown") (u "high") (Some (500, 150))
       (Some (540, 360))
       (Some (u "python3 scripts/phone_control.py tap --relative 500 150"));
     mkElement (u "Trending标签") (u "unknown") (u "medium") None None None]
  = map element_title (filter is_title_line (split newline narrative_example)).
Proof.
  apply (parse_relative_coordinates_from_text_titles full_hd narrative_example).
  vm_compute. reflexivity.
Defined.

Section ExtractorInvariants.

Variable info : screen_info.

Lemma parse_line_linked (els : list element) (cur : option element) (line : str)
  (st : list element * option element) :
  Forall (linked info) els ->
  (forall e, cur = Some e -> linked info e) ->
  parse_line info (els, cur) line = Ok st ->
  Forall (linked info) (fst st) /\ (forall e, snd st = Some e -> linked info e).
Proof.
  intros Hels Hcur. unfold parse_line.
  destruct (is_title_line line).
  - intros [= <-]. cbn [fst snd]. split.
    + destruct cur as [e|]; [|exact Hels].
      apply Forall_app. split; [exact Hels|]. constructor; [|constructor].
      apply Hcur. reflexivity.
    + intros e [= <-]. exact I.
  - destruct cur as [e|].
    2:{ intros [= <-]. cbn. split; [exact Hels|discriminate]. }
    pose proof (Hcur e eq_refl) as He.
    assert (Hsame : Forall (linked info) (fst (els, Some e))
                    /\ (forall e0, snd (els, Some e) = Some e0 -> linked info e0)).
    { cbn. split; [exact Hels|]. intros e0 [= <-]. exact He. }
    destruct (contains rel_coord_marker line).
    { destruct (search rel_coord_pattern line); [|intros [= <-]; exact Hsame].
      destruct (two_ints l) as [[rx ry]|x]; cbn [bind]; [|discriminate].
      destruct (convert_relative_to_absolute rx ry (width info) (height info))
        as [[ax ay]|x] eqn:Hconv; cbn [bind]; [|discriminate].
      intros [= <-]. cbn. split; [exact Hels|]. intros e0 [= <-].
      left. exact Hconv. }
    destruct (contains abs_coord_marker line
              && match e_coordinates e with None => true | Some _ => false end).
    { destruct (search abs_coord_pattern line); [|intros [= <-]; exact Hsame].
      destruct (two_ints l) as [[ax ay]|x]; cbn [bind]; [|discriminate].
      destruct (convert_absolute_to_relative ax ay (width info) (height info))
        as [[rx ry]|x] eqn:Hconv; cbn [bind]; [|discriminate].
      intros [= <-]. cbn. split; [exact Hels|]. intros e0 [= <-].
      right. exact Hconv. }
    destruct (contains command_marker line); [|intros [= <-]; exact Hsame].
    destruct (search_command line); intros [= <-]; [|exact Hsame].
    cbn. split; [exact Hels|]. intros e0 [= <-]. exact He.
Qed.

Lemma parse_lines_linked (lines : list str) :
  forall els cur st,
    Forall (linked info) els ->
    (forall e, cur = Some e -> linked info e) ->
    parse_lines info (els, cur) lines = Ok st ->
    Forall (linked info) (pending st).
Proof.
  induction lines as [|line lines IH]; intros els cur st Hels Hcur H.
  - injection H as <-. unfold pending. cbn [fst snd]. apply Forall_app.
    split; [exact Hels|]. destruct cur as [e|]; [|constructor].
    constructor; [apply Hcur; reflexivity|constructor].
  - cbn [parse_lines] in H.
    destruct (parse_line info (els, cur) line) as [[els1 cur1]|x] eqn:H1;
      cbn [bind] in H; [|discriminate].
    destruct (parse_line_linked els cur line _ Hels Hcur H1) as [Hels1 Hcur1].
    apply (IH els1 cur1 st Hels1 Hcur1 H).
Qed.

(** X8: in every element [parse_relative_coordinates_from_text] returns,
    the two coordinate keys are linked by the mapper: the absolute
    coordinates are [convert_relative_to_absolute] of the relative ones,
    or the relative ones are [convert_absolute_to_relative] of the
    absolute ones, on the screen given; or both keys are absent. *)
Theorem parse_relative_coordinates_from_text_linked
  (description : str) (els : list element) :
  parse_relative_coordinates_from_text description info = Ok els ->
  Forall (linked info) els.
Proof.
  intros H.
  destruct (parse_relative_coordinates_from_text_pending _ _ _ H) as (st & Hst & ->).
  apply (parse_lines_linked (split newline description) [] None st);
    [constructor|discriminate|exact Hst].
Qed.

Lemma split_nonempty (sep : Z) (s : str) : split sep s <> [].
Proof.
  destruct s as [|c s]; cbn [split]; [discriminate|].
  destruct (c =? sep); [discriminate|]. destruct (split sep s); discriminate.
Qed.

Lemma split_app (sep : Z) (a b : str) :
  split sep (a ++ sep :: b) = split sep a ++ split sep b.
Proof.
  induction a as [|c a IH].
  - cbn [app split]. rewrite Z.eqb_refl. reflexivity.
  - cbn [app split]. destruct (c =? sep); [rewrite IH; reflexivity|].
    rewrite IH. pose proof (split_nonempty sep a) as Hne.
    destruct (split sep a) as [|l ls]; [contradiction|]. reflexivity.
Qed.

Lemma parse_lines_append (st : list element * option element) (l1 l2 : list str) :
  parse_lines info st (l1 ++ l2)
  = (st1 <- parse_lines info st l1 ;; parse_lines info st1 l2).
Proof.
  revert st. induction l1 as [|l l1 IH]; intros st; [reflexivity|].
  cbn [app parse_lines].
  destruct (parse_line info st l) as [st'|x]; cbn [bind]; [apply IH|reflexivity].
Qed.

Lemma parse_lines_preamble (lines : list str) :
  Forall (fun l => is_title_line l = false) lines ->
  parse_lines info ([], None) lines = Ok ([], None).
Proof.
  induction 1 as [|l lines Hl _ IH]; [reflexivity|].
  cbn [parse_lines]. unfold parse_line at 1. rewrite Hl. cbn [bind]. exact IH.
Qed.

(** X9: what precedes the first title line is ignored by
    [parse_relative_coordinates_from_text], coordinates and commands
    included: the lines of a description before its first title line can
    be dropped without changing the result. *)
Theorem parse_relative_coordinates_from_text_preamble (pre rest : str) :
  Forall (fun l => is_title_line l = false) (split newline pre) ->
  parse_relative_coordinates_from_text (pre ++ newline :: rest) info
  = parse_relative_coordinates_from_text rest info.
Proof.
  intros Hpre. unfold parse_relative_coordinates_from_text.
  rewrite split_app, parse_lines_append, (parse_lines_preamble _ Hpre).
  reflexivity.
Qed.

End ExtractorInvariants.

Lemma not_title_lines (lines : list str) :
  forallb (fun l => negb (is_title_line l)) lines = true ->
  Forall (fun l => is_title_line l = false) lines.
Proof.
  intros H. apply Forall_forall. intros l Hl.
  rewrite forallb_forall in H. apply negb_true_iff, H, Hl.
Qed.

Lemma parse_relative_coordinates_from_text_linked_witness :
  Forall (linked full_hd)
    [mkElement (u "搜索框") (u "unknown") (u "high") (Some (500, 150))
       (Some (540, 360))
       (Some (u "python3 scripts/phone_control.py tap --relative 500 150"));
     mkElement (u "Trending标签") (u "unknown") (u "medium") None None None].
Proof.
  apply (parse_relative_coordinates_from_text_linked full_hd narrative_example).
  vm_compute. reflexivity.
Defined.

Lemma parse_relative_coordinates_from_text_preamble_witness :
  parse_relative_coordinates_from_text
    (preamble_example ++ newline :: narrative_example) full_hd
  = parse_relative_coordinates_from_text narrative_example full_hd.
Proof.
  apply (parse_relative_coordinates_from_text_preamble full_hd preamble_example
           narrative_example).
  apply not_title_lines. vm_compute. reflexivity.
Defined.
(** *** The older extractor *)

Lemma parse_coordinates_line_titles (st st' : list element * option element)
  (line : str) :
  parse_coordinates_line st line = Ok st' ->
  map title (pending st')
  = map title (pending st)
    ++ (if is_title_line line then [element_title line] else [])
  /\ (Forall (fun e => e_relative_coordinates e = None) (pending st) ->
      Forall (fun e => e_relative_coordinates e = None) (pending st')).
Proof.
  destruct st as [els cur]. unfold parse_coordinates_line.
  destruct (is_title_line line).
  - intros [= <-]. rewrite pending_snoc, map_app. split; [reflexivity|].
    intros H. apply Forall_app. split; [exact H|]. repeat constructor.
  - rewrite app_nil_r. destruct cur as [e|]; [|intros [= <-]; split; auto].
    assert (Hsame : forall pix com,
               map title (pending (els, Some (mkElement (e_description e) (e_type e)
                                                (e_priority e)
                                                (e_relative_coordinates e) pix com)))
               = map title (pending (els, Some e))
               /\ (Forall (fun e => e_relative_coordinates e = None)
                     (pending (els, Some e)) ->
                   Forall (fun e => e_relative_coordinates e = None)
                     (pending (els, Some (mkElement (e_description e) (e_type e)
                                            (e_priority e)
                                            (e_relative_coordinates e) pix com))))).
    { intros. unfold pending. cbn [fst snd]. rewrite !map_app. split; [reflexivity|].
      rewrite !Forall_app. intros [H1 H2]. split; [exact H1|].
      inversion H2; subst. repeat constructor. assumption. }
    destruct (contains abs_coord_marker line).
    { destruct (search coord_pattern line); [|intros [= <-]; split; auto].
      destruct (two_ints l) as [[x y]|x]; cbn [bind]; [|discriminate].
      intros [= <-]. apply Hsame. }
    destruct (contains command_marker line); [|intros [= <-]; split; auto].
    destruct (search_command line); intros [= <-]; [apply Hsame|split; auto].
Qed.

Lemma parse_coordinates_lines_titles (lines : list str) :
  forall st st',
    parse_coordinates_lines st lines = Ok st' ->
    map title (pending st')
    = map title (pending st) ++ map element_title (filter is_title_line lines)
    /\ (Forall (fun e => e_relative_coordinates e = None) (pending st) ->
        Forall (fun e => e_relative_coordinates e = None) (pending st')).
Proof.
  induction lines as [|line lines IH]; intros st st' H.
  - injection H as <-. cbn. rewrite app_nil_r. auto.
  - cbn [parse_coordinates_lines] in H.
    destruct (parse_coordinates_line st line) as [st1|x] eqn:H1; cbn [bind] in H;
      [|discriminate].
    destruct (IH _ _ H) as [Ht Hr].
    destruct (parse_coordinates_line_titles _ _ _ H1) as [Ht1 Hr1].
    split; [|auto].
    rewrite Ht, Ht1, <- app_assoc. f_equal.
    cbn [filter]. destruct (is_title_line line); reflexivity.
Qed.

Lemma parse_coordinates_from_text_pending (description : str) (els : list element) :
  parse_coordinates_from_text description = Ok els ->
  exists st,
    parse_coordinates_lines ([], None) (split newline description) = Ok st
    /\ els = pending st.
Proof.
  unfold parse_coordinates_from_text.
  destruct (parse_coordinates_lines ([], None) (split newline description))
    as [[elements [e|]]|x]; cbn [bind]; intros [= <-];
    eexists; (split; [reflexivity|]); unfold pending; cbn [fst snd];
    rewrite ?app_nil_r; reflexivity.
Qed.

(** X10: when the older extractor [parse_coordinates_from_text] returns,
    it returns one element for each title line, in order, with the
    description and the priority of that line, as the newer extractor
    does; none of its elements has relative coordinates. *)
Theorem parse_coordinates_from_text_titles (description : str) (els : list element) :
  parse_coordinates_from_text description = Ok els ->
  map title els
  = map element_title (filter is_title_line (split newline description))
  /\ Forall (fun e => e_relative_coordinates e = None) els.
Proof.
  intros H.
  destruct (parse_coordinates_from_text_pending _ _ H) as (st & Hst & ->).
  destruct (parse_coordinates_lines_titles _ _ _ Hst) as [Ht Hr].
  split; [exact Ht|]. apply Hr. constructor.
Qed.

Lemma parse_coordinates_from_text_titles_witness :
  map title
    [mkElement (u "搜索框") (u "unknown") (u "high") None (Some (300, 200))
       (Some (u "python3 scripts/phone_control.py tap --relative 500 150"));
     mkElement (u "Trending标签") (u "unknown") (u "medium") None None None]
  = map element_title (filter is_title_line (split newline narrative_example))
  /\ Forall (fun e => e_relative_coordinates e = None)
       [mkElement (u "搜索框") (u "unknown") (u "high") None (Some (300, 200))
          (Some (u "python3 scripts/phone_control.py tap --relative 500 150"));
        mkElement (u "Trending标签") (u "unknown") (u "medium") None None None].
Proof.
  apply (parse_coordinates_from_text_titles narrative_example).
  vm_compute. reflexivity.
Defined.

Lemma parse_coordinates_lines_append (st : list element * option element)
  (l1 l2 : list str) :
  parse_coordinates_lines st (l1 ++ l2)
  = (st1 <- parse_coordinates_lines st l1 ;; parse_coordinates_lines st1 l2).
Proof.
  revert st. induction l1 as [|l l1 IH]; intros st; [reflexivity|].
  cbn [app parse_coordinates_lines].
  destruct (parse_coordinates_line st l) as [st'|x]; cbn [bind];
    [apply IH|reflexivity].
Qed.

Lemma parse_coordinates_lines_body (els : list element) (lines : list str) :
  Forall (fun l => is_title_line l = false) lines ->
  forall e st,
    parse_coordinates_lines (els, Some e) lines = Ok st ->
    exists e', st = (els, Some e').
Proof.
  induction 1 as [|l lines Hl _ IH]; intros e st H.
  - injection H as <-. exists e. reflexivity.
  - cbn [parse_coordinates_lines] in H. unfold parse_coordinates_line at 1 in H.
    rewrite Hl in H.
    destruct (contains abs_coord_marker l).
    { destruct (search coord_pattern l); [|apply (IH _ _ H)].
      destruct (two_ints l0) as [[x y]|x]; cbn [bind] in H; [|discriminate].
      apply (IH _ _ H). }
    destruct (contains command_marker l); [|apply (IH _ _ H)].
    destruct (search_command l); apply (IH _ _ H).
Qed.

Lemma parse_coordinates_lines_keep (els : list element) (lines : list str) :
  Forall no_coordinate lines ->
  forall e st,
    parse_coordinates_lines (els, Some e) lines = Ok st ->
    exists e', st = (els, Some e') /\ e_coordinates e' = e_coordinates e.
Proof.
  induction 1 as [|l lines [Hl Hno] _ IH]; intros e st H.
  - injection H as <-. exists e. auto.
  - cbn [parse_coordinates_lines] in H. unfold parse_coordinates_line at 1 in H.
    rewrite Hl in H.
    assert (Hskip :
      (if contains command_marker l
       then match search_command l with
            | Some g =>
                Ok (els, Some (mkElement (e_description e) (e_type e) (e_priority e)
                                 (e_relative_coordinates e) (e_coordinates e)
                                 (Some (strip g))))
            | None => Ok (els, Some e)
            end
       else Ok (els, Some e))
      = Ok (els, Some e)
      \/ exists com,
          (if contains command_marker l
           then match search_command l with
                | Some g =>
                    Ok (els, Some (mkElement (e_description e) (e_type e)
                                     (e_priority e) (e_relative_coordinates e)
                                     (e_coordinates e) (Some (strip g))))
                | None => Ok (els, Some e)
                end
           else Ok (els, Some e))
          = Ok (els, Some (mkElement (e_description e) (e_type e) (e_priority e)
                             (e_relative_coordinates e) (e_coordinates e) com))).
    { destruct (contains command_marker l); [|left; reflexivity].
      destruct (search_command l); [right; eexists; reflexivity|left; reflexivity]. }
    assert (Hnext :
      (st1 <- (if contains command_marker l
               then match search_command l with
                    | Some g =>
                        Ok (els, Some (mkElement (e_description e) (e_type e)
                                         (e_priority e) (e_relative_coordinates e)
                                         (e_coordinates e) (Some (strip g))))
                    | None => Ok (els, Some e)
                    end
               else Ok (els, Some e)) ;;
       parse_coordinates_lines st1 lines) = Ok st ->
      exists e', st = (els, Some e') /\ e_coordinates e' = e_coordinates e).
    { destruct Hskip as [->|[com ->]]; cbn [bind]; intros H'.
      - apply (IH _ _ H').
      - destruct (IH _ _ H') as (e' & -> & Hc). exists e'. auto. }
    destruct Hno as [Hno|Hno].
    + rewrite Hno in H. apply Hnext. exact H.
    + destruct (contains abs_coord_marker l); [|apply Hnext; exact H].
      rewrite Hno in H. cbn [bind] in H. apply (IH _ _ H).
Qed.

(** Within a block the last coordinate line decides. *)
Lemma parse_coordinates_lines_last_wins
  (els : list element) (e : element) (before : list str) (line : str)
  (after : list str) (xy : Z * Z) (st : list element * option element) :
  Forall (fun l => is_title_line l = false) before ->
  coordinate_line line xy ->
  Forall no_coordinate after ->
  parse_coordinates_lines (els, Some e) (before ++ line :: after) = Ok st ->
  exists e', st = (els, Some e') /\ e_coordinates e' = Some xy.
Proof.
  intros Hb (Hl & Hm & groups & Hs & Hi) Ha H.
  rewrite parse_coordinates_lines_append in H.
  destruct (parse_coordinates_lines (els, Some e) before) as [st1|x] eqn:H1;
    cbn [bind] in H; [|discriminate].
  destruct (parse_coordinates_lines_body els before Hb e st1 H1) as (e1 & ->).
  cbn [parse_coordinates_lines] in H. unfold parse_coordinates_line at 1 in H.
  rewrite Hl, Hm, Hs, Hi in H. destruct xy as [x y]. cbn [bind] in H.
  destruct (parse_coordinates_lines_keep els after Ha _ st H) as (e' & -> & Hc).
  exists e'. split; [reflexivity|]. rewrite Hc. reflexivity.
Qed.

Lemma parse_coordinates_lines_app (st : list element * option element)
  (l1 l2 : list str) (st2 : list element * option element) :
  parse_coordinates_lines st (l1 ++ l2) = Ok st2 ->
  exists st1,
    parse_coordinates_lines st l1 = Ok st1 /\ parse_coordinates_lines st1 l2 = Ok st2.
Proof.
  rewrite parse_coordinates_lines_append.
  destruct (parse_coordinates_lines st l1) as [st1|x]; cbn [bind]; [|discriminate].
  intros H. exists st1. auto.
Qed.

(** A title line closes the current element and opens a new one. *)
Lemma parse_coordinates_line_title (st : list element * option element) (line : str) :
  is_title_line line = true ->
  exists e0, parse_coordinates_line st line = Ok (pending st, Some e0).
Proof.
  intros Ht. destruct st as [els cur]. unfold parse_coordinates_line. rewrite Ht.
  eexists. unfold pending. cbn [fst snd]. destruct cur; rewrite ?app_nil_r; reflexivity.
Qed.

(** The elements that are finished stay as they are. *)
Lemma parse_coordinates_line_finished (st st' : list element * option element)
  (line : str) :
  parse_coordinates_line st line = Ok st' -> exists more, fst st' = fst st ++ more.
Proof.
  destruct (is_title_line line) eqn:Ht.
  - destruct (parse_coordinates_line_title st line Ht) as (e0 & ->). intros [= <-].
    unfold pending. cbn [fst]. eauto.
  - destruct st as [els [e|]].
    + intros H.
      destruct (parse_coordinates_lines_body els [line]
                  ltac:(constructor; [exact Ht|constructor]) e st') as (e' & ->).
      { cbn [parse_coordinates_lines]. rewrite H. reflexivity. }
      exists []. cbn [fst]. rewrite app_nil_r. reflexivity.
    + unfold parse_coordinates_line. rewrite Ht. intros [= <-]. exists [].
      rewrite app_nil_r. reflexivity.
Qed.

Lemma parse_coordinates_lines_finished (lines : list str) :
  forall st st',
    parse_coordinates_lines st lines = Ok st' -> exists more, fst st' = fst st ++ more.
Proof.
  induction lines as [|l lines IH]; intros st st' H.
  - injection H as <-. exists []. rewrite app_nil_r. reflexivity.
  - cbn [parse_coordinates_lines] in H.
    destruct (parse_coordinates_line st l) as [st1|x] eqn:H1; cbn [bind] in H;
      [|discriminate].
    destruct (parse_coordinates_line_finished _ _ _ H1) as (m1 & E1).
    destruct (IH _ _ H) as (m2 & E2).
    exists (m1 ++ m2). rewrite E2, E1, app_assoc. reflexivity.
Qed.

(** The element of a block of the older extractor, as it stands at the
    end of the block, is the one returned at the place of its title
    line. *)
Lemma older_element_of_block (description : str) (els : list element)
  (before : list str) (title_line : str) (block rest : list str) :
  parse_coordinates_from_text description = Ok els ->
  element_block description before title_line block rest ->
  exists finished e0 e,
    parse_coordinates_lines (finished, Some e0) block = Ok (finished, Some e)
    /\ nth_error els (element_index before) = Some e.
Proof.
  intros Hels (Hlines & Ht & Hblock & Hrest).
  destruct (parse_coordinates_from_text_pending _ _ Hels) as (st & Hst & ->).
  rewrite Hlines in Hst.
  apply parse_coordinates_lines_app in Hst. destruct Hst as (stb & Hb & Hst).
  cbn [parse_coordinates_lines] in Hst.
  destruct (parse_coordinates_line_title stb title_line Ht) as (e0 & H0).
  rewrite H0 in Hst. cbn [bind] in Hst.
  apply parse_coordinates_lines_app in Hst. destruct Hst as (st1 & H1 & H2).
  destruct (parse_coordinates_lines_body (pending stb) block Hblock e0 st1 H1)
    as (e & ->).
  exists (pending stb), e0, e. split; [exact H1|].
  assert (Hlen : List.length (pending stb) = element_index before).
  { destruct (parse_coordinates_lines_titles _ _ _ Hb) as [Hm _].
    apply (f_equal (@List.length _)) in Hm.
    rewrite !length_app, !length_map in Hm. cbn in Hm. exact Hm. }
  rewrite <- Hlen.
  assert (Hend : exists more, pending st = pending stb ++ e :: more).
  { destruct rest as [|l rest'].
    - injection H2 as <-. exists []. reflexivity.
    - cbn [parse_coordinates_lines] in H2.
      destruct (parse_coordinates_line_title (pending stb, Some e) l Hrest)
        as (e2 & H3).
      rewrite H3 in H2. cbn [bind] in H2.
      destruct (parse_coordinates_lines_finished _ _ _ H2) as (more & Hmore).
      cbn [fst] in Hmore. unfold pending at 1. rewrite Hmore.
      unfold pending at 1. cbn [fst snd]. rewrite <- !app_assoc. cbn [app]. eauto. }
  destruct Hend as (more & ->).
  rewrite nth_error_app2 by lia. rewrite Nat.sub_diag. reflexivity.
Qed.

(** X11: in the older extractor [parse_coordinates_from_text] the last
    coordinate line of an element block, the lines after the title line
    of the element, decides the coordinates of the element returned: it
    overwrites what an earlier line of the block attached, where the newer
    extractor honours a legacy line only while nothing is attached.  The
    title line itself is not read for coordinates. *)
Theorem parse_coordinates_from_text_last_wins
  (description : str) (els : list element) (before : list str) (title_line : str)
  (b1 : list str) (line : str) (b2 rest : list str) (xy : Z * Z) :
  parse_coordinates_from_text description = Ok els ->
  element_block description before title_line (b1 ++ line :: b2) rest ->
  coordinate_line line xy ->
  Forall no_coordinate b2 ->
  exists e,
    nth_error els (element_index before) = Some e /\ e_coordinates e = Some xy.
Proof.
  intros Hels Hblock Hline Hafter.
  destruct (older_element_of_block _ _ _ _ _ _ Hels Hblock)
    as (finished & e0 & e & Hrun & Hnth).
  exists e. split; [exact Hnth|].
  destruct Hblock as (_ & _ & Hbody & _).
  apply Forall_app in Hbody. destruct Hbody as [Hb1 _].
  destruct (parse_coordinates_lines_last_wins finished e0 b1 line b2 xy _
              Hb1 Hline Hafter Hrun) as (e' & [= <-] & Hc).
  exact Hc.
Qed.

Lemma parse_coordinates_from_text_last_wins_witness :
  exists e,
    nth_error
      [mkElement (u "搜索框") (u "unknown") (u "high") None (Some (310, 220))
         (Some (u "python3 scripts/phone_control.py tap 310 220"));
       mkElement (u "Trending标签") (u "unknown") (u "medium") None None None]
      (element_index []) = Some e
    /\ e_coordinates e = Some (310, 220).
Proof.
  apply (parse_coordinates_from_text_last_wins rewritten_example _ []
           (u "1. 🔥 **搜索框** (高优先级)")
           [legacy_example; u "   📝 说明：点击搜索框"]
           (u "   🎯 坐标：(310, 220)")
           [u "   💻 命令：python3 scripts/phone_control.py tap 310 220"]
           [u "2. ⭐ **Trending标签** (中优先级)"] (310, 220)).
  - vm_compute. reflexivity.
  - split; [vm_compute; reflexivity|]. split; [vm_compute; reflexivity|].
    split; [|vm_compute; reflexivity].
    apply not_title_lines. vm_compute. reflexivity.
  - split; [vm_compute; reflexivity|]. split; [vm_compute; reflexivity|].
    eexists. split; vm_compute; reflexivity.
  - constructor; [|constructor]. split; [vm_compute; reflexivity|].
    left. vm_compute. reflexivity.
Defined.

(** ** The resolver *)

Section ResolverOrder.

Variable env : environment.

Lemma get_screen_density_via_adb_trace (adb device : str) (tr : trace) :
  snd (get_screen_density_via_adb env adb device tr)
  = tr ++ [EvRun (wm_density adb device) 10].
Proof.
  unfold get_screen_density_via_adb, iobind, _run.
  destruct (run_result (wm_density adb device)
              (subprocess_run env tr (wm_density adb device) 10)) as [r|x];
    [|reflexivity].
  destruct (ok r); [|reflexivity].
  destruct (search density_pattern (stdout r)); reflexivity.
Qed.

(** X12: a screenshot that can be read decides the size: the resolver
    returns its width and height tagged [screenshot], and asks the device
    for the density alone; none of the three size queries is run. *)
Theorem screenshot_takes_precedence
  (adb device : str) (c : Z) (path' : str) (tr : trace) (w h : N) (d : Z)
  (q : PyFloat.float) :
  let path := c :: path' in
  let tr1 := tr ++ [EvExists path] in
  let tr2 := (tr1 ++ [EvImageOpen path])
               ++ [EvStderr (ScreenshotSize (Z.of_N w) (Z.of_N h))] in
  os_path_exists env tr path = true ->
  PIL_AVAILABLE env = true ->
  Image_open_size env tr1 path = inr (w, h) ->
  fst (get_screen_density_via_adb env adb device tr2) = Ok d ->
  PyFloat.truediv (Z.of_N w) (Z.of_N h) = Ok q ->
  get_accurate_screen_info env adb device (Some path) tr
  = (Ok (mkScreenInfo (Z.of_N w) (Z.of_N h) d q (u "screenshot")),
     tr2 ++ [EvRun (wm_density adb device) 10]).
Proof.
  intros path tr1 tr2 Hex Hpil Himg Hd Hq.
  pose proof (get_screen_density_via_adb_trace adb device tr2) as Htr.
  destruct (get_screen_density_via_adb env adb device tr2) as [rd tr3] eqn:Hden.
  cbn [fst snd] in Hd, Htr. subst rd tr3.
  unfold get_accurate_screen_info, info_from_screenshot, iobind, try_except.
  subst path. cbv beta iota. rewrite Hex, Hpil. cbn [andb]. fold tr1. rewrite Himg.
  unfold print_stderr, emit. fold tr2. rewrite Hden. unfold lift. rewrite Hq.
  reflexivity.
Qed.

(** X13: a screenshot that cannot be read, or that has no height, never
    makes the resolver fail: the failure is written to the standard error
    stream and the device queries are run as if no screenshot had been
    given. *)
Theorem unreadable_screenshot_falls_back
  (adb device : str) (c : Z) (path' : str) (tr : trace) :
  let path := c :: path' in
  let tr1 := tr ++ [EvExists path] in
  os_path_exists env tr path = true ->
  PIL_AVAILABLE env = true ->
  (forall e,
      Image_open_size env tr1 path = inl e ->
      get_accurate_screen_info env adb device (Some path) tr
      = info_from_adb env adb device
          ((tr1 ++ [EvImageOpen path]) ++ [EvStderr (ScreenshotSizeFailed e)]))
  /\ (forall w d,
         Image_open_size env tr1 path = inr (w, 0%N) ->
         let tr2 := (tr1 ++ [EvImageOpen path])
                      ++ [EvStderr (ScreenshotSize (Z.of_N w) 0)] in
         fst (get_screen_density_via_adb env adb device tr2) = Ok d ->
         get_accurate_screen_info env adb device (Some path) tr
         = info_from_adb env adb device
             ((tr2 ++ [EvRun (wm_density adb device) 10])
                ++ [EvStderr (ScreenshotSizeFailed ZeroDivisionError)])).
Proof.
  intros path tr1 Hex Hpil. split.
  - intros e Himg.
    unfold get_accurate_screen_info, info_from_screenshot, iobind, try_except.
    subst path. cbv beta iota. rewrite Hex, Hpil. cbn [andb]. fold tr1. rewrite Himg.
    reflexivity.
  - intros w d Himg tr2 Hd.
    pose proof (get_screen_density_via_adb_trace adb device tr2) as Htr.
    destruct (get_screen_density_via_adb env adb device tr2) as [rd tr3] eqn:Hden.
    cbn [fst snd] in Hd, Htr. subst rd tr3.
    unfold get_accurate_screen_info, info_from_screenshot, iobind, try_except.
    subst path. cbv beta iota. rewrite Hex, Hpil. cbn [andb]. fold tr1. rewrite Himg.
    unfold print_stderr, emit. change (Z.of_N 0) with 0. fold tr2. rewrite Hden.
    unfold lift, PyFloat.truediv. cbn [Z.eqb]. reflexivity.
Qed.

(** X14: [get_screen_size_via_adb] runs its three queries in a fixed
    order and stops at the first that yields a size: whatever the device
    answers, what it does is run [wm size], then perhaps
    [dumpsys window displays], then perhaps [dumpsys window], each with a
    timeout of 10 seconds, and nothing else. *)
Theorem get_screen_size_via_adb_queries (adb device : str) (tr : trace) :
  exists k,
    (1 <= k <= 3)%nat
    /\ snd (get_screen_size_via_adb env adb device tr)
       = tr ++ firstn k [EvRun (wm_size adb device) 10;
                         EvRun (dumpsys_window_displays adb device) 10;
                         EvRun (dumpsys_window adb device) 10].
Proof.
  unfold get_screen_size_via_adb, iobind, _run, lift, ret.
  repeat (cbv beta iota;
          match goal with
          | |- context [match ?x with _ => _ end] => destruct x
          end);
    cbn [snd];
    first [ exists 1%nat; split; [lia|reflexivity]
          | exists 2%nat; split; [lia|rewrite <- !app_assoc; reflexivity]
          | exists 3%nat; split; [lia|rewrite <- !app_assoc; reflexivity] ].
Qed.

(** X15: a size of 1080 x 2400 read from [dumpsys window displays] is
    taken for the fallback value and not trusted: when [wm size] yields
    nothing and that query yields 1080 x 2400 (or nothing), the size
    returned is the one [dumpsys window] reports as
    [mUnrestrictedScreen]. *)
Theorem default_sized_display_is_not_trusted
  (adb device : str) (tr : trace) (r1 r2 r3 : CmdResult)
  (groups : list (list N)) (w h : Z) :
  let tr1 := tr ++ [EvRun (wm_size adb device) 10] in
  let tr2 := tr1 ++ [EvRun (dumpsys_window_displays adb device) 10] in
  let tr3 := tr2 ++ [EvRun (dumpsys_window adb device) 10] in
  run_result (wm_size adb device)
    (subprocess_run env tr (wm_size adb device) 10) = Ok r1 ->
  ok r1 = false \/ search size_pattern (stdout r1) = None ->
  run_result (dumpsys_window_displays adb device)
    (subprocess_run env tr1 (dumpsys_window_displays adb device) 10) = Ok r2 ->
  parse_display_info (stdout r2) = Ok (1080, 2400) ->
  run_result (dumpsys_window adb device)
    (subprocess_run env tr2 (dumpsys_window adb device) 10) = Ok r3 ->
  search unrestricted_pattern (stdout r3) = Some groups ->
  two_ints groups = Ok (w, h) ->
  get_screen_size_via_adb env adb device tr = (Ok (w, h), tr3).
Proof.
  intros tr1 tr2 tr3 H1 Hno1 H2 Hdef H3 Hs Hi.
  unfold get_screen_size_via_adb, iobind.
  rewrite (run_as env _ _ _ _ H1). fold tr1.
  assert (Hm2 :
    match _run env (dumpsys_window_displays adb device) 10 tr1 with
    | (Ok a, tr') =>
        match lift (parse_display_info (stdout a)) tr' with
        | (Ok a0, tr'0) =>
            (let '(width, height) := a0 in
             if negb (width =? 1080) || negb (height =? 2400)
             then ret (width, height)
             else
               fun tr4 =>
                 match _run env (dumpsys_window adb device) 10 tr4 with
                 | (Ok a1, tr'1) =>
                     match search unrestricted_pattern (stdout a1) with
                     | Some groups0 => lift (two_ints groups0)
                     | None => ret (1080, 2400)
                     end tr'1
                 | (Raise e, tr'1) => (Raise e, tr'1)
                 end) tr'0
        | (Raise e, tr'0) => (Raise e, tr'0)
        end
    | (Raise e, tr') => (Raise e, tr')
    end = (Ok (w, h), tr3)).
  { rewrite (run_as env _ _ _ _ H2). fold tr2. unfold lift at 1. rewrite Hdef.
    cbn [Z.eqb Pos.eqb negb orb]. rewrite (run_as env _ _ _ _ H3). fold tr3.
    rewrite Hs. unfold lift. rewrite Hi. reflexivity. }
  destruct Hno1 as [Hok|Hno1].
  - rewrite Hok. exact Hm2.
  - destruct (ok r1); [rewrite Hno1|]; exact Hm2.
Qed.

End ResolverOrder.
Lemma screenshot_takes_precedence_witness :
  get_accurate_screen_info photographed_device (u "adb") (u "127.0.0.1:5555")
    (Some (47 :: u "tmp/screen.png")) []
  = (Ok (mkScreenInfo (Z.of_N 1080) (Z.of_N 2340) 440 ratio_1080_2340
           (u "screenshot")),
     (([] ++ [EvExists (47 :: u "tmp/screen.png")])
        ++ [EvImageOpen (47 :: u "tmp/screen.png")])
       ++ [EvStderr (ScreenshotSize (Z.of_N 1080) (Z.of_N 2340))]
       ++ [EvRun (wm_density (u "adb") (u "127.0.0.1:5555")) 10]).
Proof.
  rewrite app_assoc.
  apply (screenshot_takes_precedence photographed_device (u "adb")
           (u "127.0.0.1:5555") 47 (u "tmp/screen.png") [] 1080%N 2340%N 440
           ratio_1080_2340);
    vm_compute; reflexivity.
Defined.

Lemma unreadable_screenshot_falls_back_witness :
  get_accurate_screen_info blurred_device (u "adb") (u "127.0.0.1:5555")
    (Some (47 :: u "tmp/screen.png")) []
  = info_from_adb blurred_device (u "adb") (u "127.0.0.1:5555")
      ((([] ++ [EvExists (47 :: u "tmp/screen.png")])
          ++ [EvImageOpen (47 :: u "tmp/screen.png")])
         ++ [EvStderr (ScreenshotSizeFailed ValueError)]).
Proof.
  apply (proj1 (unreadable_screenshot_falls_back blurred_device (u "adb")
                  (u "127.0.0.1:5555") 47 (u "tmp/screen.png") []
                  eq_refl eq_refl) ValueError).
  reflexivity.
Defined.

Lemma default_sized_display_is_not_trusted_witness :
  get_screen_size_via_adb (reporting_device dumpsys_report) (u "adb")
    (u "127.0.0.1:5555") []
  = (Ok (0, 0),
     (([] ++ [EvRun (wm_size (u "adb") (u "127.0.0.1:5555")) 10])
        ++ [EvRun (dumpsys_window_displays (u "adb") (u "127.0.0.1:5555")) 10])
       ++ [EvRun (dumpsys_window (u "adb") (u "127.0.0.1:5555")) 10]).
Proof.
  refine (default_sized_display_is_not_trusted (reporting_device dumpsys_report)
            (u "adb") (u "127.0.0.1:5555") [] _ _ _ [[0%N]; [0%N]] 0 0
            eq_refl _ eq_refl _ eq_refl _ _).
  - right. vm_compute. reflexivity.
  - vm_compute. reflexivity.
  - vm_compute. reflexivity.
  - vm_compute. reflexivity.
Defined.

(** X28: when the screenshot gives nothing and the device answers the
    first size query, [wm size], with a [Physical size] line and the
    density query with a [Physical density] line, the resolver returns
    the numbers of these two lines and their ratio, tagged [adb], after
    these two commands and no other. *)
Theorem device_query_values
  (env : environment) (adb device : str) (screenshot_path : option str)
  (tr tr0 : trace) (r1 r4 : CmdResult) (size_groups density_groups : list (list N))
  (w h d : Z) (q : PyFloat.float) :
  let tr1 := tr0 ++ [EvRun (wm_size adb device) 10] in
  info_from_screenshot env adb device screenshot_path tr = (Ok None, tr0) ->
  run_result (wm_size adb device)
    (subprocess_run env tr0 (wm_size adb device) 10) = Ok r1 ->
  ok r1 = true ->
  search size_pattern (stdout r1) = Some size_groups ->
  two_ints size_groups = Ok (w, h) ->
  run_result (wm_density adb device)
    (subprocess_run env tr1 (wm_density adb device) 10) = Ok r4 ->
  ok r4 = true ->
  search density_pattern (stdout r4) = Some density_groups ->
  one_int density_groups = Ok d ->
  PyFloat.truediv w h = Ok q ->
  get_accurate_screen_info env adb device screenshot_path tr
  = (Ok (mkScreenInfo w h d q (u "adb")),
     tr1 ++ [EvRun (wm_density adb device) 10]).
Proof.
  intros tr1 Hshot H1 Hok1 Hs1 Hi1 H4 Hok4 Hs4 Hi4 Hq.
  unfold get_accurate_screen_info, iobind. rewrite Hshot.
  unfold info_from_adb, try_except, adb_queries, iobind.
  rewrite (get_screen_size_via_adb_wm_size env adb device tr0 r1 size_groups w h
             H1 Hok1 Hs1 Hi1).
  fold tr1. unfold get_screen_density_via_adb, iobind.
  rewrite (run_as env _ _ _ _ H4), Hok4, Hs4. unfold lift. rewrite Hi4, Hq.
  reflexivity.
Qed.

Lemma device_query_values_witness :
  get_accurate_screen_info
    (reporting_device
       (u "Physical size: 1080x2340" ++ newline :: u "Physical density: 440"))
    (u "adb") (u "127.0.0.1:5555") None []
  = (Ok (mkScreenInfo 1080 2340 440 ratio_1080_2340 (u "adb")),
     ([] ++ [EvRun (wm_size (u "adb") (u "127.0.0.1:5555")) 10])
       ++ [EvRun (wm_density (u "adb") (u "127.0.0.1:5555")) 10]).
Proof.
  refine (device_query_values
            (reporting_device
               (u "Physical size: 1080x2340" ++ newline :: u "Physical density: 440"))
            (u "adb") (u "127.0.0.1:5555") None [] [] _ _
            [[1%N; 0%N; 8%N; 0%N]; [2%N; 3%N; 4%N; 0%N]] [[4%N; 4%N; 0%N]]
            1080 2340 440 ratio_1080_2340
            eq_refl eq_refl eq_refl _ _ eq_refl eq_refl _ _ _);
    vm_compute; reflexivity.
Defined.

(** ** The device client *)

Lemma dict_get_known {V} (d : list (str * V)) (key : str) (d1 d2 : V) :
  In key (map fst d) -> dict_get d key d1 = dict_get d key d2.
Proof.
  induction d as [|[k v] d IH]; [contradiction|].
  cbn [map fst In dict_get]. intros [->|Hin].
  - rewrite (proj2 (eqb_eq key key) eq_refl). reflexivity.
  - destruct (PyStr.eqb k key); [reflexivity|apply IH, Hin].
Qed.

Lemma dict_get_unknown {V} (d : list (str * V)) (key : str) (default : V) :
  ~ In key (map fst d) -> dict_get d key default = default.
Proof.
  induction d as [|[k v] d IH]; [reflexivity|].
  cbn [map fst In dict_get]. intros Hnot.
  destruct (PyStr.eqb k key) eqn:E.
  - apply eqb_eq in E. tauto.
  - apply IH. tauto.
Qed.

Lemma lower_app (a b : str) : lower (a ++ b) = lower a ++ lower b.
Proof. unfold lower. apply flat_map_app. Qed.

Lemma lower_lower (s : str) : lower (lower s) = lower s.
Proof.
  induction s as [|c s IH]; [reflexivity|].
  change (c :: s) with ([c] ++ s). rewrite !lower_app, IH. f_equal.
  unfold lower. cbn [flat_map]. rewrite !app_nil_r.
  destruct ((65 <=? c) && (c <=? 90)) eqn:E1.
  - apply andb_true_iff in E1. destruct E1 as [H1 H2].
    apply Z.leb_le in H1, H2. cbn [flat_map]. rewrite app_nil_r.
    replace (c + 32 <=? 90) with false by (symmetry; apply Z.leb_gt; lia).
    rewrite andb_false_r.
    replace (c + 32 =? 304) with false by (symmetry; apply Z.eqb_neq; lia).
    replace (c + 32 =? 8490) with false by (symmetry; apply Z.eqb_neq; lia).
    reflexivity.
  - destruct (c =? 304) eqn:E2; [reflexivity|].
    destruct (c =? 8490) eqn:E3; [reflexivity|].
    cbn [flat_map]. rewrite E1, E2, E3. reflexivity.
Qed.

Section Client.

Variable env : environment.

(** X16: [AdbClient.key] recognises the eight key names in any letter
    case, and sends every other argument, a numeric key code for one, to
    the device as it is. *)
Theorem key_names_and_codes (self : AdbClient) (k : str) :
  (In (lower k) (map fst KEYCODES) -> key env self k = key env self (lower k))
  /\ (~ In (lower k) (map fst KEYCODES) ->
      key env self k = shell env self [u "input"; u "keyevent"; k]).
Proof.
  unfold key. split; intros H.
  - rewrite lower_lower. rewrite (dict_get_known KEYCODES (lower k) k (lower k) H).
    reflexivity.
  - rewrite (dict_get_unknown KEYCODES (lower k) k H). reflexivity.
Qed.

(** X17: [AdbClient.app_start] and [AdbClient.app_stop] never hand the
    device a package name without a dot: either they run nothing and
    return the result [Unknown app] with return code 2, or they run one
    command, on a package name that has a dot. *)
Theorem app_commands_name_packages (self : AdbClient) (name : str) (tr : trace) :
  (app_start env self name tr
   = (Ok (mkCmdResult false [u "app_start"; name] [] (unknown_app name) 2), tr)
   \/ exists pkg,
       contains (u ".") pkg = true
       /\ snd (app_start env self name tr)
          = tr ++ [EvRun (_base self
                            ++ [u "shell"; u "monkey"; u "-p"; pkg; u "-c";
                                u "android.intent.category.LAUNCHER"; u "1"])
                         (timeout_s self)])
  /\ (app_stop env self name tr
      = (Ok (mkCmdResult false [u "app_stop"; name] [] (unknown_app name) 2), tr)
      \/ exists pkg,
          contains (u ".") pkg = true
          /\ snd (app_stop env self name tr)
             = tr ++ [EvRun (_base self ++ [u "shell"; u "am"; u "force-stop"; pkg])
                            (timeout_s self)]).
Proof.
  unfold app_start, app_stop.
  set (pkg := dict_get APP_PACKAGES (lower name) (dict_get APP_PACKAGES name name)).
  destruct (contains (u ".") pkg) eqn:Hdot; cbn [negb].
  - split; right; exists pkg; (split; [exact Hdot|]);
      unfold shell; apply run_trace.
  - split; left; reflexivity.
Qed.

End Client.

Lemma key_names_and_codes_witness :
  key slow_model (mkAdbClient (u "adb") (u "127.0.0.1:5555") 30) (u "Home")
  = key slow_model (mkAdbClient (u "adb") (u "127.0.0.1:5555") 30) (lower (u "Home")).
Proof.
  apply (proj1 (key_names_and_codes slow_model
                  (mkAdbClient (u "adb") (u "127.0.0.1:5555") 30) (u "Home"))).
  vm_compute. tauto.
Defined.

(** ** The orchestrator *)

(** X18: a run of [main] that observed the screen ends with exit status
    0, whatever the observation gave: a failure of the observation, a
    timeout included, never fails the command. *)
Theorem observed_run_exits_0
  (env : environment) (args : arguments) (tr : trace) (r : result Z) (tr' : trace) :
  main env args tr = (r, tr') ->
  observations tr' <> observations tr ->
  r = Ok 0.
Proof.
  intros Hrun Hobs.
  destruct (main_observing env args tr r tr' Hrun Hobs)
    as (action & tr0 & Hact & Htr0 & Hex).
  rewrite <- Htr0 in Hobs.
  destruct (execute_with_auto_view_observing env args action tr0 r tr'
              (quiet_device_action env args action Hact) Hex Hobs)
    as (_ & _ & result & tr1 & _ & _ & budget & rest & _ & _ & _ & Hr).
  exact Hr.
Qed.

Lemma observed_run_exits_0_witness :
  fst (main slow_model (press_home false) []) = Ok 0.
Proof.
  apply (observed_run_exits_0 slow_model (press_home false) []
           (fst (main slow_model (press_home false) []))
           (snd (main slow_model (press_home false) []))).
  - apply surjective_pairing.
  - vm_compute. discriminate.
Defined.

(** X19: a run of [main] observes the screen once at most: it starts
    [phone_view.py] no more than one time, whatever the command and
    whatever the device and the observation answer. *)
Theorem main_observes_at_most_once
  (env : environment) (args : arguments) (tr : trace) :
  observations (snd (main env args tr)) = observations tr
  \/ exists argv timeout,
      observations (snd (main env args tr)) = observations tr ++ [(argv, timeout)].
Proof.
  destruct (main env args tr) as [r tr'] eqn:Hrun. cbn [snd].
  destruct (observations_dec (observations tr') (observations tr)) as [Heq|Hobs];
    [left; exact Heq|right].
  destruct (main_observing env args tr r tr' Hrun Hobs)
    as (action & tr0 & Hact & Htr0 & Hex).
  rewrite <- Htr0 in Hobs.
  pose proof (quiet_device_action env args action Hact) as Hq.
  destruct (execute_with_auto_view_observing env args action tr0 r tr' Hq Hex Hobs)
    as (_ & _ & result & tr1 & Hcmd & _ & budget & rest & _ & Htr' & Hrest & _).
  eexists _, _. rewrite Htr'.
  rewrite !observations_app, Hrest, app_nil_r. cbn [observations].
  f_equal. rewrite <- Htr0.
  assert (H1 : observations tr1 = observations tr0).
  { rewrite (Hq _ _ _ Hcmd). rewrite observations_app. cbn. apply app_nil_r. }
  destruct (PyFloat.gt_int (a_wait args) 0); [|exact H1].
  rewrite observations_app, H1. cbn. apply app_nil_r.
Qed.

(** X20: every adb command that a run of [main] starts in its own
    process is given the configured timeout, or is one of the four
    queries for the screen geometry, which are given 10 seconds and do not
    follow [--timeout].  The commands of the [phone_view.py] child are not
    among them: the child is one event of the trace, and what it runs is
    its own affair. *)
Theorem main_command_timeouts (env : environment) (args : arguments) (tr : trace) :
  exists new,
    snd (main env args tr) = tr ++ new
    /\ Forall (fun e =>
                 forall cmd t,
                   e = EvRun cmd t ->
                   t = a_timeout args
                   \/ (t = 10
                       /\ In cmd (geometry_queries (a_adb args) (a_device args))))
         new.
Proof.
  destruct (main env args tr) as [r tr'] eqn:Hrun. cbn [snd].
  destruct (silent_main env (runs_with_other_timeout args) args)
    with (tr := tr) (r := r) (tr' := tr') as (new & -> & Hnew);
    try exact Hrun.
  - intros cmd Hin. cbn [runs_with_other_timeout]. rewrite Z.eqb_refl. cbn [andb].
    assert (E : existsb (cmd_eqb cmd) (geometry_queries (a_adb args) (a_device args))
                = true).
    { apply existsb_exists. exists cmd. split; [exact Hin|]. apply cmd_eqb_eq.
      reflexivity. }
    rewrite E, orb_true_r. reflexivity.
  - reflexivity.
  - split; reflexivity.
  - intros cmd. cbn [runs_with_other_timeout]. rewrite Z.eqb_refl. reflexivity.
  - reflexivity.
  - right. split; reflexivity.
  - right. reflexivity.
  - right. reflexivity.
  - exists new. split; [reflexivity|].
    apply filter_nil_Forall in Hnew. revert Hnew. apply Forall_impl.
    intros e He cmd t ->. cbn [runs_with_other_timeout] in He.
    apply negb_false_iff, orb_true_iff in He.
    destruct He as [He|He]; [left; apply Z.eqb_eq, He|right].
    apply andb_true_iff in He. destruct He as [Ht Hin].
    split; [apply Z.eqb_eq, Ht|].
    apply existsb_exists in Hin. destruct Hin as (c & Hin & Hc).
    apply cmd_eqb_eq in Hc. subst c. exact Hin.
Qed.

(** X21: with [--no-auto-view], a run of [main] neither waits nor
    observes, whatever the command and its result. *)
Theorem no_auto_view_no_wait (env : environment) (args : arguments) (tr : trace) :
  a_auto_view args = false ->
  exists new,
    snd (main env args tr) = tr ++ new
    /\ Forall (fun e => match e with
                        | EvSleep _ | EvAutoView _ _ => False
                        | _ => True
                        end) new.
Proof.
  intros Hoff.
  destruct (main env args tr) as [r tr'] eqn:Hrun. cbn [snd].
  destruct (silent_main env is_wait_or_observation args)
    with (tr := tr) (r := r) (tr' := tr') as (new & -> & Hnew);
    try exact Hrun.
  - reflexivity.
  - reflexivity.
  - split; reflexivity.
  - reflexivity.
  - reflexivity.
  - left. exact Hoff.
  - right. reflexivity.
  - right. reflexivity.
  - exists new. split; [reflexivity|].
    apply filter_nil_Forall in Hnew. revert Hnew. apply Forall_impl.
    intros [] He; try exact I; discriminate.
Qed.

Lemma no_auto_view_no_wait_witness :
  exists new,
    snd (main slow_model tap_blind []) = [] ++ new
    /\ Forall (fun e => match e with
                        | EvSleep _ | EvAutoView _ _ => False
                        | _ => True
                        end) new.
Proof. apply (no_auto_view_no_wait slow_model tap_blind []). reflexivity. Defined.

(** X22: with [--json], the only thing a run of [main] writes to the
    standard output is the JSON object of the result, and none of the
    lines with which [_auto_view_screen] reports a failure in text mode is
    written to the standard error.  When the run observed the screen, the
    object is the last thing written, right after the observation; it
    holds the dictionary of the observation, and a failure of the
    observation (the child did not end with status 0, ran out of time or
    could not be started) is reported inside that dictionary, with [ok]
    false and an [error]; the exit status is 0. *)
Theorem json_output_is_clean (env : environment) (args : arguments) (tr : trace) :
  a_json args = true ->
  exists new,
    snd (main env args tr) = tr ++ new
    /\ Forall (fun e => match e with
                        | EvStdout m => exists r v, m = JsonResult r v
                        | EvStderr m => observation_report m = false
                        | _ => True
                        end) new
    /\ (observations (tr ++ new) <> observations tr ->
        exists before argv t result d,
          observations before = []
          /\ new = before ++ [EvAutoView argv t;
                              EvStdout (JsonResult result (AvDict d))]
          /\ (observation_failed (subprocess_run_view env (tr ++ before) argv t) ->
              av_ok d = false /\ av_error d <> None)
          /\ fst (main env args tr) = Ok 0).
Proof.
  intros Hjson.
  destruct (main env args tr) as [r tr'] eqn:Hrun. cbn [fst snd].
  destruct (silent_main env spoils_json args)
    with (tr := tr) (r := r) (tr' := tr') as (new & -> & Hnew);
    try exact Hrun.
  - reflexivity.
  - intros m Hm. exact Hm.
  - split; reflexivity.
  - reflexivity.
  - reflexivity.
  - right. split; reflexivity.
  - left. exact Hjson.
  - left. split; [exact Hjson|reflexivity].
  - exists new. split; [reflexivity|]. split.
    + apply filter_nil_Forall in Hnew. revert Hnew. apply Forall_impl.
      intros [] He; try exact I; cbn in He.
      * destruct m; try discriminate. eauto.
      * exact He.
    + intros Hobs.
      destruct (main_runs_action env args tr r _ Hrun Hobs)
        as (action & b1 & Hact & Hb1 & Hex).
      assert (Hobs1 : observations (tr ++ new) <> observations (tr ++ b1)).
      { rewrite (observations_app tr b1), Hb1, app_nil_r. exact Hobs. }
      destruct (execute_with_auto_view_json env args action (tr ++ b1) r _ Hjson
                  (silent_device_action env is_observation args
                     (fun _ => eq_refl) action Hact) Hex Hobs1)
        as (b2 & argv & t & result & d & Hb2 & Htr & Hfail & Hr).
      exists (b1 ++ b2), argv, t, result, d.
      rewrite <- !app_assoc in Htr. apply app_inv_head in Htr.
      rewrite observations_app, Hb1, Hb2, app_assoc.
      split; [reflexivity|]. split; [|split; [exact Hfail|exact Hr]].
      rewrite <- app_assoc. exact Htr.
Qed.

Lemma json_output_is_clean_witness :
  exists new,
    snd (main slow_model (press_home true) []) = [] ++ new
    /\ Forall (fun e => match e with
                        | EvStdout m => exists r v, m = JsonResult r v
                        | EvStderr m => observation_report m = false
                        | _ => True
                        end) new
    /\ (observations ([] ++ new) <> observations [] ->
        exists before argv t result d,
          observations before = []
          /\ new = before ++ [EvAutoView argv t;
                              EvStdout (JsonResult result (AvDict d))]
          /\ (observation_failed
                (subprocess_run_view slow_model ([] ++ before) argv t) ->
              av_ok d = false /\ av_error d <> None)
          /\ fst (main slow_model (press_home true) []) = Ok 0).
Proof. apply (json_output_is_clean slow_model (press_home true) []). reflexivity. Defined.

(** *** Exit statuses *)

Section ExitStatus.

Variable env : environment.
Variable args : arguments.

Let client := mkAdbClient (a_adb args) (a_device args) (a_timeout args).

(** The flag [ok] of a result of [AdbClient] says that the return code is
    0. *)
Lemma run_ok (self : AdbClient) (argv : list str) (tr : trace) (result : CmdResult)
  (tr' : trace) :
  run env self argv tr = (Ok result, tr') ->
  ok result = (returncode result =? 0).
Proof.
  unfold run.
  destruct (subprocess_run env tr argv (timeout_s self)) as [code out err|out err|e];
    [|destruct (truthy err)|]; intros [= <- _]; reflexivity.
Qed.

Lemma device_action_ok (action : io CmdResult) (tr : trace) (result : CmdResult)
  (tr' : trace) :
  is_device_action env args action ->
  action tr = (Ok result, tr') ->
  ok result = (returncode result =? 0).
Proof.
  unfold is_device_action.
  destruct (a_command args); try contradiction.
  - intros (x' & y' & ->). apply run_ok.
  - intros (x1' & y1' & x2' & y2' & ->). apply run_ok.
  - intros ->. apply run_ok.
  - intros ->. apply run_ok.
  - intros ->. unfold app_start.
    destruct (negb _); [intros [= <- _]; reflexivity|apply run_ok].
Qed.

(** What [_print_result] does with a failed result, outside an
    observation: it prints, and in text mode leaves through [sys.exit]. *)
Lemma _print_result_failed (result : CmdResult) (tr : trace) :
  ok result = false ->
  exists out,
    Forall is_print out
    /\ _print_result result (a_json args) AvNone tr
       = (if a_json args then Ok tt
          else Raise (SystemExit (or_1 (returncode result))), tr ++ out).
Proof.
  intros Hfail. unfold _print_result.
  destruct (a_json args).
  - eexists [_]. split; [|reflexivity]. repeat constructor.
  - unfold iobind, print_stdout, print_stderr, emit, ret, raise. rewrite Hfail.
    destruct (stdout_is_bytes result);
      [destruct (truthy (strip_ascii (stdout result)))
      |destruct (truthy (strip (stdout result)))];
      destruct (truthy (strip (stderr result)));
      first [ eexists [_; _]; rewrite <- !app_assoc; split; [|reflexivity];
              repeat constructor
            | eexists [_]; split; [|reflexivity]; repeat constructor
            | exists []; rewrite app_nil_r; split; [constructor|reflexivity] ].
Qed.

(** X23: when the device action of a screen-changing command fails,
    [execute_with_auto_view] neither waits nor observes nor reads the
    clock again.  If the action returned a failed result, the result is
    printed and the exit status is the return code of the action, which
    is not 0, in text mode (through [sys.exit]) as in JSON mode.  If the
    action raised, as [AdbClient.run] does when adb cannot be started or
    when the command had written to its standard error before the time
    ran out, nothing is printed and the exception leaves [main]. *)
Theorem failed_action_exit_status
  (action : io CmdResult) (tr : trace) (res : result CmdResult) (tr1 : trace) :
  is_device_action env args action ->
  action (tr ++ [EvClock (time_time env tr)]) = (res, tr1) ->
  (forall result, res = Ok result -> ok result = false) ->
  exists r out,
    execute_with_auto_view env args action tr = (r, tr1 ++ out)
    /\ Forall is_print out
    /\ match res with
       | Ok result => exit_status r = returncode result /\ returncode result <> 0
       | Raise e => r = Raise e /\ out = []
       end.
Proof.
  intros Hact Hrun Hfailed.
  unfold execute_with_auto_view, iobind. rewrite Hrun.
  destruct res as [result|e].
  2:{ exists (Raise e), []. rewrite app_nil_r. repeat split. constructor. }
  pose proof (Hfailed result eq_refl) as Hfail.
  pose proof (device_action_ok action _ _ _ Hact Hrun) as Hok.
  rewrite Hfail in Hok. symmetry in Hok. apply Z.eqb_neq in Hok.
  assert (Hor : or_1 (returncode result) = returncode result).
  { unfold or_1. rewrite (proj2 (Z.eqb_neq _ _) Hok). reflexivity. }
  rewrite Hfail, andb_false_r. unfold ret at 1.
  destruct (_print_result_failed result tr1 Hfail) as (out & Hout & ->).
  destruct (a_json args); eexists _, out;
    (split; [reflexivity|]); (split; [exact Hout|]); cbn [exit_status];
    rewrite Hor; split; [reflexivity|exact Hok|reflexivity|exact Hok].
Qed.

(** X24: [connect], [devices], [stop] and [shell] do not report a failed
    command through the exit status in JSON mode: whatever result the
    command returns, the JSON object is printed and the exit status is 0.
    In text mode a failed result ends the run with its return code, or 1.
    When the command raises instead, which [AdbClient.run] does when adb
    cannot be started or when the command had written to its standard
    error before the time ran out, nothing is printed in either mode and
    the exception leaves [main]. *)
Theorem plain_command_exit_status
  (action : io CmdResult) (tr : trace) (res : result CmdResult) (tr1 : trace) :
  accepted env args ->
  is_plain_action env args action ->
  action tr = (res, tr1) ->
  match res with
  | Ok result =>
      (a_json args = true ->
       main env args tr = (Ok 0, tr1 ++ [EvStdout (JsonResult result AvNone)]))
      /\ (a_json args = false -> ok result = false ->
          exit_status (fst (main env args tr)) = or_1 (returncode result))
  | Raise e => main env args tr = (Raise e, tr1)
  end.
Proof.
  intros (Hneg & Hlong & Hrel) Hact Hrun.
  assert (Hmain : main env args tr
                  = (r <~ action ;;
                     _print_result r (a_json args) AvNone ;;; ret 0) tr).
  { unfold main. rewrite Hneg, Hlong.
    unfold is_plain_action in Hact.
    destruct (a_command args) as [| | | | | | |name|[|a l]]; try contradiction;
      cbn [relative]; rewrite Hact; reflexivity. }
  rewrite Hmain. unfold iobind. rewrite Hrun.
  destruct res as [result|e]; [|reflexivity]. split.
  - intros ->. reflexivity.
  - intros Htext Hfail.
    destruct (_print_result_failed result tr1 Hfail) as (out & _ & ->).
    rewrite Htext. reflexivity.
Qed.

End ExitStatus.

Lemma failed_action_exit_status_witness :
  exists r out,
    execute_with_auto_view offline_device (press_home false)
      (key offline_device (mkAdbClient (u "adb") (u "127.0.0.1:5555") 30)
         (u "home")) []
    = (r, [EvClock (S754_zero false);
           EvRun [u "adb"; u "-s"; u "127.0.0.1:5555"; u "shell"; u "input";
                  u "keyevent"; u "3"] 30]
            ++ out)
    /\ Forall is_print out
    /\ r = Raise TypeError /\ out = [].
Proof.
  apply (failed_action_exit_status offline_device (press_home false)
           (key offline_device (mkAdbClient (u "adb") (u "127.0.0.1:5555") 30)
              (u "home")) []
           (Raise TypeError)
           [EvClock (S754_zero false);
            EvRun [u "adb"; u "-s"; u "127.0.0.1:5555"; u "shell"; u "input";
                   u "keyevent"; u "3"] 30]).
  - reflexivity.
  - vm_compute. reflexivity.
  - discriminate.
Defined.

Lemma plain_command_exit_status_witness :
  main offline_device (list_devices true) []
  = (Raise TypeError, [] ++ [EvRun [u "adb"; u "devices"] 30]).
Proof.
  apply (plain_command_exit_status offline_device (list_devices true)
           (devices offline_device (mkAdbClient (u "adb") (u "127.0.0.1:5555") 30))
           [] (Raise TypeError) ([] ++ [EvRun [u "adb"; u "devices"] 30])
           ltac:(repeat split; try reflexivity; discriminate)
           eq_refl ltac:(vm_compute; reflexivity)).
Defined.

(** *** Coordinates on the command line *)

Section CommandLineCoordinates.

Variable env : environment.
Variable args : arguments.

Lemma get_accurate_screen_info_returns (adb device : str) (path : option str)
  (tr : trace) :
  exists info tr',
    get_accurate_screen_info env adb device path tr = (Ok info, tr').
Proof.
  assert (H : always_returns measured (get_accurate_screen_info env adb device path)).
  { unfold get_accurate_screen_info.
    eapply ar_bind; [apply info_from_screenshot_measured|].
    intros [info|] Hinfo.
    - apply ar_ret. exact Hinfo.
    - apply info_from_adb_measured. }
  destruct (H tr) as (info & tr' & Heq & _). exists info, tr'. exact Heq.
Qed.

Lemma format_int_cases (n : Z) :
  format_int n = Ok (of_int n) \/ format_int n = Raise ValueError.
Proof.
  unfold format_int. destruct (_ <=? _); [right|left]; reflexivity.
Qed.

Lemma validate_coordinates_cases (x y W H : Z) (tr : trace) :
  (exists c tr',
      validate_coordinates x y W H tr
      = (Ok (Z.max 0 (Z.min (W - 1) x), Z.max 0 (Z.min (H - 1) y), c), tr'))
  \/ exists e, validate_coordinates x y W H tr = (Raise (Exception e), tr).
Proof.
  unfold validate_coordinates, iobind, lift.
  destruct (PyFloat.of_int W) as [w|[e|code]] eqn:HW.
  - destruct (PyFloat.of_int H) as [h|[e|code]] eqn:HH.
    + destruct (format_int_cases x) as [Hx|Hx], (format_int_cases y) as [Hy|Hy];
        rewrite Hx, Hy; cbn [bind];
        repeat match goal with
               | |- context [if ?b then _ else _] => destruct b
               end;
        cbn [app];
        first [ left; eexists _, _; reflexivity
              | right; exists ValueError; reflexivity ].
    + right. exists e. reflexivity.
    + unfold PyFloat.of_int in HH. destruct (PyFloat.of_Z H); discriminate.
  - right. exists e. reflexivity.
  - unfold PyFloat.of_int in HW. destruct (PyFloat.of_Z W); discriminate.
Qed.

(** X25: absolute coordinates given on the command line are never
    refused.  Where conversion is unavailable, the point is returned as
    it was given and the device is not asked.  Where it is available, the
    resolver is asked for the screen and the point is returned clamped to
    it; it is returned as it was given only if [validate_coordinates]
    raised, which it does not on a screen of less than 2^1023 pixels in
    each dimension for coordinates of at most 4300 digits. *)
Theorem absolute_coordinates_are_clamped (x y : Z) (tr : trace) :
  relative (a_command args) <> Some true ->
  (COORDINATE_CONVERSION_AVAILABLE env = false ->
   convert_coordinates_if_needed env args x y tr = (Ok (x, y), tr))
  /\ (COORDINATE_CONVERSION_AVAILABLE env = true ->
      exists info tr1 p tr',
        get_accurate_screen_info env (a_adb args) (a_device args) None tr
        = (Ok info, tr1)
        /\ convert_coordinates_if_needed env args x y tr = (Ok p, tr')
        /\ (p = (Z.max 0 (Z.min (width info - 1) x),
                 Z.max 0 (Z.min (height info - 1) y))
            \/ (p = (x, y)
                /\ exists e,
                    validate_coordinates x y (width info) (height info) tr1
                    = (Raise (Exception e), tr1)))
        /\ (0 < width info < 2 ^ 1023 -> 0 < height info < 2 ^ 1023 ->
            writable x -> writable y ->
            p = (Z.max 0 (Z.min (width info - 1) x),
                 Z.max 0 (Z.min (height info - 1) y)))).
Proof.
  intros Habs.
  assert (Hbody :
    convert_coordinates_if_needed env args x y
    = if COORDINATE_CONVERSION_AVAILABLE env
      then
        try_except
          (screen_info <~ get_accurate_screen_info env (a_adb args) (a_device args)
                            None ;;
           '(valid_x, valid_y, was_corrected) <~
              validate_coordinates x y (width screen_info) (height screen_info) ;;
           (if was_corrected
            then print_stderr (AbsoluteCorrected x y valid_x valid_y)
            else ret tt) ;;;
           ret (valid_x, valid_y))
          (fun _ => ret (x, y))
      else ret (x, y)).
  { unfold convert_coordinates_if_needed.
    destruct (relative (a_command args)) as [[|]|]; [congruence|reflexivity ..]. }
  rewrite Hbody. split; intros Havail; rewrite Havail; [reflexivity|].
  destruct (get_accurate_screen_info_returns (a_adb args) (a_device args) None tr)
    as (info & tr1 & Hinfo).
  exists info, tr1. unfold try_except, iobind. rewrite Hinfo.
  destruct (validate_coordinates_cases x y (width info) (height info) tr1)
    as [(c & tr2 & Hv)|(e & Hv)]; rewrite Hv.
  - destruct c; eexists _, _; (split; [reflexivity|]); (split; [reflexivity|]);
      (split; [left; reflexivity|]); intros _ _ _ _; reflexivity.
  - eexists _, _. split; [reflexivity|]. split; [reflexivity|].
    split; [right; split; [reflexivity|exists e; reflexivity]|].
    intros HW HH Hx Hy.
    destruct (validate_coordinates_returns x y (width info) (height info) tr1
                HW HH Hx Hy) as (tr2 & Hv').
    rewrite Hv' in Hv. discriminate.
Qed.

(** X26: relative coordinates given on the command line, on a screen the
    resolver finds to have less than 2^40 pixels in each dimension: the
    point [convert_coordinates_if_needed] returns is
    [convert_relative_to_absolute] of the coordinates given, out of range
    or not, and a pixel of that screen; validation changes nothing. *)
Theorem relative_coordinates_are_converted
  (x y : Z) (tr : trace) (info : screen_info) (tr1 : trace) :
  relative (a_command args) = Some true ->
  COORDINATE_CONVERSION_AVAILABLE env = true ->
  get_accurate_screen_info env (a_adb args) (a_device args) None tr = (Ok info, tr1) ->
  0 < width info < 2 ^ 40 -> 0 < height info < 2 ^ 40 ->
  exists p tr',
    convert_coordinates_if_needed env args x y tr = (Ok p, tr')
    /\ convert_relative_to_absolute x y (width info) (height info) = Ok p
    /\ 0 <= fst p < width info /\ 0 <= snd p < height info.
Proof.
  intros Hrel Havail Hinfo HW HH.
  unfold convert_coordinates_if_needed. rewrite Hrel, Havail. cbn [negb].
  unfold try_except at 1. unfold iobind at 1. rewrite Hinfo.
  set (out_of_range := (x <? 0) || (999 <? x) || (y <? 0) || (999 <? y)).
  set (x' := if out_of_range then Z.max 0 (Z.min 999 x) else x).
  set (y' := if out_of_range then Z.max 0 (Z.min 999 y) else y).
  destruct (convert_relative_to_absolute_in_screen x y (width info) (height info)
              HW HH) as (ax & ay & Hconv & Hx & Hy & _).
  assert (Hconv' : convert_relative_to_absolute x' y' (width info) (height info)
                   = Ok (ax, ay)).
  { rewrite <- Hconv. unfold convert_relative_to_absolute.
    replace (Z.max 0 (Z.min 999 x')) with (Z.max 0 (Z.min 999 x))
      by (unfold x'; destruct out_of_range; lia).
    replace (Z.max 0 (Z.min 999 y')) with (Z.max 0 (Z.min 999 y))
      by (unfold y'; destruct out_of_range; lia).
    reflexivity. }
  assert (HW' : 0 < width info < 2 ^ 1023).
  { split; [lia|]. apply Z.lt_le_trans with (2 ^ 40); [lia|].
    apply Z.pow_le_mono_r; lia. }
  assert (HH' : 0 < height info < 2 ^ 1023).
  { split; [lia|]. apply Z.lt_le_trans with (2 ^ 40); [lia|].
    apply Z.pow_le_mono_r; lia. }
  assert (Hval : forall tr2, exists tr3,
             validate_coordinates ax ay (width info) (height info) tr2
             = (Ok (ax, ay, false), tr3)).
  { intros tr2.
    destruct (validate_coordinates_returns ax ay (width info) (height info) tr2
                HW' HH'
                ltac:(apply (writable_on_screen ax (width info)); lia)
                ltac:(apply (writable_on_screen ay (height info)); lia))
      as (tr3 & Hv).
    exists tr3. rewrite Hv.
    replace (Z.max 0 (Z.min (width info - 1) ax)) with ax by lia.
    replace (Z.max 0 (Z.min (height info - 1) ay)) with ay by lia.
    rewrite !Z.eqb_refl. reflexivity. }
  exists (ax, ay). cbn [fst snd].
  assert (Hrun : exists tr',
    try_except
      ((if out_of_range
        then print_stderr (RelativeOutOfRange x y) ;;;
             print_stderr (RelativeClamped x' y')
        else ret tt) ;;;
       '(abs_x, abs_y) <~
          lift (convert_relative_to_absolute x' y' (width info) (height info)) ;;
       '(valid_x, valid_y, was_corrected) <~
          validate_coordinates abs_x abs_y (width info) (height info) ;;
       print_stderr (RelativeConverted x' y' valid_x valid_y) ;;;
       (if was_corrected && (negb (valid_x =? abs_x) || negb (valid_y =? abs_y))
        then print_stderr (AbsoluteAutoCorrected abs_x abs_y valid_x valid_y)
        else ret tt) ;;;
       ret (valid_x, valid_y))
      (fun e => print_stderr (ConversionFailed e) ;;; ret (x', y')) tr1
    = (Ok (ax, ay), tr')).
  { unfold try_except, iobind, lift. rewrite Hconv'.
    destruct out_of_range; unfold print_stderr, emit, ret.
    - destruct (Hval ((tr1 ++ [EvStderr (RelativeOutOfRange x y)])
                        ++ [EvStderr (RelativeClamped x' y')])) as (tr3 & ->).
      eexists. reflexivity.
    - destruct (Hval tr1) as (tr3 & ->). eexists. reflexivity. }
  destruct Hrun as (tr' & Hrun). exists tr'.
  split; [|split; [exact Hconv|lia]].
  fold out_of_range x' y'. rewrite Hrun. reflexivity.
Qed.

End CommandLineCoordinates.

Lemma absolute_coordinates_are_clamped_witness :
  exists info tr1 p tr',
    get_accurate_screen_info photographed_device (a_adb tap_blind)
      (a_device tap_blind) None []
    = (Ok info, tr1)
    /\ convert_coordinates_if_needed photographed_device tap_blind 1200 (-7) []
       = (Ok p, tr')
    /\ (p = (Z.max 0 (Z.min (width info - 1) 1200),
             Z.max 0 (Z.min (height info - 1) (-7)))
        \/ (p = (1200, -7)
            /\ exists e,
                validate_coordinates 1200 (-7) (width info) (height info) tr1
                = (Raise (Exception e), tr1)))
    /\ (0 < width info < 2 ^ 1023 -> 0 < height info < 2 ^ 1023 ->
        writable 1200 -> writable (-7) ->
        p = (Z.max 0 (Z.min (width info - 1) 1200),
             Z.max 0 (Z.min (height info - 1) (-7)))).
Proof.
  apply (proj2 (absolute_coordinates_are_clamped photographed_device tap_blind
                  1200 (-7) [] ltac:(discriminate))).
  reflexivity.
Defined.

Lemma relative_coordinates_are_converted_witness :
  exists p tr',
    convert_coordinates_if_needed photographed_device tap_relative 500 205 []
    = (Ok p, tr')
    /\ convert_relative_to_absolute 500 205 1080 2400 = Ok p
    /\ 0 <= fst p < 1080 /\ 0 <= snd p < 2400.
Proof.
  apply (relative_coordinates_are_converted photographed_device tap_relative 500 205 []
           (mkScreenInfo 1080 2400 440 default_aspect_ratio (u "adb"))
           (snd (get_accurate_screen_info photographed_device (u "adb")
                   (u "127.0.0.1:5555") None []))).
  - reflexivity.
  - reflexivity.
  - vm_compute. reflexivity.
  - vm_compute. split; congruence.
  - vm_compute. split; congruence.
Defined.

(** ** The screenshot *)

Lemma commands_run_app (a b : trace) :
  commands_run (a ++ b) = commands_run a ++ commands_run b.
Proof.
  induction a as [|e a IH]; [reflexivity|].
  destruct e; cbn [app commands_run]; rewrite IH; reflexivity.
Qed.

Section Screenshot.

Variable w : screenshot_world.

(** X27: the adb commands of [capture_screenshot] are, in this order,
    [exec-out screencap -p] and then, if that gave no picture, [screencap]
    to a file on the device, [pull] of that file to the output path and
    [rm -f] of that file.  Once [pull] has been run the file is removed,
    whether the pull succeeded or not: the sequence stops after [pull]
    only if the command could not be started.  What is returned is the
    output path: the one given, or the temporary file made for it; no
    command is run only if that file could not be made, and then nothing
    is returned. *)
Theorem capture_screenshot_commands
  (adb device : str) (timeout_s : Z) (output_path : option str)
  (tr : trace) (r : result str) (tr' : trace) :
  capture_screenshot w adb device timeout_s output_path tr = (r, tr') ->
  (output_path = None
   /\ exists e, tempfile_mkstemp w tr = inl e /\ r = Raise (Exception e) /\ tr' = tr)
  \/ exists p,
      match output_path with
      | Some p0 => p = p0
      | None => tempfile_mkstemp w tr = inr p
      end
      /\ (forall q, r = Ok q -> q = p)
      /\ (commands_run tr' = commands_run tr ++ [exec_out adb device]
          \/ exists remote,
              commands_run tr'
              = commands_run tr ++ [exec_out adb device; screencap adb device remote]
              \/ (commands_run tr'
                  = commands_run tr ++ [exec_out adb device;
                                        screencap adb device remote;
                                        pull adb device remote p]
                  /\ exists tr0 e,
                      subprocess_run (sw_env w) tr0 (pull adb device remote p) timeout_s
                      = NotRun e
                      /\ r = Raise (Exception e))
              \/ commands_run tr'
                 = commands_run tr ++ [exec_out adb device;
                                       screencap adb device remote;
                                       pull adb device remote p;
                                       rm adb device remote]).
Proof.
  unfold capture_screenshot, iobind at 1.
  destruct (match output_path with
            | Some p => ret p
            | None => _
            end tr) as [[p|x] tr0] eqn:Hpath.
  2:{ intros [= <- <-]. left.
      destruct output_path; [discriminate|]. split; [reflexivity|].
      destruct (tempfile_mkstemp w tr) as [e|p]; [|discriminate].
      injection Hpath as <- <-. exists e. auto. }
  assert (Htr0 : tr0 = tr
                 /\ match output_path with
                    | Some p0 => p = p0
                    | None => tempfile_mkstemp w tr = inr p
                    end).
  { destruct output_path as [p0|].
    - injection Hpath as <- <-. split; reflexivity.
    - destruct (tempfile_mkstemp w tr) as [e|p1]; [discriminate|].
      injection Hpath as <- <-. split; reflexivity. }
  destruct Htr0 as [-> Hp]. clear Hpath.
  intros H. right. exists p. split; [exact Hp|].
  set (tr1 := tr ++ [EvRun (exec_out adb device) timeout_s]) in *.
  assert (E1 : commands_run tr1 = commands_run tr ++ [exec_out adb device]).
  { unfold tr1. rewrite commands_run_app. reflexivity. }
  assert (Hpull : forall tr2,
             commands_run tr2 = commands_run tr ++ [exec_out adb device] ->
             capture_by_pull (sw_env w) adb device timeout_s p tr2 = (r, tr') ->
             (forall q, r = Ok q -> q = p)
             /\ (commands_run tr' = commands_run tr ++ [exec_out adb device]
                 \/ exists remote,
                     commands_run tr'
                     = commands_run tr ++ [exec_out adb device;
                                           screencap adb device remote]
                     \/ (commands_run tr'
                         = commands_run tr ++ [exec_out adb device;
                                               screencap adb device remote;
                                               pull adb device remote p]
                         /\ exists tr0 e,
                             subprocess_run (sw_env w) tr0
                               (pull adb device remote p) timeout_s = NotRun e
                             /\ r = Raise (Exception e))
                     \/ commands_run tr'
                        = commands_run tr ++ [exec_out adb device;
                                              screencap adb device remote;
                                              pull adb device remote p;
                                              rm adb device remote])).
  { intros tr2 E2. unfold capture_by_pull, iobind, lift, _run, raise, ret.
    destruct (PyFloat.to_int (time_time (sw_env w) tr2)) as [stamp|x].
    2:{ intros [= <- <-]. split; [discriminate|]. left.
        rewrite commands_run_app, E2. cbn. rewrite app_nil_r. reflexivity. }
    set (remote := u "/sdcard/phone_screen_" ++ of_int stamp ++ u ".png").
    set (tr3 := tr2 ++ [EvClock (time_time (sw_env w) tr2)]).
    assert (E3 : commands_run tr3 = commands_run tr ++ [exec_out adb device]).
    { unfold tr3. rewrite commands_run_app, E2. cbn. apply app_nil_r. }
    assert (Two : forall tr4,
               tr4 = tr3 ++ [EvRun (screencap adb device remote) timeout_s] ->
               commands_run tr4
               = commands_run tr ++ [exec_out adb device; screencap adb device remote]).
    { intros tr4 ->. rewrite commands_run_app, E3, <- app_assoc. reflexivity. }
    destruct (run_result _ (subprocess_run (sw_env w) tr3
                              (screencap adb device remote) timeout_s)) as [r1|x].
    2:{ intros [= <- <-]. split; [discriminate|]. right. exists remote. left.
        apply Two. reflexivity. }
    destruct (ok r1); cbn [negb].
    2:{ intros [= <- <-]. split; [discriminate|]. right. exists remote. left.
        apply Two. reflexivity. }
    set (tr4 := tr3 ++ [EvRun (screencap adb device remote) timeout_s]).
    assert (Three : commands_run (tr4 ++ [EvRun (pull adb device remote p) timeout_s])
                    = commands_run tr ++ [exec_out adb device;
                                          screencap adb device remote;
                                          pull adb device remote p]).
    { rewrite commands_run_app, (Two tr4 eq_refl), <- app_assoc. reflexivity. }
    destruct (subprocess_run (sw_env w) tr4 (pull adb device remote p) timeout_s)
      as [code out err|out err|e] eqn:Hrun; cbn [run_result].
    3:{ intros [= <- <-]. split; [discriminate|]. right. exists remote. right. left.
        split; [exact Three|]. exists tr4, e. split; [exact Hrun|reflexivity]. }
    all: set (tr5 := tr4 ++ [EvRun (pull adb device remote p) timeout_s]) in *;
      assert (Four : commands_run (tr5 ++ [EvRun (rm adb device remote) timeout_s])
                     = commands_run tr ++ [exec_out adb device;
                                           screencap adb device remote;
                                           pull adb device remote p;
                                           rm adb device remote])
        by (rewrite commands_run_app, Three, <- app_assoc; reflexivity);
      destruct (run_result _ (subprocess_run (sw_env w) tr5
                                (rm adb device remote) timeout_s)) as [r3|x];
      cbn [ok negb];
      try destruct (code =? 0); cbn [negb];
      intros [= <- <-];
      (split; [try discriminate; intros q [= <-]; reflexivity|]);
      right; exists remote; right; right; exact Four. }
  destruct (subprocess_run (sw_env w) tr (exec_out adb device) timeout_s)
    as [rc out err|out err|e].
  - destruct ((rc =? 0) && truthy out).
    + destruct (write_file w tr1 p out) as [[]|]; injection H as <- <-;
        (split; [try discriminate; intros q [= <-]; reflexivity|]);
        left; exact E1.
    + apply (Hpull tr1 E1 H).
  - apply (Hpull tr1 E1 H).
  - destruct e; injection H as <- <-; (split; [discriminate|]); left; exact E1.
Qed.

End Screenshot.

Lemma capture_screenshot_commands_witness :
  (@None str = None
   /\ exists e,
       tempfile_mkstemp stubborn_device [] = inl e
       /\ fst (capture_screenshot stubborn_device (u "adb") (u "127.0.0.1:5555")
                 120 None []) = Raise (Exception e)
       /\ snd (capture_screenshot stubborn_device (u "adb") (u "127.0.0.1:5555")
                 120 None []) = [])
  \/ exists p,
      tempfile_mkstemp stubborn_device [] = inr p
      /\ (forall q,
             fst (capture_screenshot stubborn_device (u "adb") (u "127.0.0.1:5555")
                    120 None []) = Ok q -> q = p)
      /\ (commands_run (snd (capture_screenshot stubborn_device (u "adb")
                               (u "127.0.0.1:5555") 120 None []))
          = commands_run [] ++ [exec_out (u "adb") (u "127.0.0.1:5555")]
          \/ exists remote,
              commands_run (snd (capture_screenshot stubborn_device (u "adb")
                                   (u "127.0.0.1:5555") 120 None []))
              = commands_run [] ++ [exec_out (u "adb") (u "127.0.0.1:5555");
                                    screencap (u "adb") (u "127.0.0.1:5555") remote]
              \/ (commands_run (snd (capture_screenshot stubborn_device (u "adb")
                                       (u "127.0.0.1:5555") 120 None []))
                  = commands_run [] ++ [exec_out (u "adb") (u "127.0.0.1:5555");
                                        screencap (u "adb") (u "127.0.0.1:5555") remote;
                                        pull (u "adb") (u "127.0.0.1:5555") remote p]
                  /\ exists tr0 e,
                      subprocess_run (sw_env stubborn_device) tr0
                        (pull (u "adb") (u "127.0.0.1:5555") remote p) 120
                      = NotRun e
                      /\ fst (capture_screenshot stubborn_device (u "adb")
                                (u "127.0.0.1:5555") 120 None [])
                         = Raise (Exception e))
              \/ commands_run (snd (capture_screenshot stubborn_device (u "adb")
                                      (u "127.0.0.1:5555") 120 None []))
                 = commands_run [] ++ [exec_out (u "adb") (u "127.0.0.1:5555");
                                       screencap (u "adb") (u "127.0.0.1:5555") remote;
                                       pull (u "adb") (u "127.0.0.1:5555") remote p;
                                       rm (u "adb") (u "127.0.0.1:5555") remote]).
Proof.
  apply (capture_screenshot_commands stubborn_device (u "adb") (u "127.0.0.1:5555")
           120 None []).
  apply surjective_pairing.
Defined.
